(** * Pantry Party collaboration hub: the session server of
      [src/server/websocket-server.js], embedded as state-passing functions.

    The three module-level maps of the source ([sessions], [clients],
    [userConnections]) become the fields of one [Server] record; every
    handler takes the server state and returns the new state together with
    the frames it wrote on sockets, in the order of the writes.

    Conventions of the embedding:
    - [Date.now()] is the argument [now] of a handler (one reading per
      handler run; the handlers contain no [await], so each run is atomic);
    - [uuidv4()] is the argument [uuid] of the handlers that draw an id;
    - a socket is a handle [Ws] (reference identity in the source); whether
      its [readyState] is [OPEN] is the membership of the handle in the field
      [openSockets];
    - payload fields are strings (booleans for the two flags); the server
      checks none of them, so a [voteType] is any string;
    - [String.prototype.toLowerCase], [Object.prototype] and the order of
      [Object.entries] are the run-time's: the last two are written out
      below, as the language defines them. *)

From stdpp Require Import gmap strings list.
From Stdlib Require Import ZArith Ascii.

Local Open Scope Z_scope.

(** ** Data model *)

(** A socket handle. *)
Abbreviation Ws := nat (only parsing).

Definition SESSION_TIMEOUT : Z := 4 * 60 * 60 * 1000.

(** The [voteType] of a [recipes:vote] payload is a string, which the
    handler compares with ["neutral"], and the recount with ["up"] and
    ["down"]. *)
Abbreviation VoteType := string (only parsing).

Definition Up : VoteType := "up".
Definition Down : VoteType := "down".
Definition Neutral : VoteType := "neutral".

Record Participant := mkParticipant {
  p_id : string;
  p_name : string;
  p_joinedAt : Z;
  p_isConnected : bool;
  p_reconnectedAt : option Z;
  p_disconnectedAt : option Z
}.

Record Ingredient := mkIngredient {
  i_id : string;
  i_name : string;
  i_addedBy : string;
  i_addedAt : Z
}.

(** The [ingredient] object of an [ingredients:add] payload; [in_id] is an id
    the client may have put there. *)
Record IngredientInput := mkIngredientInput {
  in_id : option string;
  in_name : string;
  in_addedBy : string
}.

(** [r_body] stands for the fields of the client's recipe that the spread
    [...recipe] carries over unchanged. *)
Record Recipe := mkRecipe {
  r_id : string;
  r_body : string;
  r_createdAt : Z;
  r_votes : Z;
  r_voterIds : list string
}.

(** [session.votes] is a JS object keyed by user id, each value an object
    keyed by recipe id.  [votes] holds the own properties of the outer
    object in the order of their creation (the order in which
    [Object.entries] lists them is [own_entries] below); the inner object is
    only read, written and deleted by key, and [gmap] holds its own
    properties.  What a read finds besides the own properties is
    [get_property] below. *)
Record Session := mkSession {
  s_id : string;
  hostId : string;
  hostName : string;
  createdAt : Z;
  lastActivity : Z;
  allowRecipeGeneration : bool;
  participants : list Participant;
  ingredients : list Ingredient;
  blacklist : list string;
  context : string;
  recipes : list Recipe;
  votes : list (string * gmap string VoteType)
}.

Record ClientInfo := mkClientInfo {
  c_userId : string;
  c_sessionId : string;
  c_username : string
}.

Inductive Message :=
| ConnectionEstablished (connectionId : string)
| SessionCreated (session : Session)
| SessionJoined (session : option Session)
| SessionError (message : string)
| SessionExpired (sessionId : string)
| SessionEnded (message : string)
| ParticipantJoined (id name : string) (joinedAt reconnectedAt : option Z)
| ParticipantDisconnected (userId username : string)
| IngredientsAdded (ingredient : Ingredient)
| IngredientsRemoved (ingredientId : string) (ingredient : Ingredient)
| IngredientsBlacklisted (ingredientName : string) (bl : list string)
    (ings : list Ingredient)
| RecipesAdded (recipe : Recipe)
| RecipesVoted (recipeId : string) (voteType : VoteType) (userId : string)
    (rs : list Recipe)
| RecipesRemoved (recipeId : string) (recipe : Recipe)
| ContextUpdated (ctx : string)
| HostTransferred (newHostId newHostName : string) (session : Session)
| HostPermissionsUpdated (allow : bool) (session : Session)
| ErrorMsg (message : string).

(** What a handler does outside the server's three maps:
    [ws.send(JSON.stringify m)], [ws.close(code, reason)], and
    [BuiltinWrite member key voteType]: [delete] and, for a vote other than
    neutral, assignment of the property [key] of the member [member] of
    [Object.prototype], a built-in object of the run-time
    ([handleRecipesVote]). *)
Inductive Event :=
| Send (ws : Ws) (m : Message)
| Close (ws : Ws) (code : Z) (reason : string)
| BuiltinWrite (member key : string) (voteType : VoteType).

Record Server := mkServer {
  sessions : gmap string Session;
  clients : list (Ws * ClientInfo);
  userConnections : gmap string Ws;
  openSockets : gset Ws
}.

Definition initial : Server := mkServer ∅ [] ∅ ∅.

(** ** Field updates *)

Definition set_sessions (m : gmap string Session) (st : Server) : Server :=
  mkServer m (clients st) (userConnections st) (openSockets st).

Definition set_clients (c : list (Ws * ClientInfo)) (st : Server) : Server :=
  mkServer (sessions st) c (userConnections st) (openSockets st).

Definition set_userConnections (u : gmap string Ws) (st : Server) : Server :=
  mkServer (sessions st) (clients st) u (openSockets st).

Definition set_openSockets (o : gset Ws) (st : Server) : Server :=
  mkServer (sessions st) (clients st) (userConnections st) o.

Definition set_lastActivity (t : Z) (s : Session) : Session :=
  mkSession (s_id s) (hostId s) (hostName s) (createdAt s) t
    (allowRecipeGeneration s) (participants s) (ingredients s) (blacklist s)
    (context s) (recipes s) (votes s).

Definition set_participants (ps : list Participant) (s : Session) : Session :=
  mkSession (s_id s) (hostId s) (hostName s) (createdAt s) (lastActivity s)
    (allowRecipeGeneration s) ps (ingredients s) (blacklist s)
    (context s) (recipes s) (votes s).

Definition set_ingredients (l : list Ingredient) (s : Session) : Session :=
  mkSession (s_id s) (hostId s) (hostName s) (createdAt s) (lastActivity s)
    (allowRecipeGeneration s) (participants s) l (blacklist s)
    (context s) (recipes s) (votes s).

Definition set_blacklist (l : list string) (s : Session) : Session :=
  mkSession (s_id s) (hostId s) (hostName s) (createdAt s) (lastActivity s)
    (allowRecipeGeneration s) (participants s) (ingredients s) l
    (context s) (recipes s) (votes s).

Definition set_context (c : string) (s : Session) : Session :=
  mkSession (s_id s) (hostId s) (hostName s) (createdAt s) (lastActivity s)
    (allowRecipeGeneration s) (participants s) (ingredients s) (blacklist s)
    c (recipes s) (votes s).

Definition set_recipes (l : list Recipe) (s : Session) : Session :=
  mkSession (s_id s) (hostId s) (hostName s) (createdAt s) (lastActivity s)
    (allowRecipeGeneration s) (participants s) (ingredients s) (blacklist s)
    (context s) l (votes s).

Definition set_votes (v : list (string * gmap string VoteType)) (s : Session)
  : Session :=
  mkSession (s_id s) (hostId s) (hostName s) (createdAt s) (lastActivity s)
    (allowRecipeGeneration s) (participants s) (ingredients s) (blacklist s)
    (context s) (recipes s) v.

Definition set_host (hid hname : string) (s : Session) : Session :=
  mkSession (s_id s) hid hname (createdAt s) (lastActivity s)
    (allowRecipeGeneration s) (participants s) (ingredients s) (blacklist s)
    (context s) (recipes s) (votes s).

Definition set_allowRecipeGeneration (b : bool) (s : Session) : Session :=
  mkSession (s_id s) (hostId s) (hostName s) (createdAt s) (lastActivity s)
    b (participants s) (ingredients s) (blacklist s)
    (context s) (recipes s) (votes s).

(** ** Strings *)

Definition eqs (a b : string) : bool := bool_decide (a = b).

(** ** Plain objects

    [session.votes] and the vote object of a user are created by [{}]: a
    read by key finds the own property of that name or, when there is none,
    the member of [Object.prototype] of that name. *)

(** The property names of [Object.prototype]. *)
Definition objectPrototypeKeys : list string :=
  ["__proto__"; "constructor"; "hasOwnProperty"; "isPrototypeOf";
   "propertyIsEnumerable"; "toLocaleString"; "toString"; "valueOf";
   "__defineGetter__"; "__defineSetter__"; "__lookupGetter__";
   "__lookupSetter__"].

Definition inherited (key : string) : bool :=
  existsb (eqs key) objectPrototypeKeys.

(** What [o[key]] evaluates to: an own property, a member of
    [Object.prototype] (an object or a function), or [undefined]. *)
Inductive Property (A : Type) :=
| Own (a : A)
| Member
| Undefined.

Arguments Own {A} a.
Arguments Member {A}.
Arguments Undefined {A}.

Definition get_property {A : Type} (own : option A) (key : string)
  : Property A :=
  match own with
  | Some a => Own a
  | None => if inherited key then Member else Undefined
  end.

(** The condition [if (userVotes[recipe.id])]: a stored string counts unless
    it is empty, a member of [Object.prototype] counts. *)
Definition truthy (p : Property string) : bool :=
  match p with
  | Own v => negb (eqs v EmptyString)
  | Member => true
  | Undefined => false
  end.

(** [o[key] = value] for a string [value]: the setter of [__proto__] ignores
    a value that is no object; every other key becomes an own property. *)
Definition assign (key value : string) (o : gmap string string)
  : gmap string string :=
  if eqs key "__proto__" then o else <[key := value]> o.

(** *** The order of [Object.entries]

    Own keys that are array indices (["0"], or decimal digits without a
    leading zero, below [2^32 - 1]) come first, in ascending numeric order;
    the other keys follow in the order of their creation. *)

Definition digit (c : ascii) : option N :=
  let n := N_of_ascii c in
  if ((48 <=? n) && (n <=? 57))%N then Some (n - 48)%N else None.

Fixpoint digits (s : string) (acc : N) : option N :=
  match s with
  | EmptyString => Some acc
  | String c s' =>
      match digit c with
      | Some d => digits s' (10 * acc + d)%N
      | None => None
      end
  end.

Definition array_index (key : string) : option N :=
  match key with
  | EmptyString => None
  | String c rest =>
      if (N_of_ascii c =? 48)%N
      then match rest with EmptyString => Some 0%N | _ => None end
      else match digits key 0 with
           | Some n => if (n <? 4294967295)%N then Some n else None
           | None => None
           end
  end.

Fixpoint insert_index {A : Type} (n : N) (e : A) (l : list (N * A))
  : list (N * A) :=
  match l with
  | [] => [(n, e)]
  | (m, e') :: l' =>
      if (n <? m)%N then (n, e) :: l else (m, e') :: insert_index n e l'
  end.

Definition index_step {A : Type} (acc : list (N * (string * A)))
  (e : string * A) : list (N * (string * A)) :=
  match array_index (fst e) with
  | Some n => insert_index n e acc
  | None => acc
  end.

Definition index_entries {A : Type} (v : list (string * A))
  : list (N * (string * A)) :=
  foldl index_step [] v.

Definition is_named {A : Type} (e : string * A) : bool :=
  match array_index (fst e) with
  | Some _ => false
  | None => true
  end.

Definition named_entries {A : Type} (v : list (string * A))
  : list (string * A) :=
  List.filter is_named v.

Definition own_entries {A : Type} (v : list (string * A))
  : list (string * A) :=
  List.map snd (index_entries v) ++ named_entries v.

(** ** The built-in [String.prototype.toLowerCase]

    The lowercasing of strings is the run-time's (Unicode's default case
    conversion), not code of the hub: the development takes it as a
    parameter.  All that is used of it is that lowercasing a lowercased
    string changes nothing. *)
Class Builtins := {
  toLowerCase : string -> string;
  toLowerCase_idempotent :
    forall s : string, toLowerCase (toLowerCase s) = toLowerCase s
}.

(** What the built-in does on strings of ASCII characters; the examples at
    the end use names of that kind. *)
Definition lower_ascii (c : ascii) : ascii :=
  let n := nat_of_ascii c in
  if ((65 <=? n)%nat && (n <=? 90)%nat)%bool then ascii_of_nat (n + 32) else c.

Fixpoint ascii_toLowerCase (s : string) : string :=
  match s with
  | EmptyString => EmptyString
  | String c s' => String (lower_ascii c) (ascii_toLowerCase s')
  end.

Definition ascii_builtins : Builtins.
Proof.
  refine {| toLowerCase := ascii_toLowerCase |}.
  intros s. induction s as [|c s IH]; simpl; [reflexivity|].
  rewrite IH. f_equal.
  destruct c as [[] [] [] [] [] [] [] []]; reflexivity.
Defined.

Section Hub.

Context {builtins : Builtins}.

(** ** The [clients] map: a JS [Map] keyed by socket, in insertion order *)

Fixpoint clients_get (ws : Ws) (c : list (Ws * ClientInfo)) : option ClientInfo :=
  match c with
  | [] => None
  | (w, ci) :: c' => if Nat.eqb w ws then Some ci else clients_get ws c'
  end.

(** [Map.prototype.set]: an existing key keeps its place. *)
Fixpoint clients_set (ws : Ws) (ci : ClientInfo) (c : list (Ws * ClientInfo))
  : list (Ws * ClientInfo) :=
  match c with
  | [] => [(ws, ci)]
  | (w, ci') :: c' =>
      if Nat.eqb w ws then (w, ci) :: c' else (w, ci') :: clients_set ws ci c'
  end.

Definition clients_delete (ws : Ws) (c : list (Ws * ClientInfo))
  : list (Ws * ClientInfo) :=
  List.filter (fun e => negb (Nat.eqb (fst e) ws)) c.

Definition is_open (ws : Ws) (st : Server) : bool :=
  bool_decide (ws ∈ openSockets st).

(** ** Session store *)

Definition expired (now : Z) (s : Session) : bool :=
  SESSION_TIMEOUT <? now - lastActivity s.

Definition createSession (sessionId hostId hostName : string) (now : Z)
  (st : Server) : Session * Server :=
  let session :=
    mkSession sessionId hostId hostName now now true
      [mkParticipant hostId hostName now true None None]
      [] [] EmptyString [] [] in
  (session, set_sessions (<[sessionId := session]> (sessions st)) st).

Definition getSession (sessionId : string) (now : Z) (st : Server)
  : option Session * Server :=
  match sessions st !! sessionId with
  | None => (None, st)
  | Some session =>
      if expired now session
      then (None, set_sessions (delete sessionId (sessions st)) st)
      else (Some session, st)
  end.

Definition updateSessionActivity (sessionId : string) (now : Z) (st : Server)
  : Server :=
  match sessions st !! sessionId with
  | Some session =>
      set_sessions (<[sessionId := set_lastActivity now session]> (sessions st)) st
  | None => st
  end.

(** A handler mutates the session object it got from [getSession] in place;
    here the changed session is stored back under its key. *)
Definition put_session (sessionId : string) (s : Session) (st : Server)
  : Server :=
  set_sessions (<[sessionId := s]> (sessions st)) st.

Definition has_participant (userId : string) (ps : list Participant) : bool :=
  existsb (fun p => eqs (p_id p) userId) ps.

(** The participant [find] returns is the first with that id. *)
Fixpoint reconnect_first (userId : string) (now : Z) (ps : list Participant)
  : list Participant :=
  match ps with
  | [] => []
  | p :: ps' =>
      if eqs (p_id p) userId
      then mkParticipant (p_id p) (p_name p) (p_joinedAt p) true (Some now)
             (p_disconnectedAt p) :: ps'
      else p :: reconnect_first userId now ps'
  end.

Fixpoint disconnect_first (userId : string) (now : Z) (ps : list Participant)
  : list Participant :=
  match ps with
  | [] => []
  | p :: ps' =>
      if eqs (p_id p) userId
      then mkParticipant (p_id p) (p_name p) (p_joinedAt p) false
             (p_reconnectedAt p) (Some now) :: ps'
      else p :: disconnect_first userId now ps'
  end.

Definition addParticipant (sessionId userId username : string) (now : Z)
  (st : Server) : option Session * Server :=
  match getSession sessionId now st with
  | (None, st1) => (None, st1)
  | (Some session, st1) =>
      let ps :=
        if has_participant userId (participants session)
        then reconnect_first userId now (participants session)
        else participants session
               ++ [mkParticipant userId username now true None None] in
      let session' := set_lastActivity now (set_participants ps session) in
      (Some session', put_session sessionId session' st1)
  end.

Definition removeParticipant (sessionId userId : string) (now : Z)
  (st : Server) : option Session * Server :=
  match getSession sessionId now st with
  | (None, st1) => (None, st1)
  | (Some session, st1) =>
      let session' :=
        set_participants
          (disconnect_first userId now (participants session)) session in
      (Some session', put_session sessionId session' st1)
  end.

(** ** Broadcaster *)

Definition excluded (excludeUserId : option string) (userId : string) : bool :=
  match excludeUserId with
  | Some u => eqs userId u
  | None => false
  end.

Definition receives (sessionId : string) (excludeUserId : option string)
  (st : Server) (e : Ws * ClientInfo) : bool :=
  eqs (c_sessionId (snd e)) sessionId
  && negb (excluded excludeUserId (c_userId (snd e)))
  && is_open (fst e) st.

Definition broadcastToSession (sessionId : string) (message : Message)
  (excludeUserId : option string) (now : Z) (st : Server)
  : Server * list Event :=
  match getSession sessionId now st with
  | (None, st1) => (st1, [])
  | (Some _, st1) =>
      (st1,
       List.map (fun e => Send (fst e) message)
         (List.filter (receives sessionId excludeUserId st1) (clients st1)))
  end.

Definition register (ws : Ws) (userId sessionId username : string)
  (st : Server) : Server :=
  set_userConnections (<[userId := ws]> (userConnections st))
    (set_clients
       (clients_set ws (mkClientInfo userId sessionId username) (clients st))
       st).

(** ** Votes *)

Fixpoint votes_get (userId : string) (v : list (string * gmap string VoteType))
  : option (gmap string VoteType) :=
  match v with
  | [] => None
  | (u, uv) :: v' => if eqs u userId then Some uv else votes_get userId v'
  end.

(** Writing under a key the object already has keeps the key's position. *)
Fixpoint votes_set (userId : string) (uv : gmap string VoteType)
  (v : list (string * gmap string VoteType))
  : list (string * gmap string VoteType) :=
  match v with
  | [] => [(userId, uv)]
  | (u, uv') :: v' =>
      if eqs u userId then (u, uv) :: v' else (u, uv') :: votes_set userId uv v'
  end.

(** [userVotes[recipeId]]. *)
Definition vote_property (uv : gmap string VoteType) (recipeId : string)
  : Property string :=
  get_property (uv !! recipeId) recipeId.

(** One round of the inner [forEach] of the recount: the running
    [upvotes], [downvotes] and [voterIds]. *)
Definition tally_entry (recipeId : string) (acc : Z * Z * list string)
  (e : string * gmap string VoteType) : Z * Z * list string :=
  let '(upvotes, downvotes, voterIds) := acc in
  let p := vote_property (snd e) recipeId in
  if truthy p then
    (match p with
     | Own v => if eqs v Up then upvotes + 1 else upvotes
     | _ => upvotes
     end,
     match p with
     | Own v =>
         if eqs v Up then downvotes
         else if eqs v Down then downvotes + 1 else downvotes
     | _ => downvotes
     end,
     voterIds ++ [fst e])
  else acc.

Definition tally (recipeId : string) (v : list (string * gmap string VoteType))
  : Z * Z * list string :=
  foldl (tally_entry recipeId) (0, 0, []) (own_entries v).

Definition recount (v : list (string * gmap string VoteType)) (recipe : Recipe)
  : Recipe :=
  let '(upvotes, downvotes, voterIds) := tally (r_id recipe) v in
  mkRecipe (r_id recipe) (r_body recipe) (r_createdAt recipe)
    (upvotes - downvotes) voterIds.

(** ** Lists edited by [findIndex] and [splice] *)

Fixpoint remove_first {A : Type} (f : A -> bool) (l : list A) : list A :=
  match l with
  | [] => []
  | x :: l' => if f x then l' else x :: remove_first f l'
  end.

(** ** Command handlers *)

Definition handleSessionCreate (ws : Ws) (sessionId userId username : string)
  (now : Z) (st : Server) : Server * list Event :=
  match getSession sessionId now st with
  | (Some existingSession, st1) =>
      if eqs (hostId existingSession) userId then
        let '(updated, st2) := addParticipant sessionId userId username now st1 in
        let st3 := register ws userId sessionId username st2 in
        let snapshot := default existingSession updated in
        let '(st4, evs) :=
          broadcastToSession sessionId
            (ParticipantJoined userId username None (Some now))
            (Some userId) now st3 in
        (st4, Send ws (SessionCreated snapshot) :: evs)
      else (st1, [Send ws (SessionError "Session already exists")])
  | (None, st1) =>
      let '(session, st2) := createSession sessionId userId username now st1 in
      let st3 := register ws userId sessionId username st2 in
      (st3, [Send ws (SessionCreated session)])
  end.

Definition handleSessionJoin (ws : Ws) (sessionId userId username : string)
  (now : Z) (st : Server) : Server * list Event :=
  match getSession sessionId now st with
  | (None, st1) => (st1, [Send ws (SessionError "Session not found or expired")])
  | (Some session, st1) =>
      match userConnections st1 !! userId with
      | Some existingConnection =>
          if negb (Nat.eqb existingConnection ws) then
            (st1, [Send ws (SessionError "User already connected from another client")])
          else
            let '(updated, st2) := addParticipant sessionId userId username now st1 in
            let st3 := register ws userId sessionId username st2 in
            let '(st4, evs) :=
              broadcastToSession sessionId
                (ParticipantJoined userId username (Some now) None)
                (Some userId) now st3 in
            (st4, Send ws (SessionJoined updated) :: evs)
      | None =>
          let '(updated, st2) := addParticipant sessionId userId username now st1 in
          let st3 := register ws userId sessionId username st2 in
          let '(st4, evs) :=
            broadcastToSession sessionId
              (ParticipantJoined userId username (Some now) None)
              (Some userId) now st3 in
          (st4, Send ws (SessionJoined updated) :: evs)
      end
  end.

Definition handleIngredientsAdd (ws : Ws) (ingredient : IngredientInput)
  (now : Z) (uuid : string) (st : Server) : Server * list Event :=
  match clients_get ws (clients st) with
  | None => (st, [])
  | Some clientInfo =>
      match getSession (c_sessionId clientInfo) now st with
      | (None, st1) => (st1, [])
      | (Some session, st1) =>
          let ingredientName := toLowerCase (in_name ingredient) in
          if existsb (fun ing => eqs (toLowerCase (i_name ing)) ingredientName)
               (ingredients session)
          then (st1, [])
          else
            let newIngredient :=
              mkIngredient uuid ingredientName (in_addedBy ingredient) now in
            let session' :=
              set_ingredients (ingredients session ++ [newIngredient]) session in
            let st2 :=
              updateSessionActivity (c_sessionId clientInfo) now
                (put_session (c_sessionId clientInfo) session' st1) in
            broadcastToSession (c_sessionId clientInfo)
              (IngredientsAdded newIngredient) None now st2
      end
  end.

Definition handleIngredientsRemove (ws : Ws) (ingredientId : string)
  (now : Z) (st : Server) : Server * list Event :=
  match clients_get ws (clients st) with
  | None => (st, [])
  | Some clientInfo =>
      match getSession (c_sessionId clientInfo) now st with
      | (None, st1) => (st1, [])
      | (Some session, st1) =>
          match List.find (fun ing => eqs (i_id ing) ingredientId)
                  (ingredients session) with
          | Some removedIngredient =>
              let session' :=
                set_ingredients
                  (remove_first (fun ing => eqs (i_id ing) ingredientId)
                     (ingredients session)) session in
              let st2 :=
                updateSessionActivity (c_sessionId clientInfo) now
                  (put_session (c_sessionId clientInfo) session' st1) in
              broadcastToSession (c_sessionId clientInfo)
                (IngredientsRemoved ingredientId removedIngredient) None now st2
          | None => (st1, [])
          end
      end
  end.

Definition handleIngredientsBlacklist (ws : Ws) (ingredientName : string)
  (fromIngredients : bool) (now : Z) (st : Server) : Server * list Event :=
  match clients_get ws (clients st) with
  | None => (st, [])
  | Some clientInfo =>
      match getSession (c_sessionId clientInfo) now st with
      | (None, st1) => (st1, [])
      | (Some session, st1) =>
          let name := toLowerCase ingredientName in
          let blacklist' :=
            if existsb (eqs name) (blacklist session)
            then blacklist session
            else blacklist session ++ [name] in
          let ingredients' :=
            if fromIngredients
            then remove_first (fun ing => eqs (toLowerCase (i_name ing)) name)
                   (ingredients session)
            else ingredients session in
          let session' :=
            set_ingredients ingredients' (set_blacklist blacklist' session) in
          let st2 :=
            updateSessionActivity (c_sessionId clientInfo) now
              (put_session (c_sessionId clientInfo) session' st1) in
          broadcastToSession (c_sessionId clientInfo)
            (IngredientsBlacklisted name blacklist' ingredients') None now st2
      end
  end.

Definition handleRecipesAdd (ws : Ws) (recipe : string) (now : Z)
  (uuid : string) (st : Server) : Server * list Event :=
  match clients_get ws (clients st) with
  | None => (st, [])
  | Some clientInfo =>
      match getSession (c_sessionId clientInfo) now st with
      | (None, st1) => (st1, [])
      | (Some session, st1) =>
          let newRecipe := mkRecipe uuid recipe now 0 [] in
          let session' := set_recipes (recipes session ++ [newRecipe]) session in
          let st2 :=
            updateSessionActivity (c_sessionId clientInfo) now
              (put_session (c_sessionId clientInfo) session' st1) in
          broadcastToSession (c_sessionId clientInfo)
            (RecipesAdded newRecipe) None now st2
      end
  end.

(** The vote object of the voter after [delete] and the conditional write. *)
Definition cast_vote (recipeId : string) (voteType : VoteType)
  (uv : gmap string VoteType) : gmap string VoteType :=
  let uv1 := delete recipeId uv in
  if negb (eqs voteType Neutral) then assign recipeId voteType uv1 else uv1.

(** [session.votes] after the three statements on it, for a user id that
    has an own entry or none at all. *)
Definition record_vote (userId recipeId : string) (voteType : VoteType)
  (v : list (string * gmap string VoteType))
  : list (string * gmap string VoteType) :=
  let v0 :=
    match votes_get userId v with
    | Some _ => v
    | None => v ++ [(userId, ∅)]
    end in
  votes_set userId
    (cast_vote recipeId voteType (default ∅ (votes_get userId v0))) v0.

(** When [session.votes] has no own entry for the user id and the id names
    a member of [Object.prototype], [session.votes[userId]] is that member:
    the handler skips the initialisation and deletes and assigns on a
    built-in object of the run-time, recorded as [BuiltinWrite];
    [session.votes] gets no entry, and the handler goes on to recount over
    the entries [session.votes] has, to stamp the session and to broadcast.
    From that write on the run-time is no longer the one this development
    describes (for the user id ["__proto__"] the member is
    [Object.prototype] itself, from which every object inherits): [step]
    takes no such frame. *)
Definition handleRecipesVote (ws : Ws) (recipeId : string)
  (voteType : VoteType) (now : Z) (st : Server) : Server * list Event :=
  match clients_get ws (clients st) with
  | None => (st, [])
  | Some clientInfo =>
      match getSession (c_sessionId clientInfo) now st with
      | (None, st1) => (st1, [])
      | (Some session, st1) =>
          let userId := c_userId clientInfo in
          match get_property (votes_get userId (votes session)) userId with
          | Member =>
              let recipes' :=
                List.map (recount (votes session)) (recipes session) in
              let session' := set_recipes recipes' session in
              let st2 :=
                updateSessionActivity (c_sessionId clientInfo) now
                  (put_session (c_sessionId clientInfo) session' st1) in
              let sent :=
                broadcastToSession (c_sessionId clientInfo)
                  (RecipesVoted recipeId voteType userId recipes') None now
                  st2 in
              (fst sent, BuiltinWrite userId recipeId voteType :: snd sent)
          | _ =>
              let votes' :=
                record_vote userId recipeId voteType (votes session) in
              let recipes' := List.map (recount votes') (recipes session) in
              let session' := set_recipes recipes' (set_votes votes' session) in
              let st2 :=
                updateSessionActivity (c_sessionId clientInfo) now
                  (put_session (c_sessionId clientInfo) session' st1) in
              broadcastToSession (c_sessionId clientInfo)
                (RecipesVoted recipeId voteType userId recipes') None now st2
          end
      end
  end.

Definition handleRecipesRemove (ws : Ws) (recipeId : string) (now : Z)
  (st : Server) : Server * list Event :=
  match clients_get ws (clients st) with
  | None => (st, [])
  | Some clientInfo =>
      match getSession (c_sessionId clientInfo) now st with
      | (None, st1) => (st1, [])
      | (Some session, st1) =>
          match List.find (fun r => eqs (r_id r) recipeId) (recipes session) with
          | Some removedRecipe =>
              let session' :=
                set_recipes
                  (remove_first (fun r => eqs (r_id r) recipeId)
                     (recipes session)) session in
              let st2 :=
                updateSessionActivity (c_sessionId clientInfo) now
                  (put_session (c_sessionId clientInfo) session' st1) in
              broadcastToSession (c_sessionId clientInfo)
                (RecipesRemoved recipeId removedRecipe) None now st2
          | None => (st1, [])
          end
      end
  end.

Definition handleContextUpdate (ws : Ws) (ctx : string) (now : Z)
  (st : Server) : Server * list Event :=
  match clients_get ws (clients st) with
  | None => (st, [])
  | Some clientInfo =>
      match getSession (c_sessionId clientInfo) now st with
      | (None, st1) => (st1, [])
      | (Some session, st1) =>
          if negb (eqs (c_userId clientInfo) (hostId session)) then (st1, [])
          else
            let session' := set_context ctx session in
            let st2 :=
              updateSessionActivity (c_sessionId clientInfo) now
                (put_session (c_sessionId clientInfo) session' st1) in
            broadcastToSession (c_sessionId clientInfo) (ContextUpdated ctx)
              (Some (c_userId clientInfo)) now st2
      end
  end.

Definition handleHostTransfer (ws : Ws) (newHostId : string) (now : Z)
  (st : Server) : Server * list Event :=
  match clients_get ws (clients st) with
  | None => (st, [])
  | Some clientInfo =>
      match getSession (c_sessionId clientInfo) now st with
      | (None, st1) => (st1, [])
      | (Some session, st1) =>
          if negb (eqs (hostId session) (c_userId clientInfo)) then
            (st1, [Send ws (ErrorMsg "Only host can transfer privileges")])
          else
            match List.find (fun p => eqs (p_id p) newHostId)
                    (participants session) with
            | None => (st1, [Send ws (ErrorMsg "New host not found in session")])
            | Some newHost =>
                let session' := set_host newHostId (p_name newHost) session in
                let st2 :=
                  updateSessionActivity (c_sessionId clientInfo) now
                    (put_session (c_sessionId clientInfo) session' st1) in
                broadcastToSession (c_sessionId clientInfo)
                  (HostTransferred newHostId (p_name newHost)
                     (set_lastActivity now session')) None now st2
            end
      end
  end.

Definition handleHostPermissions (ws : Ws) (allow : bool) (now : Z)
  (st : Server) : Server * list Event :=
  match clients_get ws (clients st) with
  | None => (st, [])
  | Some clientInfo =>
      match getSession (c_sessionId clientInfo) now st with
      | (None, st1) => (st1, [])
      | (Some session, st1) =>
          if negb (eqs (hostId session) (c_userId clientInfo)) then
            (st1, [Send ws (ErrorMsg "Only host can change permissions")])
          else
            let session' := set_allowRecipeGeneration allow session in
            let st2 :=
              updateSessionActivity (c_sessionId clientInfo) now
                (put_session (c_sessionId clientInfo) session' st1) in
            broadcastToSession (c_sessionId clientInfo)
              (HostPermissionsUpdated allow (set_lastActivity now session'))
              None now st2
      end
  end.

(** One round of the loop of [handleSessionEnd] over [clients.entries()]. *)
Definition end_client (sessionId : string) (acc : Server * list Event)
  (e : Ws * ClientInfo) : Server * list Event :=
  let '(st, evs) := acc in
  if eqs (c_sessionId (snd e)) sessionId then
    let st1 :=
      set_clients (clients_delete (fst e) (clients st))
        (set_userConnections
           (delete (c_userId (snd e)) (userConnections st)) st) in
    if is_open (fst e) st1
    then (set_openSockets (openSockets st1 ∖ {[fst e]}) st1,
          evs ++ [Close (fst e) 1000 "Session ended by host"])
    else (st1, evs)
  else (st, evs).

Definition handleSessionEnd (ws : Ws) (now : Z) (st : Server)
  : Server * list Event :=
  match clients_get ws (clients st) with
  | None => (st, [])
  | Some clientInfo =>
      match getSession (c_sessionId clientInfo) now st with
      | (None, st1) => (st1, [])
      | (Some session, st1) =>
          if negb (eqs (hostId session) (c_userId clientInfo)) then
            (st1, [Send ws (ErrorMsg "Only host can end session")])
          else
            let '(st2, evs) :=
              broadcastToSession (c_sessionId clientInfo)
                (SessionEnded "Session has been ended by the host") None now st1 in
            let st3 :=
              set_sessions (delete (c_sessionId clientInfo) (sessions st2)) st2 in
            foldl (end_client (c_sessionId clientInfo)) (st3, evs) (clients st3)
      end
  end.

Definition handleDisconnection (ws : Ws) (now : Z) (st : Server)
  : Server * list Event :=
  match clients_get ws (clients st) with
  | None => (st, [])
  | Some clientInfo =>
      let st1 :=
        set_userConnections
          (delete (c_userId clientInfo) (userConnections st))
          (set_clients (clients_delete ws (clients st)) st) in
      let '(_, st2) :=
        removeParticipant (c_sessionId clientInfo) (c_userId clientInfo) now st1 in
      broadcastToSession (c_sessionId clientInfo)
        (ParticipantDisconnected (c_userId clientInfo) (c_username clientInfo))
        (Some (c_userId clientInfo)) now st2
  end.

Definition handleConnection (ws : Ws) (connectionId : string) (st : Server)
  : Server * list Event :=
  (st, [Send ws (ConnectionEstablished connectionId)]).

(** ** Reaper *)

(** The ids the first loop of [cleanupExpiredSessions] collects. *)
Definition expiredSessions (now : Z) (st : Server) : list string :=
  List.map fst
    (List.filter (fun e => expired now (snd e)) (map_to_list (sessions st))).

(** One round of its second loop: delete, then notify. *)
Definition reap (now : Z) (acc : Server * list Event) (sessionId : string)
  : Server * list Event :=
  let '(st, evs) := acc in
  let st1 := set_sessions (delete sessionId (sessions st)) st in
  let '(st2, evs') :=
    broadcastToSession sessionId (SessionExpired sessionId) None now st1 in
  (st2, evs ++ evs').

Definition cleanupExpiredSessions (now : Z) (st : Server)
  : Server * list Event :=
  foldl (reap now) (st, []) (expiredSessions now st).

(** ** Dispatcher *)

Inductive Command :=
| SessionCreate (sessionId userId username : string)
| SessionJoin (sessionId userId username : string)
| IngredientsAdd (ingredient : IngredientInput)
| IngredientsRemove (ingredientId : string)
| IngredientsBlacklist (ingredientName : string) (fromIngredients : bool)
| RecipesAdd (recipe : string)
| RecipesVote (recipeId : string) (voteType : VoteType)
| RecipesRemove (recipeId : string)
| ContextUpdate (ctx : string)
| HostTransfer (newHostId : string)
| HostPermissions (allow : bool)
| SessionEnd
| Unknown (type : string).

Definition handleMessage (ws : Ws) (message : Command) (now : Z)
  (uuid : string) (st : Server) : Server * list Event :=
  match message with
  | SessionCreate sessionId userId username =>
      handleSessionCreate ws sessionId userId username now st
  | SessionJoin sessionId userId username =>
      handleSessionJoin ws sessionId userId username now st
  | IngredientsAdd ingredient => handleIngredientsAdd ws ingredient now uuid st
  | IngredientsRemove ingredientId =>
      handleIngredientsRemove ws ingredientId now st
  | IngredientsBlacklist ingredientName fromIngredients =>
      handleIngredientsBlacklist ws ingredientName fromIngredients now st
  | RecipesAdd recipe => handleRecipesAdd ws recipe now uuid st
  | RecipesVote recipeId voteType => handleRecipesVote ws recipeId voteType now st
  | RecipesRemove recipeId => handleRecipesRemove ws recipeId now st
  | ContextUpdate ctx => handleContextUpdate ws ctx now st
  | HostTransfer newHostId => handleHostTransfer ws newHostId now st
  | HostPermissions allow => handleHostPermissions ws allow now st
  | SessionEnd => handleSessionEnd ws now st
  | Unknown type =>
      (st, [Send ws (ErrorMsg ("Unknown message type: " +:+ type))])
  end.

(** ** Runs of the server *)

(** Modelled from the spec: [uuidv4] comes from the package [uuid], which
    is not part of the repository; the spec calls what it returns a "fresh
    uuid".  Fresh is taken as: the id occurs nowhere in the session, not as
    the id of an ingredient or a recipe, and not as a key of a vote
    object. *)
Definition uuid_unused_in (uuid : string) (s : Session) : bool :=
  forallb (fun ing => negb (eqs (i_id ing) uuid)) (ingredients s)
  && forallb (fun r => negb (eqs (r_id r) uuid)) (recipes s)
  && forallb (fun e => bool_decide (snd e !! uuid = None)) (votes s).

(** The commands whose handler calls [uuidv4()]. *)
Definition draws_uuid (message : Command) : bool :=
  match message with
  | IngredientsAdd _ | RecipesAdd _ => true
  | _ => false
  end.

(** Modelled from the spec: a fresh uuid is unused in every stored
    session. *)
Definition uuid_fresh (uuid : string) (st : Server) : Prop :=
  map_Forall (fun _ s => uuid_unused_in uuid s = true) (sessions st).

#[global] Instance uuid_fresh_dec (uuid : string) (st : Server) :
  Decision (uuid_fresh uuid st).
Proof. unfold uuid_fresh. apply _. Defined.

(** The events after which the run-time is the one this development
    describes. *)
Definition in_model (e : Event) : bool :=
  match e with
  | BuiltinWrite _ _ _ => false
  | _ => true
  end.

(** What happens to a server: a socket is accepted, a frame arrives on a
    socket, a socket stops being [OPEN], the close (or error) callback of a
    socket runs, the reaper's timer fires.  A drawn id is fresh and, being a
    uuid, no property name of [Object.prototype]; a frame whose handler
    writes on a built-in object ends the runs considered here. *)
Inductive step : Server -> Server -> Prop :=
| step_connect st ws connectionId :
    step st
      (set_openSockets ({[ws]} ∪ openSockets st)
         (fst (handleConnection ws connectionId st)))
| step_message st ws message now uuid :
    (draws_uuid message = true ->
     uuid_fresh uuid st /\ inherited uuid = false) ->
    forallb in_model (snd (handleMessage ws message now uuid st)) = true ->
    step st (fst (handleMessage ws message now uuid st))
| step_not_open st ws :
    step st (set_openSockets (openSockets st ∖ {[ws]}) st)
| step_disconnect st ws now :
    step st (fst (handleDisconnection ws now st))
| step_sweep st now :
    step st (fst (cleanupExpiredSessions now st)).

Inductive reachable : Server -> Prop :=
| reachable_initial : reachable initial
| reachable_step st st' : reachable st -> step st st' -> reachable st'.

(** * Vocabulary of the statements *)

Definition lowered_names (l : list Ingredient) : list string :=
  List.map (fun ing => toLowerCase (i_name ing)) l.

(** [votes[userId][recipeId]], absent when either key is. *)
Definition vote_on (v : list (string * gmap string VoteType))
  (userId recipeId : string) : option VoteType :=
  match votes_get userId v with
  | Some uv => uv !! recipeId
  | None => None
  end.

(** What a [recipes:vote] leaves under [votes[userId][recipeId]]: nothing
    for neutral, and nothing under [__proto__]. *)
Definition kept_vote (recipeId : string) (voteType : VoteType)
  : option VoteType :=
  if eqs voteType Neutral || eqs recipeId "__proto__" then None
  else Some voteType.

(** The users holding the vote [t] on a recipe, in the order of the keys. *)
Definition voters_with (t : VoteType) (recipeId : string)
  (v : list (string * gmap string VoteType)) : list string :=
  List.map fst
    (List.filter (fun e => bool_decide (snd e !! recipeId = Some t)) v).

(** The users the recount lists as voters of a recipe, in the order of
    [v]. *)
Definition voters (recipeId : string)
  (v : list (string * gmap string VoteType)) : list string :=
  List.map fst
    (List.filter (fun e => truthy (vote_property (snd e) recipeId)) v).

Definition no_neutral (e : string * gmap string VoteType) : Prop :=
  forall r, snd e !! r <> Some Neutral.

(** What holds of every stored session: the host is one of the
    participants, ingredient ids and lowercased ingredient names are without
    repetition, the vote object has each user once and stores no neutral
    vote, and every recipe carries the tally and the voters that a recount
    over [votes] gives. *)
Definition session_ok (s : Session) : Prop :=
  has_participant (hostId s) (participants s) = true
  /\ NoDup (List.map i_id (ingredients s))
  /\ NoDup (lowered_names (ingredients s))
  /\ NoDup (List.map fst (votes s))
  /\ Forall no_neutral (votes s)
  /\ Forall (fun r => recount (votes s) r = r) (recipes s).

Definition server_ok (st : Server) : Prop :=
  map_Forall (fun _ s => session_ok s) (sessions st).

(** No blacklisted name is the lowercased name of an ingredient. *)
Definition blacklist_disjoint (s : Session) : Prop :=
  forall name,
    In name (blacklist s) -> ~ In name (lowered_names (ingredients s)).

(** * Runs given as lists of inputs *)

Inductive Input :=
| Accept (ws : Ws) (connectionId : string)
| Frame (ws : Ws) (message : Command) (now : Z) (uuid : string)
| NotOpen (ws : Ws)
| Closed (ws : Ws) (now : Z)
| Tick (now : Z).

Definition next (st : Server) (i : Input) : Server :=
  match i with
  | Accept ws connectionId =>
      set_openSockets ({[ws]} ∪ openSockets st)
        (fst (handleConnection ws connectionId st))
  | Frame ws message now uuid => fst (handleMessage ws message now uuid st)
  | NotOpen ws => set_openSockets (openSockets st ∖ {[ws]}) st
  | Closed ws now => fst (handleDisconnection ws now st)
  | Tick now => fst (cleanupExpiredSessions now st)
  end.

(** Every id drawn along the run is unused when it is drawn and no
    property name of [Object.prototype], and no handler writes on a built-in
    object. *)
Fixpoint fresh_along (st : Server) (l : list Input) : bool :=
  match l with
  | [] => true
  | i :: l' =>
      match i with
      | Frame ws message now uuid =>
          (negb (draws_uuid message)
           || (bool_decide (uuid_fresh uuid st) && negb (inherited uuid)))
          && forallb in_model (snd (handleMessage ws message now uuid st))
      | _ => true
      end && fresh_along (next st i) l'
  end.

Definition run (l : list Input) : Server := foldl next initial l.

(** Whether a [session:create] for the session id is among the inputs. *)
Definition creates (sessionId : string) (l : list Input) : bool :=
  existsb (fun i => match i with
                    | Frame _ (SessionCreate k _ _) _ _ => eqs k sessionId
                    | _ => false
                    end) l.

(** * Some states of the server *)

(** Alice creates session ["S"] at time 0 on socket 1, which stays open. *)
Definition idle_server : Server :=
  run [Accept 1%nat "c1"; Frame 1%nat (SessionCreate "S" "U1" "Alice") 0 "x0"].

(** Alice (socket 1) creates session ["S"] and Bob (socket 2) joins. *)
Definition morning : list Input :=
  [Accept 1%nat "c1"; Accept 2%nat "c2";
   Frame 1%nat (SessionCreate "S" "U1" "Alice") 0 "x0";
   Frame 2%nat (SessionJoin "S" "U2" "Bob") 1 "x1"].

Definition two_users : Server := run morning.

Definition breakfast : Session :=
  mkSession "S" "U1" "Alice" 0 1 true
    [mkParticipant "U1" "Alice" 0 true None None;
     mkParticipant "U2" "Bob" 1 true None None]
    [] [] EmptyString [] [].

(** A third socket is accepted; on it the host will come back. *)
Definition doorstep : Server := run (morning ++ [Accept 3%nat "c3"]).

Definition rejoined : Server :=
  fst (handleSessionCreate 3%nat "S" "U1" "Alice" 5 doorstep).

(** Later Alice adds a recipe and flour, votes the recipe up, and Bob votes
    it down. *)
Definition evening : list Input :=
  morning
  ++ [Frame 1%nat (RecipesAdd "soup") 2 "R1";
      Frame 1%nat (IngredientsAdd (mkIngredientInput None "Flour" "U1")) 3 "I1";
      Frame 1%nat (RecipesVote "R1" Up) 4 "x4";
      Frame 2%nat (RecipesVote "R1" Down) 5 "x5"].

Definition soup : Recipe := mkRecipe "R1" "soup" 2 0 ["U1"; "U2"].

Definition supper : Session :=
  mkSession "S" "U1" "Alice" 0 5 true
    [mkParticipant "U1" "Alice" 0 true None None;
     mkParticipant "U2" "Bob" 1 true None None]
    [mkIngredient "I1" "flour" "U1" 3] [] EmptyString [soup]
    [("U1", {["R1" := Up]}); ("U2", {["R1" := Down]})].

(** An evening with a vote type the protocol does not have: Alice adds the
    soup and votes it up, Bob votes it ["sideways"]. *)
Definition potluck : list Input :=
  morning
  ++ [Frame 1%nat (RecipesAdd "soup") 2 "R1";
      Frame 1%nat (RecipesVote "R1" Up) 3 "x3";
      Frame 2%nat (RecipesVote "R1" "sideways") 4 "x4"].

(** Mallory joins the potluck on socket 4 under the user id ["__proto__"]. *)
Definition intruder : list Input :=
  potluck
  ++ [Accept 4%nat "c4";
      Frame 4%nat (SessionJoin "S" "__proto__" "Mallory") 5 "x5"].


(** Carol joins the evening on socket 3; she has not voted. *)
Definition late_evening : list Input :=
  evening ++ [Accept 3%nat "c3"; Frame 3%nat (SessionJoin "S" "U3" "Carol") 6 "x6"].

Definition late_supper : Session :=
  mkSession "S" "U1" "Alice" 0 6 true
    [mkParticipant "U1" "Alice" 0 true None None;
     mkParticipant "U2" "Bob" 1 true None None;
     mkParticipant "U3" "Carol" 6 true None None]
    [mkIngredient "I1" "flour" "U1" 3] [] EmptyString [soup]
    [("U1", {["R1" := Up]}); ("U2", {["R1" := Down]})].

(** * Further vocabulary: well-formed sessions, the session a command
      addresses *)

(** The commands that act for the session the calling socket is registered
    in (all but [session:create], [session:join] and unknown types). *)
Definition session_bound (message : Command) : bool :=
  match message with
  | SessionCreate _ _ _ | SessionJoin _ _ _ | Unknown _ => false
  | _ => true
  end.

(** The session a frame addresses: the one named in the payload of
    [session:create] and [session:join], otherwise the one the socket is
    registered in. *)
Definition target (ws : Ws) (message : Command) (st : Server) : option string :=
  match message with
  | SessionCreate sessionId _ _ | SessionJoin sessionId _ _ => Some sessionId
  | Unknown _ => None
  | _ => c_sessionId <$> clients_get ws (clients st)
  end.

Definition lowercase (name : string) : Prop := toLowerCase name = name.

(** The participant [find] gives for the host id carries the host name. *)
Definition host_named (s : Session) : Prop :=
  exists p,
    List.find (fun p => eqs (p_id p) (hostId s)) (participants s) = Some p
    /\ p_name p = hostName s.

(** What holds, besides [session_ok], of a session stored under key [k];
    the last two: no recipe id and no key of [votes] is a property name of
    [Object.prototype]. *)
Definition session_wf (k : string) (s : Session) : Prop :=
  s_id s = k
  /\ NoDup (List.map p_id (participants s))
  /\ host_named s
  /\ NoDup (List.map r_id (recipes s))
  /\ Forall (fun ing => lowercase (i_name ing)) (ingredients s)
  /\ NoDup (blacklist s)
  /\ Forall lowercase (blacklist s)
  /\ Forall (fun r => inherited (r_id r) = false) (recipes s)
  /\ Forall (fun e => inherited (fst e) = false) (votes s).

(** The registry and the socket states are the same in two states. *)
Definition same_registry (st st' : Server) : Prop :=
  clients st' = clients st
  /\ userConnections st' = userConnections st
  /\ openSockets st' = openSockets st.

(** The registered sockets of a session. *)
Definition members (sessionId : string) (c : list (Ws * ClientInfo))
  : list (Ws * ClientInfo) :=
  List.filter (fun e => eqs (c_sessionId (snd e)) sessionId) c.

(** What a vote counts for in a tally; no vote counts nothing. *)
Definition vote_value (o : option VoteType) : Z :=
  match o with
  | Some v => if eqs v Up then 1 else if eqs v Down then -1 else 0
  | None => 0
  end.

(** An event that stays within the session [o] addressed by a frame from
    [ws]: a message to [ws] itself or to an open socket registered in that
    session, or the closing of a socket registered in that session (a write
    on a built-in object touches no socket). *)
Definition addressed (ws : Ws) (o : option string) (st : Server) (e : Event)
  : Prop :=
  match e with
  | Send w _ =>
      w = ws
      \/ (w ∈ openSockets st
          /\ exists ci, In (w, ci) (clients st) /\ Some (c_sessionId ci) = o)
  | Close w _ _ =>
      exists ci, In (w, ci) (clients st) /\ Some (c_sessionId ci) = o
  | BuiltinWrite _ _ _ => True
  end.

(** * Reachability of a run *)

Lemma reachable_foldl (l : list Input) (st : Server) :
  reachable st -> fresh_along st l = true -> reachable (foldl next st l).
Proof.
  revert st. induction l as [|i l IH]; intros st Hr Hf; simpl in *; [done|].
  apply andb_true_iff in Hf as [Hi Hl]. apply IH; [|done].
  apply (reachable_step st); [done|].
  destruct i as [ws c|ws m now uuid|ws|ws now|now]; cbn [next].
  - apply step_connect.
  - apply andb_true_iff in Hi as [Hi Hin]. apply step_message; [|done].
    intros Hd. rewrite Hd in Hi. simpl in Hi.
    apply andb_true_iff in Hi as [Hi Hu].
    apply bool_decide_eq_true in Hi. by apply negb_true_iff in Hu.
  - apply step_not_open.
  - apply step_disconnect.
  - apply step_sweep.
Qed.

Lemma reachable_run (l : list Input) :
  fresh_along initial l = true -> reachable (run l).
Proof. apply reachable_foldl, reachable_initial. Qed.

(** * Facts about the session store and the broadcaster *)

Lemma eqs_true (a b : string) : eqs a b = true <-> a = b.
Proof. unfold eqs. apply bool_decide_eq_true. Qed.

Lemma eqs_false (a b : string) : eqs a b = false <-> a <> b.
Proof. unfold eqs. apply bool_decide_eq_false. Qed.

Lemma eqs_refl (a : string) : eqs a a = true.
Proof. by apply eqs_true. Qed.

Lemma expired_touch (now : Z) (s : Session) :
  expired now (set_lastActivity now s) = false.
Proof.
  unfold expired, set_lastActivity, SESSION_TIMEOUT; simpl.
  apply Z.ltb_ge. lia.
Qed.

Lemma getSession_live (sessionId : string) (now : Z) (st : Server) (s : Session) :
  sessions st !! sessionId = Some s ->
  expired now s = false ->
  getSession sessionId now st = (Some s, st).
Proof. intros Hs He. unfold getSession. by rewrite Hs, He. Qed.

Lemma getSession_Some (sessionId : string) (now : Z) (st st' : Server)
  (s : Session) :
  getSession sessionId now st = (Some s, st') ->
  st' = st /\ sessions st !! sessionId = Some s /\ expired now s = false.
Proof.
  unfold getSession. destruct (sessions st !! sessionId) as [s0|] eqn:Hs.
  - destruct (expired now s0) eqn:He; intros H; by simplify_eq.
  - intros H; simplify_eq.
Qed.

Lemma getSession_None (sessionId : string) (now : Z) (st st' : Server) :
  getSession sessionId now st = (None, st') ->
  st' = st \/ st' = set_sessions (delete sessionId (sessions st)) st.
Proof.
  unfold getSession. destruct (sessions st !! sessionId) as [s0|].
  - destruct (expired now s0); intros H; simplify_eq; auto.
  - intros H; simplify_eq; auto.
Qed.

Lemma touch_put (sessionId : string) (now : Z) (s : Session) (st : Server) :
  updateSessionActivity sessionId now (put_session sessionId s st)
  = put_session sessionId (set_lastActivity now s) st.
Proof.
  unfold updateSessionActivity, put_session; simpl.
  rewrite lookup_insert_eq. unfold set_sessions; simpl.
  by rewrite insert_insert_eq.
Qed.

Lemma broadcast_live (sessionId : string) (m : Message)
  (ex : option string) (now : Z) (st : Server) (s : Session) :
  sessions st !! sessionId = Some s ->
  expired now s = false ->
  broadcastToSession sessionId m ex now st
  = (st, List.map (fun e => Send (fst e) m)
           (List.filter (receives sessionId ex st) (clients st))).
Proof.
  intros Hs He. unfold broadcastToSession.
  by rewrite (getSession_live _ _ _ _ Hs He).
Qed.

(** The tail shared by the mutating handlers: store the changed session,
    stamp it, broadcast. *)
Lemma commit_broadcast (sessionId : string) (m : Message)
  (ex : option string) (now : Z) (st : Server) (s : Session) :
  broadcastToSession sessionId m ex now
    (updateSessionActivity sessionId now (put_session sessionId s st))
  = (put_session sessionId (set_lastActivity now s) st,
     List.map (fun e => Send (fst e) m)
       (List.filter (receives sessionId ex st) (clients st))).
Proof.
  rewrite touch_put.
  erewrite broadcast_live; [reflexivity | | apply expired_touch].
  unfold put_session; simpl. apply lookup_insert_eq.
Qed.

Lemma broadcast_absent (sessionId : string) (m : Message)
  (ex : option string) (now : Z) (st : Server) :
  sessions st !! sessionId = None ->
  broadcastToSession sessionId m ex now st = (st, []).
Proof.
  intros Hs. unfold broadcastToSession, getSession. by rewrite Hs.
Qed.

(** * The reaper *)

Lemma reap_silent (now : Z) (st : Server) (evs : list Event)
  (sessionId : string) :
  reap now (st, evs) sessionId
  = (set_sessions (delete sessionId (sessions st)) st, evs).
Proof.
  unfold reap. rewrite broadcast_absent.
  - by rewrite app_nil_r.
  - simpl. apply lookup_delete_eq.
Qed.

Lemma reap_fold (now : Z) (ids : list string) (st : Server)
  (evs : list Event) :
  foldl (reap now) (st, evs) ids
  = (set_sessions (foldl (fun m k => delete k m) (sessions st) ids) st, evs).
Proof.
  revert st. induction ids as [|k ids IH]; intros st; cbn [foldl].
  - by destruct st.
  - rewrite reap_silent, IH. reflexivity.
Qed.

Lemma lookup_delete_all (ids : list string) (m : gmap string Session)
  (k : string) :
  foldl (fun m k => delete k m) m ids !! k
  = if bool_decide (k ∈ ids) then None else m !! k.
Proof.
  revert m. induction ids as [|i ids IH]; intros m; simpl; try done.
  rewrite IH. case_bool_decide as Hin.
  - rewrite bool_decide_eq_true_2; [done | set_solver].
  - destruct (decide (k = i)) as [->|Hne].
    + rewrite bool_decide_eq_true_2; [apply lookup_delete_eq | set_solver].
    + rewrite bool_decide_eq_false_2.
      * by apply lookup_delete_ne.
      * intros [?|?]%elem_of_cons; congruence.
Qed.

Lemma elem_of_expiredSessions (now : Z) (st : Server) (k : string) :
  k ∈ expiredSessions now st
  <-> exists s, sessions st !! k = Some s /\ expired now s = true.
Proof.
  unfold expiredSessions. rewrite list_elem_of_In, in_map_iff. split.
  - intros ([k' s] & <- & [Hin He]%filter_In).
    exists s. split; [|done].
    by apply elem_of_map_to_list, list_elem_of_In.
  - intros (s & Hs & He). exists (k, s). split; [done|].
    apply filter_In. split; [|done].
    by apply list_elem_of_In, elem_of_map_to_list.
Qed.

(** The sweep writes on no socket, whatever the state. *)
Lemma cleanupExpiredSessions_silent (now : Z) (st : Server) :
  snd (cleanupExpiredSessions now st) = [].
Proof. unfold cleanupExpiredSessions. by rewrite reap_fold. Qed.

(** The sweep removes exactly the sessions idle for longer than the timeout. *)
Lemma cleanupExpiredSessions_sessions (now : Z) (st : Server) (k : string) :
  sessions (fst (cleanupExpiredSessions now st)) !! k
  = match sessions st !! k with
    | Some s => if expired now s then None else Some s
    | None => None
    end.
Proof.
  unfold cleanupExpiredSessions. rewrite reap_fold; simpl.
  rewrite lookup_delete_all. case_bool_decide as Hin.
  - apply elem_of_expiredSessions in Hin as (s & -> & ->). done.
  - destruct (sessions st !! k) as [s|] eqn:Hs; [|done].
    destruct (expired now s) eqn:He; [|done].
    exfalso. apply Hin, elem_of_expiredSessions. eauto.
Qed.

Lemma cleanupExpiredSessions_registry (now : Z) (st : Server) :
  clients (fst (cleanupExpiredSessions now st)) = clients st
  /\ userConnections (fst (cleanupExpiredSessions now st)) = userConnections st
  /\ openSockets (fst (cleanupExpiredSessions now st)) = openSockets st.
Proof. unfold cleanupExpiredSessions. by rewrite reap_fold. Qed.

(** * The client registry and the recipients of a broadcast *)

Lemma clients_get_In (ws : Ws) (c : list (Ws * ClientInfo)) (ci : ClientInfo) :
  clients_get ws c = Some ci -> In (ws, ci) c.
Proof.
  induction c as [|[w ci'] c IH]; simpl; [done|].
  destruct (Nat.eqb w ws) eqn:E.
  - apply Nat.eqb_eq in E as ->. intros [= ->]. by left.
  - intros H. right. auto.
Qed.

Lemma clients_get_set_eq (ws : Ws) (ci : ClientInfo) (c : list (Ws * ClientInfo)) :
  clients_get ws (clients_set ws ci c) = Some ci.
Proof.
  induction c as [|[w ci'] c IH]; simpl.
  - by rewrite Nat.eqb_refl.
  - destruct (Nat.eqb w ws) eqn:E; simpl; by rewrite E.
Qed.

Lemma clients_get_set_ne (w ws : Ws) (ci : ClientInfo)
  (c : list (Ws * ClientInfo)) :
  w <> ws -> clients_get w (clients_set ws ci c) = clients_get w c.
Proof.
  intros Hne. induction c as [|[w' ci'] c IH]; simpl.
  - destruct (Nat.eqb_spec ws w); [congruence | done].
  - destruct (Nat.eqb_spec w' ws) as [->|]; simpl.
    + destruct (Nat.eqb_spec ws w); [congruence | done].
    + by rewrite IH.
Qed.

Lemma receives_spec (sessionId : string) (ex : option string) (st : Server)
  (w : Ws) (ci : ClientInfo) :
  receives sessionId ex st (w, ci) = true
  <-> c_sessionId ci = sessionId
      /\ excluded ex (c_userId ci) = false
      /\ w ∈ openSockets st.
Proof.
  unfold receives, is_open; simpl.
  rewrite !andb_true_iff, negb_true_iff, eqs_true, bool_decide_eq_true.
  tauto.
Qed.

(** Who is written to by a broadcast: the registered sockets of the session
    that are open and do not belong to the excluded user. *)
Lemma broadcast_recipients (sessionId : string) (ex : option string)
  (st : Server) (c : list (Ws * ClientInfo)) (m : Message) (w : Ws) :
  In (Send w m)
    (List.map (fun e => Send (fst e) m)
       (List.filter (receives sessionId ex st) c))
  <-> exists ci, In (w, ci) c
                 /\ c_sessionId ci = sessionId
                 /\ excluded ex (c_userId ci) = false
                 /\ w ∈ openSockets st.
Proof.
  rewrite in_map_iff. split.
  - intros ([w' ci] & [= ->] & [Hin Hr]%filter_In).
    exists ci. split; [done|]. by apply receives_spec.
  - intros (ci & Hin & Hr). exists (w, ci). split; [done|].
    apply filter_In. split; [done|]. by apply receives_spec.
Qed.

(** * context:update *)

(** C7.  A [context:update] from a registered caller of a live session who is
    not its host changes nothing and writes nothing; from the host it
    overwrites [context] and writes [context:updated] on exactly the open
    registered sockets of the session whose user is not the host. *)
Theorem handleContextUpdate_host_only (ws : Ws) (ctx : string) (now : Z)
  (st : Server) (ci : ClientInfo) (s : Session)
  (Hreg : clients_get ws (clients st) = Some ci)
  (Hs : sessions st !! c_sessionId ci = Some s)
  (Hlive : expired now s = false) :
  (c_userId ci <> hostId s ->
     handleContextUpdate ws ctx now st = (st, []))
  /\ (c_userId ci = hostId s ->
      exists s',
        sessions (fst (handleContextUpdate ws ctx now st)) !! c_sessionId ci
          = Some s'
        /\ s' = set_lastActivity now (set_context ctx s)
        /\ context s' = ctx
        /\ snd (handleContextUpdate ws ctx now st)
           = List.map (fun e => Send (fst e) (ContextUpdated ctx))
               (List.filter
                  (receives (c_sessionId ci) (Some (hostId s)) st)
                  (clients st))
        /\ forall w,
             In (Send w (ContextUpdated ctx))
               (snd (handleContextUpdate ws ctx now st))
             <-> exists ci', In (w, ci') (clients st)
                             /\ c_sessionId ci' = c_sessionId ci
                             /\ c_userId ci' <> hostId s
                             /\ w ∈ openSockets st).
Proof.
  unfold handleContextUpdate.
  rewrite Hreg, (getSession_live _ _ _ _ Hs Hlive). split.
  - intros Hne. apply eqs_false in Hne. by rewrite Hne.
  - intros Heq. rewrite (proj2 (eqs_true _ _) Heq); simpl.
    rewrite commit_broadcast; simpl.
    exists (set_lastActivity now (set_context ctx s)).
    split; [apply lookup_insert_eq|]. split; [done|]. split; [done|].
    rewrite Heq. split; [done|].
    intros w. rewrite broadcast_recipients.
    split; intros (ci' & Hin & Hsid & Hex & Hopen); exists ci';
      (split; [done|]; split; [done|]; split; [|done]).
    + simpl in Hex. by apply eqs_false in Hex.
    + simpl. by apply eqs_false.
Qed.

(** * session:create and session:join *)

Lemma addParticipant_live (sessionId userId username : string) (now : Z)
  (st : Server) (s : Session) :
  sessions st !! sessionId = Some s ->
  expired now s = false ->
  addParticipant sessionId userId username now st
  = let ps :=
      if has_participant userId (participants s)
      then reconnect_first userId now (participants s)
      else participants s ++ [mkParticipant userId username now true None None] in
    let s' := set_lastActivity now (set_participants ps s) in
    (Some s', put_session sessionId s' st).
Proof.
  intros Hs He. unfold addParticipant.
  by rewrite (getSession_live _ _ _ _ Hs He).
Qed.

Lemma reconnect_first_find (userId : string) (now : Z) (ps : list Participant) :
  has_participant userId ps = true ->
  exists p,
    List.find (fun p => eqs (p_id p) userId) (reconnect_first userId now ps)
      = Some p
    /\ p_id p = userId
    /\ p_isConnected p = true
    /\ p_reconnectedAt p = Some now.
Proof.
  unfold has_participant. induction ps as [|p ps IH]; simpl; [done|].
  destruct (eqs (p_id p) userId) eqn:E; simpl.
  - intros _. rewrite E. eexists. split; [done|]. simpl.
    by apply eqs_true in E.
  - intros H. rewrite E. auto.
Qed.

(** C4, as the code has it.  A [session:join] for a live session by a user id
    that the registry binds to another socket fails with ["User already
    connected from another client"] and leaves the state as it was.
    [session:create] makes no such check: on a live session of another host
    it fails with ["Session already exists"], again without a change, and
    for a session id that is not stored it creates the session, answers
    [session:created] and binds the user id to the caller's socket. *)
Theorem handleSessionJoin_already_connected (ws other : Ws)
  (sessionId userId username : string) (now : Z) (st : Server) (s : Session)
  (Hs : sessions st !! sessionId = Some s)
  (Hlive : expired now s = false)
  (Hbound : userConnections st !! userId = Some other)
  (Hother : other <> ws) :
  handleSessionJoin ws sessionId userId username now st
  = (st, [Send ws (SessionError "User already connected from another client")])
  /\ (hostId s <> userId ->
      handleSessionCreate ws sessionId userId username now st
      = (st, [Send ws (SessionError "Session already exists")]))
  /\ (forall newId,
        sessions st !! newId = None ->
        let created :=
          mkSession newId userId username now now true
            [mkParticipant userId username now true None None]
            [] [] EmptyString [] [] in
        snd (handleSessionCreate ws newId userId username now st)
        = [Send ws (SessionCreated created)]
        /\ sessions (fst (handleSessionCreate ws newId userId username now st))
             !! newId = Some created
        /\ userConnections
             (fst (handleSessionCreate ws newId userId username now st))
             !! userId = Some ws).
Proof.
  split; [|split].
  - unfold handleSessionJoin.
    rewrite (getSession_live _ _ _ _ Hs Hlive); cbv beta iota.
    rewrite Hbound. by apply Nat.eqb_neq in Hother as ->.
  - intros Hne. unfold handleSessionCreate.
    rewrite (getSession_live _ _ _ _ Hs Hlive); cbv beta iota.
    by apply eqs_false in Hne as ->.
  - intros newId Hnew created. unfold handleSessionCreate, getSession.
    rewrite Hnew. simpl. split; [done|].
    split; apply lookup_insert_eq.
Qed.

(** * ingredients:add and ingredients:remove *)

Lemma existsb_lowered (name : string) (l : list Ingredient) :
  existsb (fun ing => eqs (toLowerCase (i_name ing)) name) l = true
  <-> In name (lowered_names l).
Proof.
  unfold lowered_names. rewrite existsb_exists, in_map_iff.
  split; intros (ing & H1 & H2); exists ing.
  - by apply eqs_true in H2.
  - split; [done | by apply eqs_true].
Qed.

Lemma forallb_ids (uuid : string) (l : list Ingredient) :
  forallb (fun ing => negb (eqs (i_id ing) uuid)) l = true
  <-> ~ In uuid (List.map i_id l).
Proof.
  rewrite forallb_forall, in_map_iff. split.
  - intros H (ing & Hid & Hin). specialize (H ing Hin).
    by rewrite (proj2 (eqs_true _ _) Hid) in H.
  - intros H ing Hin. apply negb_true_iff, eqs_false.
    intros Hid. apply H. eauto.
Qed.

Lemma uuid_fresh_session (uuid : string) (st : Server) (k : string)
  (s : Session) :
  uuid_fresh uuid st ->
  sessions st !! k = Some s ->
  ~ In uuid (List.map i_id (ingredients s))
  /\ forallb (fun r => negb (eqs (r_id r) uuid)) (recipes s) = true
  /\ forallb (fun e => bool_decide (snd e !! uuid = None)) (votes s) = true.
Proof.
  intros Hf Hs. specialize (Hf k s Hs). unfold uuid_unused_in in Hf.
  apply andb_true_iff in Hf as [[H1 H2]%andb_true_iff H3].
  by rewrite <- forallb_ids.
Qed.

Lemma find_app_last {A : Type} (f : A -> bool) (l : list A) (y : A) :
  existsb f l = false -> f y = true -> List.find f (l ++ [y]) = Some y.
Proof.
  intros Hl Hy. induction l as [|x l IH]; simpl in *.
  - by rewrite Hy.
  - apply orb_false_iff in Hl as [-> Hl]. auto.
Qed.

Lemma remove_first_app_last {A : Type} (f : A -> bool) (l : list A) (y : A) :
  existsb f l = false -> f y = true -> remove_first f (l ++ [y]) = l.
Proof.
  intros Hl Hy. induction l as [|x l IH]; simpl in *.
  - by rewrite Hy.
  - apply orb_false_iff in Hl as [-> Hl]. by rewrite IH.
Qed.

Lemma existsb_ids (uuid : string) (l : list Ingredient) :
  ~ In uuid (List.map i_id l) ->
  existsb (fun ing => eqs (i_id ing) uuid) l = false.
Proof.
  intros H. apply not_true_is_false. intros (ing & Hin & Hid)%existsb_exists.
  apply H, in_map_iff. exists ing. split; [by apply eqs_true | done].
Qed.

(** What [ingredients:add] does on a live session, by the two cases of its
    duplicate check. *)
Lemma handleIngredientsAdd_live (ws : Ws) (ingredient : IngredientInput)
  (now : Z) (uuid : string) (st : Server) (ci : ClientInfo) (s : Session) :
  clients_get ws (clients st) = Some ci ->
  sessions st !! c_sessionId ci = Some s ->
  expired now s = false ->
  handleIngredientsAdd ws ingredient now uuid st
  = if existsb
         (fun ing => eqs (toLowerCase (i_name ing))
                       (toLowerCase (in_name ingredient)))
         (ingredients s)
    then (st, [])
    else
      let newIngredient :=
        mkIngredient uuid (toLowerCase (in_name ingredient))
          (in_addedBy ingredient) now in
      (put_session (c_sessionId ci)
         (set_lastActivity now
            (set_ingredients (ingredients s ++ [newIngredient]) s)) st,
       List.map (fun e => Send (fst e) (IngredientsAdded newIngredient))
         (List.filter (receives (c_sessionId ci) None st) (clients st))).
Proof.
  intros Hreg Hs Hlive. unfold handleIngredientsAdd.
  rewrite Hreg, (getSession_live _ _ _ _ Hs Hlive); cbv beta iota zeta.
  destruct (existsb _ _); [done|]. by rewrite commit_broadcast.
Qed.

Lemma handleIngredientsRemove_live (ws : Ws) (ingredientId : string)
  (now : Z) (st : Server) (ci : ClientInfo) (s : Session) :
  clients_get ws (clients st) = Some ci ->
  sessions st !! c_sessionId ci = Some s ->
  expired now s = false ->
  handleIngredientsRemove ws ingredientId now st
  = match List.find (fun ing => eqs (i_id ing) ingredientId) (ingredients s) with
    | Some removed =>
        (put_session (c_sessionId ci)
           (set_lastActivity now
              (set_ingredients
                 (remove_first (fun ing => eqs (i_id ing) ingredientId)
                    (ingredients s)) s)) st,
         List.map
           (fun e => Send (fst e) (IngredientsRemoved ingredientId removed))
           (List.filter (receives (c_sessionId ci) None st) (clients st)))
    | None => (st, [])
    end.
Proof.
  intros Hreg Hs Hlive. unfold handleIngredientsRemove.
  rewrite Hreg, (getSession_live _ _ _ _ Hs Hlive); cbv beta iota zeta.
  destruct (List.find _ _); [|done]. by rewrite commit_broadcast.
Qed.

(** C9.  On a live session, adding an ingredient whose name is not yet there
    and then removing the ingredient by the id the server gave it (any
    registered socket of the session may send the removal, while the session
    is still live) leaves [ingredients] as it was before the add. *)
Theorem add_then_remove_ingredient (ws ws2 : Ws) (ingredient : IngredientInput)
  (now now2 : Z) (uuid : string) (st : Server) (ci ci2 : ClientInfo)
  (s : Session)
  (Hreg : clients_get ws (clients st) = Some ci)
  (Hreg2 : clients_get ws2 (clients st) = Some ci2)
  (Hsame : c_sessionId ci2 = c_sessionId ci)
  (Hs : sessions st !! c_sessionId ci = Some s)
  (Hlive : expired now s = false)
  (Hnew : ~ In (toLowerCase (in_name ingredient)) (lowered_names (ingredients s)))
  (Hfresh : uuid_fresh uuid st)
  (Hlive2 : now2 - now <= SESSION_TIMEOUT) :
  let added := handleIngredientsAdd ws ingredient now uuid st in
  let removed := handleIngredientsRemove ws2 uuid now2 (fst added) in
  (exists s1 newIngredient,
     sessions (fst added) !! c_sessionId ci = Some s1
     /\ ingredients s1 = ingredients s ++ [newIngredient]
     /\ i_id newIngredient = uuid
     /\ forall e, In e (snd added) ->
          exists w, e = Send w (IngredientsAdded newIngredient))
  /\ (exists s2,
        sessions (fst removed) !! c_sessionId ci = Some s2
        /\ ingredients s2 = ingredients s).
Proof.
  intros added removed.
  destruct (uuid_fresh_session _ _ _ _ Hfresh Hs) as (Hid & _ & _).
  assert (Hadd := handleIngredientsAdd_live ws ingredient now uuid st ci s
                    Hreg Hs Hlive).
  rewrite (not_true_is_false _ (fun H => Hnew (proj1 (existsb_lowered _ _) H)))
    in Hadd.
  cbv zeta in Hadd. fold added in Hadd.
  set (newIngredient :=
         mkIngredient uuid (toLowerCase (in_name ingredient))
           (in_addedBy ingredient) now) in *.
  set (s1 := set_lastActivity now
               (set_ingredients (ingredients s ++ [newIngredient]) s)) in *.
  split.
  - exists s1, newIngredient. rewrite Hadd; simpl.
    split; [apply lookup_insert_eq|]. split; [done|]. split; [done|].
    intros e ([w ci'] & <- & _)%in_map_iff. by exists w.
  - assert (Hs1 : sessions (fst added) !! c_sessionId ci2 = Some s1).
    { rewrite Hadd, Hsame. simpl. apply lookup_insert_eq. }
    assert (Hreg1 : clients_get ws2 (clients (fst added)) = Some ci2)
      by (by rewrite Hadd).
    assert (Hl1 : expired now2 s1 = false).
    { unfold expired, s1; simpl. apply Z.ltb_ge. lia. }
    unfold removed.
    rewrite (handleIngredientsRemove_live _ _ _ _ _ _ Hreg1 Hs1 Hl1).
    assert (He : existsb (fun ing => eqs (i_id ing) uuid) (ingredients s) = false)
      by by apply existsb_ids.
    unfold s1 at 1 2; simpl.
    rewrite (find_app_last _ _ newIngredient He (eqs_refl uuid)).
    rewrite (remove_first_app_last _ _ newIngredient He (eqs_refl uuid)).
    eexists. rewrite Hsame. simpl. split; [apply lookup_insert_eq | done].
Qed.

(** * Votes and the recount *)

(** ** The order of [Object.entries] *)

Lemma insert_index_split {A : Type} (n : N) (e : A) (l : list (N * A)) :
  exists l1 l2, l = l1 ++ l2 /\ insert_index n e l = l1 ++ (n, e) :: l2.
Proof.
  induction l as [|[m e'] l IH]; simpl.
  - by exists [], [].
  - destruct (n <? m)%N.
    + by exists [], ((m, e') :: l).
    + destruct IH as (l1 & l2 & -> & ->). by exists ((m, e') :: l1), l2.
Qed.

Lemma index_entries_snoc {A : Type} (v : list (string * A)) (e : string * A) :
  index_entries (v ++ [e]) = index_step (index_entries v) e.
Proof. unfold index_entries. by rewrite foldl_app. Qed.

(** A new property takes its place among the entries; the others keep
    theirs. *)
Lemma own_entries_snoc {A : Type} (v : list (string * A)) (e : string * A) :
  exists l1 l2,
    own_entries v = l1 ++ l2 /\ own_entries (v ++ [e]) = l1 ++ e :: l2.
Proof.
  unfold own_entries, named_entries.
  rewrite index_entries_snoc, List.filter_app. unfold index_step.
  cbn [List.filter].
  destruct (array_index (fst e)) as [n|] eqn:E.
  - replace (is_named e) with false by (unfold is_named; by rewrite E).
    destruct (insert_index_split n e (index_entries v)) as (l1 & l2 & Hl & ->).
    rewrite Hl. exists (List.map snd l1), (List.map snd l2 ++ List.filter is_named v).
    rewrite !map_app. cbn [List.map snd].
    rewrite app_nil_r, <- !app_assoc. done.
  - replace (is_named e) with true by (unfold is_named; by rewrite E).
    exists (List.map snd (index_entries v) ++ List.filter is_named v), [].
    by rewrite app_nil_r, <- app_assoc.
Qed.

Lemma own_entries_perm {A : Type} (v : list (string * A)) :
  own_entries v ≡ₚ v.
Proof.
  induction v as [|e v IH] using rev_ind; [done|].
  destruct (own_entries_snoc v e) as (l1 & l2 & H1 & ->).
  rewrite <- Permutation_middle, <- H1, IH. apply Permutation_cons_append.
Qed.

Lemma In_own_entries {A : Type} (v : list (string * A)) (e : string * A) :
  In e (own_entries v) <-> In e v.
Proof.
  split; apply Permutation_in; [|symmetry]; apply own_entries_perm.
Qed.

Lemma own_entries_In {A : Type} (v : list (string * A)) (e : string * A) :
  In e (own_entries v) -> In e v.
Proof. apply In_own_entries. Qed.

Lemma filter_perm_length {A : Type} (f : A -> bool) (l l' : list A) :
  l ≡ₚ l' -> length (List.filter f l) = length (List.filter f l').
Proof.
  induction 1 as [|x l l' _ IH|x y l|l l' l'' _ IH1 _ IH2]; simpl.
  - done.
  - destruct (f x); simpl; by rewrite IH.
  - by destruct (f x), (f y).
  - by rewrite IH1.
Qed.

Lemma own_entries_keys {A : Type} (v : list (string * A)) :
  NoDup (List.map fst v) -> NoDup (List.map fst (own_entries v)).
Proof.
  intros Hnd. by rewrite (Permutation_map fst (own_entries_perm v)).
Qed.

Section SameKeys.

Context {A : Type} (R : string * A -> string * A -> Prop).
Hypothesis R_key : forall x y, R x y -> fst x = fst y.

Local Abbreviation R2 := (fun a b : N * (string * A) =>
                            fst a = fst b /\ R (snd a) (snd b)).

Lemma insert_index_Forall2 (n : N) (e e' : string * A)
  (l l' : list (N * (string * A))) :
  R e e' -> Forall2 R2 l l' ->
  Forall2 R2 (insert_index n e l) (insert_index n e' l').
Proof.
  intros He. induction 1 as [|[m x] [m' y] l l' [Hm Hxy] Hl IH]; simpl.
  - by constructor.
  - simpl in Hm. subst m'. destruct (n <? m)%N.
    + constructor; [done|]. by constructor.
    + by constructor.
Qed.

Lemma index_fold_Forall2 (v v' : list (string * A))
  (acc acc' : list (N * (string * A))) :
  Forall2 R v v' -> Forall2 R2 acc acc' ->
  Forall2 R2 (foldl index_step acc v) (foldl index_step acc' v').
Proof.
  intros Hv. revert acc acc'.
  induction Hv as [|x y v v' Hxy Hv IH]; intros acc acc' Hacc; simpl; [done|].
  apply IH. unfold index_step. rewrite <- (R_key _ _ Hxy).
  destruct (array_index (fst x)); [|done]. by apply insert_index_Forall2.
Qed.

Lemma named_entries_Forall2 (v v' : list (string * A)) :
  Forall2 R v v' -> Forall2 R (named_entries v) (named_entries v').
Proof.
  unfold named_entries, is_named.
  induction 1 as [|x y v v' Hxy Hv IH]; simpl; [done|].
  rewrite <- (R_key _ _ Hxy). destruct (array_index (fst x)); [done|].
  by constructor.
Qed.

Lemma own_entries_Forall2 (v v' : list (string * A)) :
  Forall2 R v v' -> Forall2 R (own_entries v) (own_entries v').
Proof.
  intros Hv. unfold own_entries. apply Forall2_app.
  - assert (H : Forall2 R2 (index_entries v) (index_entries v'))
      by (apply index_fold_Forall2; [done | constructor]).
    induction H as [|a b l l' [_ Hab] _ IH]; simpl; by constructor.
  - by apply named_entries_Forall2.
Qed.

End SameKeys.

Lemma Forall2_filter_fst {A : Type} (f : string * A -> bool)
  (l l' : list (string * A)) :
  Forall2 (fun a b => fst a = fst b /\ f a = f b) l l' ->
  List.map fst (List.filter f l) = List.map fst (List.filter f l').
Proof.
  induction 1 as [|x y l l' [Hk Hf] _ IH]; simpl; [done|].
  rewrite <- Hf. destruct (f x); simpl; by rewrite ?Hk, IH.
Qed.

Lemma own_entries_snoc_out {A : Type} (f : string * A -> bool)
  (v : list (string * A)) (e : string * A) :
  f e = false ->
  List.filter f (own_entries (v ++ [e])) = List.filter f (own_entries v).
Proof.
  intros He. destruct (own_entries_snoc v e) as (l1 & l2 & -> & ->).
  rewrite !List.filter_app. simpl. by rewrite He.
Qed.

(** ** The recount *)

Lemma tally_entry_step (recipeId u : string) (uv : gmap string VoteType)
  (up down : Z) (ids : list string) :
  tally_entry recipeId (up, down, ids) (u, uv)
  = (up + (if bool_decide (uv !! recipeId = Some Up) then 1 else 0),
     down + (if bool_decide (uv !! recipeId = Some Down) then 1 else 0),
     ids ++ (if truthy (vote_property uv recipeId) then [u] else [])).
Proof.
  unfold tally_entry, vote_property, get_property. cbn [fst snd].
  destruct (uv !! recipeId) as [t|].
  - cbn [truthy]. destruct (eqs t EmptyString) eqn:Ee; cbn [negb].
    + apply eqs_true in Ee as ->.
      rewrite !bool_decide_eq_false_2 by (unfold Up, Down; congruence).
      by rewrite !Z.add_0_r, app_nil_r.
    + destruct (eqs t Up) eqn:Eu; [|destruct (eqs t Down) eqn:Ed];
        rewrite ?eqs_true, ?eqs_false in *; subst;
        repeat (first [rewrite bool_decide_eq_true_2 by done
                      |rewrite bool_decide_eq_false_2
                         by (unfold Up, Down in *; congruence)]);
        by rewrite ?Z.add_0_r.
  - rewrite !bool_decide_eq_false_2 by congruence.
    destruct (inherited recipeId); cbn [truthy];
      by rewrite !Z.add_0_r, ?app_nil_r.
Qed.

Lemma tally_entry_fold (recipeId : string)
  (l : list (string * gmap string VoteType)) (up down : Z)
  (ids : list string) :
  foldl (tally_entry recipeId) (up, down, ids) l
  = (up + Z.of_nat (length (voters_with Up recipeId l)),
     down + Z.of_nat (length (voters_with Down recipeId l)),
     ids ++ voters recipeId l).
Proof.
  unfold voters_with, voters.
  revert up down ids. induction l as [|[u uv] l IH]; intros up down ids.
  - simpl. by rewrite !Z.add_0_r, app_nil_r.
  - cbn [foldl]. rewrite tally_entry_step, IH. cbn [List.filter snd].
    destruct (bool_decide (uv !! recipeId = Some Up)),
      (bool_decide (uv !! recipeId = Some Down)),
      (truthy (vote_property uv recipeId));
      cbn [List.map length fst]; rewrite <- ?app_assoc; simpl app;
      f_equal; f_equal; lia.
Qed.

Lemma voters_with_entries (t : VoteType) (recipeId : string)
  (v : list (string * gmap string VoteType)) :
  length (voters_with t recipeId (own_entries v))
  = length (voters_with t recipeId v).
Proof.
  unfold voters_with. rewrite !length_map.
  apply filter_perm_length, own_entries_perm.
Qed.

Lemma tally_spec (recipeId : string) (v : list (string * gmap string VoteType)) :
  tally recipeId v
  = (Z.of_nat (length (voters_with Up recipeId v)),
     Z.of_nat (length (voters_with Down recipeId v)),
     voters recipeId (own_entries v)).
Proof.
  unfold tally. by rewrite tally_entry_fold, !voters_with_entries.
Qed.

Lemma recount_spec (v : list (string * gmap string VoteType)) (r : Recipe) :
  recount v r
  = mkRecipe (r_id r) (r_body r) (r_createdAt r)
      (Z.of_nat (length (voters_with Up (r_id r) v))
       - Z.of_nat (length (voters_with Down (r_id r) v)))
      (voters (r_id r) (own_entries v)).
Proof. unfold recount. by rewrite tally_spec. Qed.

Lemma recount_idemp (v : list (string * gmap string VoteType)) (r : Recipe) :
  recount v (recount v r) = recount v r.
Proof. by rewrite !recount_spec. Qed.

Lemma votes_get_In (u : string) (v : list (string * gmap string VoteType))
  (uv : gmap string VoteType) :
  votes_get u v = Some uv -> In (u, uv) v.
Proof.
  induction v as [|[u' uv'] v IH]; simpl; [done|].
  destruct (eqs u' u) eqn:E.
  - apply eqs_true in E as ->. intros [= ->]. by left.
  - intros H. right. auto.
Qed.

Lemma In_votes_get (u : string) (v : list (string * gmap string VoteType))
  (uv : gmap string VoteType) :
  NoDup (List.map fst v) -> In (u, uv) v -> votes_get u v = Some uv.
Proof.
  induction v as [|[u' uv'] v IH]; simpl; [done|].
  intros [Hnot Hnd]%NoDup_cons [[= -> ->]|Hin].
  - by rewrite eqs_refl.
  - destruct (eqs u' u) eqn:E; [|auto].
    apply eqs_true in E as ->. exfalso. apply Hnot.
    apply list_elem_of_In, in_map_iff. by exists (u, uv).
Qed.

Lemma In_voters_with (t : VoteType) (recipeId u : string)
  (v : list (string * gmap string VoteType)) :
  NoDup (List.map fst v) ->
  In u (voters_with t recipeId v) <-> vote_on v u recipeId = Some t.
Proof.
  intros Hnd. unfold voters_with, vote_on. rewrite in_map_iff. split.
  - intros ([u' uv] & <- & [Hin Ht]%filter_In). simpl in *.
    rewrite (In_votes_get _ _ _ Hnd Hin). by apply bool_decide_eq_true in Ht.
  - destruct (votes_get u v) as [uv|] eqn:E; [|done]. intros Ht.
    exists (u, uv). split; [done|]. apply filter_In.
    split; [by apply votes_get_In|]. by apply bool_decide_eq_true.
Qed.

(** Who the recount lists: the users whose vote object gives a truthy value
    under the recipe id. *)
Lemma In_voters (recipeId u : string)
  (v : list (string * gmap string VoteType)) :
  NoDup (List.map fst v) ->
  In u (voters recipeId (own_entries v))
  <-> exists uv, votes_get u v = Some uv
                 /\ truthy (vote_property uv recipeId) = true.
Proof.
  intros Hnd. unfold voters. rewrite in_map_iff. split.
  - intros ([u' uv] & <- & [Hin Ht]%filter_In). simpl in *.
    apply (proj1 (In_own_entries _ _)) in Hin. exists uv.
    by rewrite (In_votes_get _ _ _ Hnd Hin).
  - intros (uv & E & Ht). exists (u, uv). split; [done|]. apply filter_In.
    split; [by apply (proj2 (In_own_entries _ _)), votes_get_In | done].
Qed.

(** For a recipe id that is no property name of [Object.prototype], the
    voters are the users with a stored vote that is not the empty string. *)
Lemma truthy_stored (uv : gmap string VoteType) (recipeId : string) :
  inherited recipeId = false ->
  truthy (vote_property uv recipeId) = true
  <-> exists t, uv !! recipeId = Some t /\ t <> EmptyString.
Proof.
  intros Hplain. unfold vote_property, get_property. rewrite Hplain.
  destruct (uv !! recipeId) as [t|]; simpl.
  - rewrite negb_true_iff, eqs_false. split; [eauto|]. by intros (? & [= <-] & ?).
  - split; [done | by intros (? & ? & ?)].
Qed.

Lemma In_map_filter {A B : Type} (g : A -> B) (f : A -> bool) (l : list A)
  (y : B) :
  In y (List.map g (List.filter f l)) -> In y (List.map g l).
Proof.
  rewrite !in_map_iff. intros (x & <- & [Hin _]%filter_In). eauto.
Qed.

Lemma NoDup_map_filter {A B : Type} (g : A -> B) (f : A -> bool) (l : list A) :
  NoDup (List.map g l) -> NoDup (List.map g (List.filter f l)).
Proof.
  induction l as [|x l IH]; simpl; [done|].
  intros [Hnot Hnd]%NoDup_cons. destruct (f x); simpl; [|auto].
  apply NoDup_cons. split; [|auto].
  intros Hin%list_elem_of_In%In_map_filter. by apply Hnot, list_elem_of_In.
Qed.

(** ** Writing a vote *)

Lemma votes_get_None_keys (u : string)
  (v : list (string * gmap string VoteType)) :
  votes_get u v = None -> ~ In u (List.map fst v).
Proof.
  induction v as [|[u' uv'] v IH]; simpl; [tauto|].
  destruct (eqs u' u) eqn:E; [done|].
  intros H [->|Hin]; [by rewrite eqs_refl in E | by apply IH].
Qed.

Lemma votes_set_keys (u : string) (x old : gmap string VoteType)
  (v : list (string * gmap string VoteType)) :
  votes_get u v = Some old ->
  List.map fst (votes_set u x v) = List.map fst v.
Proof.
  induction v as [|[u' uv'] v IH]; simpl; [done|].
  destruct (eqs u' u) eqn:E; simpl; [done|]. intros H. by rewrite IH.
Qed.

Lemma votes_set_absent (u : string) (x y : gmap string VoteType)
  (v : list (string * gmap string VoteType)) :
  votes_get u v = None -> votes_set u x (v ++ [(u, y)]) = v ++ [(u, x)].
Proof.
  induction v as [|[u' uv'] v IH]; simpl.
  - by rewrite eqs_refl.
  - destruct (eqs u' u) eqn:E; [done|]. intros H. by rewrite IH.
Qed.

Lemma votes_get_app_absent (u : string) (y : gmap string VoteType)
  (v : list (string * gmap string VoteType)) :
  votes_get u v = None -> votes_get u (v ++ [(u, y)]) = Some y.
Proof.
  induction v as [|[u' uv'] v IH]; simpl.
  - by rewrite eqs_refl.
  - destruct (eqs u' u) eqn:E; [done | auto].
Qed.

Lemma votes_set_filter (f : string * gmap string VoteType -> bool)
  (u : string) (x old : gmap string VoteType)
  (v : list (string * gmap string VoteType)) :
  votes_get u v = Some old ->
  f (u, x) = f (u, old) ->
  List.map fst (List.filter f (votes_set u x v))
  = List.map fst (List.filter f v).
Proof.
  intros Hget Hf. revert Hget.
  induction v as [|[u' uv'] v IH]; simpl; [done|].
  destruct (eqs u' u) eqn:E; simpl.
  - apply eqs_true in E as ->. intros [= ->]. rewrite Hf.
    by destruct (f (u, old)).
  - intros Hget. destruct (f (u', uv')); simpl; by rewrite IH.
Qed.

Lemma votes_set_In (u : string) (x : gmap string VoteType)
  (v : list (string * gmap string VoteType)) (e : string * gmap string VoteType) :
  In e (votes_set u x v) -> e = (u, x) \/ In e v.
Proof.
  induction v as [|[u' uv'] v IH]; simpl.
  - intros [<-|[]]. by left.
  - destruct (eqs u' u) eqn:E; simpl.
    + apply eqs_true in E as ->. intros [<-|H]; auto.
    + intros [<-|H]; [auto|]. destruct (IH H); auto.
Qed.



Lemma votes_get_set_eq (u : string) (x : gmap string VoteType)
  (v : list (string * gmap string VoteType)) :
  votes_get u (votes_set u x v) = Some x.
Proof.
  induction v as [|[u' uv'] v IH]; simpl.
  - by rewrite eqs_refl.
  - destruct (eqs u' u) eqn:E; simpl; by rewrite E.
Qed.

Lemma votes_get_set_ne (u u' : string) (x : gmap string VoteType)
  (v : list (string * gmap string VoteType)) :
  u' <> u -> votes_get u' (votes_set u x v) = votes_get u' v.
Proof.
  intros Hne. induction v as [|[u0 uv0] v IH]; simpl.
  - by rewrite (proj2 (eqs_false u u')).
  - destruct (eqs u0 u) eqn:E; simpl.
    + apply eqs_true in E as ->. by rewrite (proj2 (eqs_false u u')).
    + by rewrite IH.
Qed.

(** The two shapes of the vote object after a vote: the voter's entry is
    rewritten in place, or a new entry is appended. *)
Lemma record_vote_cases (u recipeId : string) (t : VoteType)
  (v : list (string * gmap string VoteType)) :
  record_vote u recipeId t v
  = match votes_get u v with
    | Some old => votes_set u (cast_vote recipeId t old) v
    | None => v ++ [(u, cast_vote recipeId t ∅)]
    end.
Proof.
  unfold record_vote. destruct (votes_get u v) as [old|] eqn:E.
  - by rewrite E.
  - rewrite (votes_get_app_absent _ _ _ E). simpl.
    by apply votes_set_absent.
Qed.

Lemma cast_vote_lookup (recipeId r : string) (t : VoteType)
  (uv : gmap string VoteType) :
  cast_vote recipeId t uv !! r
  = if bool_decide (r = recipeId) then kept_vote recipeId t else uv !! r.
Proof.
  unfold cast_vote, kept_vote, assign.
  destruct (eqs t Neutral); cbn [negb orb].
  - case_bool_decide as E; [subst r; apply lookup_delete_eq|].
    by apply lookup_delete_ne.
  - destruct (eqs recipeId "__proto__"); case_bool_decide as E;
      try subst r;
      rewrite ?lookup_insert_eq, ?lookup_delete_eq; try done;
      rewrite ?lookup_insert_ne, ?lookup_delete_ne by done; done.
Qed.

Lemma kept_vote_not_neutral (recipeId : string) (t : VoteType) :
  kept_vote recipeId t <> Some Neutral.
Proof.
  unfold kept_vote. destruct (eqs t Neutral) eqn:E; [done|].
  destruct (eqs recipeId "__proto__"); [done|]. simpl.
  apply eqs_false in E. congruence.
Qed.


Lemma votes_set_same_keys (f : string * gmap string VoteType -> bool)
  (u : string) (x old : gmap string VoteType)
  (v : list (string * gmap string VoteType)) :
  votes_get u v = Some old ->
  f (u, x) = f (u, old) ->
  Forall2 (fun a b => fst a = fst b /\ f a = f b) (votes_set u x v) v.
Proof.
  intros Hget Hf. revert Hget.
  induction v as [|[u' uv'] v IH]; simpl; [done|].
  destruct (eqs u' u) eqn:E.
  - apply eqs_true in E as ->. intros [= ->]. constructor; [done|].
    apply Forall2_same_length_lookup_2; [done|].
    intros i a b Ha Hb. by simplify_eq.
  - intros Hget. constructor; [done | auto].
Qed.

(** Rewriting the vote object of a user in a way a filter does not see
    leaves what [Object.entries] gives the filter as it was. *)
Lemma votes_set_entries (f : string * gmap string VoteType -> bool)
  (u : string) (x old : gmap string VoteType)
  (v : list (string * gmap string VoteType)) :
  votes_get u v = Some old ->
  f (u, x) = f (u, old) ->
  List.map fst (List.filter f (own_entries (votes_set u x v)))
  = List.map fst (List.filter f (own_entries v)).
Proof.
  intros Hget Hf. apply Forall2_filter_fst.
  apply (own_entries_Forall2 (fun a b => fst a = fst b /\ f a = f b));
    [by intros x0 y0 [H _]|].
  by apply (votes_set_same_keys f u x old).
Qed.

(** What a vote changes in [votes]: the voter's entry for that recipe. *)
Lemma vote_on_record (u recipeId : string) (t : VoteType)
  (v : list (string * gmap string VoteType)) (u' r : string) :
  vote_on (record_vote u recipeId t v) u' r
  = if bool_decide (u' = u /\ r = recipeId)
    then kept_vote recipeId t
    else vote_on v u' r.
Proof.
  unfold vote_on. rewrite record_vote_cases.
  destruct (decide (u' = u)) as [->|Hu].
  - destruct (votes_get u v) as [old|] eqn:E.
    + rewrite votes_get_set_eq, cast_vote_lookup.
      destruct (decide (r = recipeId)) as [->|Hr];
        [rewrite !bool_decide_eq_true_2 by done
        |rewrite !bool_decide_eq_false_2 by tauto]; done.
    + rewrite (votes_get_app_absent _ _ _ E), cast_vote_lookup, lookup_empty.
      destruct (decide (r = recipeId)) as [->|Hr];
        [rewrite !bool_decide_eq_true_2 by done
        |rewrite !bool_decide_eq_false_2 by tauto]; done.
  - rewrite bool_decide_eq_false_2 by tauto.
    destruct (votes_get u v) as [old|] eqn:E.
    + by rewrite votes_get_set_ne.
    + clear E. induction v as [|[u0 uv0] v IH]; simpl.
      * by rewrite (proj2 (eqs_false u u')).
      * by destruct (eqs u0 u').
Qed.

Lemma record_vote_keys (u recipeId : string) (t : VoteType)
  (v : list (string * gmap string VoteType)) :
  NoDup (List.map fst v) ->
  NoDup (List.map fst (record_vote u recipeId t v)).
Proof.
  intros Hnd. rewrite record_vote_cases.
  destruct (votes_get u v) as [old|] eqn:E.
  - by rewrite (votes_set_keys _ _ _ _ E).
  - rewrite map_app. simpl. apply NoDup_app. split; [done|].
    split; [|apply NoDup_singleton].
    intros x Hx ->%list_elem_of_singleton.
    by apply (votes_get_None_keys _ _ E), list_elem_of_In.
Qed.

Lemma record_vote_no_neutral (u recipeId : string) (t : VoteType)
  (v : list (string * gmap string VoteType)) :
  Forall no_neutral v -> Forall no_neutral (record_vote u recipeId t v).
Proof.
  intros Hv. rewrite record_vote_cases.
  assert (Hcast : forall uv, no_neutral (u, uv) ->
                    no_neutral (u, cast_vote recipeId t uv)).
  { intros uv Huv r. simpl. rewrite cast_vote_lookup.
    case_bool_decide; [apply kept_vote_not_neutral | apply Huv]. }
  destruct (votes_get u v) as [old|] eqn:E.
  - apply Forall_forall. intros e [->|He]%list_elem_of_In%votes_set_In.
    + apply Hcast. apply votes_get_In in E.
      by apply (proj1 (Forall_forall _ _) Hv), list_elem_of_In.
    + by apply (proj1 (Forall_forall _ _) Hv), list_elem_of_In.
  - apply Forall_app. split; [done|]. apply Forall_singleton, Hcast.
    intros r. simpl. by rewrite lookup_empty.
Qed.

(** * The invariant of the session store *)

Lemma server_ok_delete (k : string) (st : Server) :
  server_ok st -> server_ok (set_sessions (delete k (sessions st)) st).
Proof. unfold server_ok; simpl. apply map_Forall_delete. Qed.

Lemma server_ok_put (k : string) (s : Session) (st : Server) :
  server_ok st -> session_ok s -> server_ok (put_session k s st).
Proof.
  unfold server_ok, put_session; simpl. intros H Hs.
  by apply map_Forall_insert_2.
Qed.

Lemma getSession_ok (k : string) (now : Z) (st st' : Server)
  (o : option Session) :
  server_ok st -> getSession k now st = (o, st') -> server_ok st'.
Proof.
  intros Hok Hg. destruct o as [s|].
  - by apply getSession_Some in Hg as (-> & _ & _).
  - apply getSession_None in Hg as [->| ->]; [done|].
    by apply server_ok_delete.
Qed.

Lemma broadcast_ok (k : string) (m : Message) (ex : option string) (now : Z)
  (st : Server) :
  server_ok st -> server_ok (fst (broadcastToSession k m ex now st)).
Proof.
  intros Hok. unfold broadcastToSession.
  destruct (getSession k now st) as [[s|] st1] eqn:Hg; simpl;
    by apply (getSession_ok _ _ _ _ _ Hok Hg).
Qed.

Lemma commit_ok (k : string) (m : Message) (ex : option string) (now : Z)
  (st : Server) (s : Session) :
  server_ok st -> session_ok s ->
  server_ok
    (fst (broadcastToSession k m ex now
            (updateSessionActivity k now (put_session k s st)))).
Proof.
  intros Hok Hs. rewrite commit_broadcast; simpl. by apply server_ok_put.
Qed.

Lemma In_remove_first {A : Type} (f : A -> bool) (l : list A) (x : A) :
  In x (remove_first f l) -> In x l.
Proof.
  induction l as [|y l IH]; simpl; [done|].
  destruct (f y); simpl; [auto|]. intros [->|H]; auto.
Qed.

Lemma NoDup_map_remove_first {A B : Type} (g : A -> B) (f : A -> bool)
  (l : list A) :
  NoDup (List.map g l) -> NoDup (List.map g (remove_first f l)).
Proof.
  induction l as [|x l IH]; simpl; [done|].
  intros [Hnot Hnd]%NoDup_cons. destruct (f x); simpl; [done|].
  apply NoDup_cons. split; [|auto].
  intros (y & Hy & Hin%In_remove_first)%list_elem_of_In%in_map_iff.
  apply Hnot, list_elem_of_In, in_map_iff. eauto.
Qed.

Lemma Forall_remove_first {A : Type} (P : A -> Prop) (f : A -> bool)
  (l : list A) :
  Forall P l -> Forall P (remove_first f l).
Proof.
  rewrite !Forall_forall. intros H x Hx%list_elem_of_In%In_remove_first.
  by apply H, list_elem_of_In.
Qed.

Lemma NoDup_snoc {A : Type} (l : list A) (x : A) :
  NoDup l -> ~ In x l -> NoDup (l ++ [x]).
Proof.
  intros Hnd Hx. apply NoDup_app. split; [done|].
  split; [|apply NoDup_singleton].
  intros y Hy ->%list_elem_of_singleton. by apply Hx, list_elem_of_In.
Qed.

Lemma filter_none {A : Type} (f : A -> bool) (l : list A) :
  (forall x, In x l -> f x = false) -> List.filter f l = [].
Proof.
  induction l as [|x l IH]; simpl; [done|]. intros H.
  rewrite (H x) by by left. apply IH. intros y Hy. apply H. by right.
Qed.

(** A recipe id on which nobody has voted, and which is no property name of
    [Object.prototype], gets tally 0 and no voters. *)
Lemma recount_unvoted (v : list (string * gmap string VoteType)) (r : Recipe) :
  forallb (fun e => bool_decide (snd e !! r_id r = None)) v = true ->
  inherited (r_id r) = false ->
  r_votes r = 0 -> r_voterIds r = [] -> recount v r = r.
Proof.
  intros Hv Hplain H0 Hnil. rewrite recount_spec. unfold voters_with, voters.
  assert (Hall : forall e, In e v -> snd e !! r_id r = None).
  { intros e He. apply (proj1 (forallb_forall _ _) Hv) in He.
    by apply bool_decide_eq_true in He. }
  rewrite !(filter_none (fun e => bool_decide (snd e !! r_id r = Some _)) v)
    by (intros e He; rewrite (Hall e He); by apply bool_decide_eq_false_2).
  rewrite (filter_none _ (own_entries v)).
  - simpl. destruct r; simpl in *. by subst.
  - intros e He%own_entries_In. unfold vote_property, get_property.
    by rewrite (Hall e He), Hplain.
Qed.

Lemma session_ok_new (sessionId hostId hostName : string) (now : Z) :
  session_ok
    (mkSession sessionId hostId hostName now now true
       [mkParticipant hostId hostName now true None None]
       [] [] EmptyString [] []).
Proof.
  split; [simpl; by rewrite eqs_refl|]. repeat split; simpl; constructor.
Qed.

Lemma has_participant_reconnect_first (h userId : string) (now : Z)
  (ps : list Participant) :
  has_participant h (reconnect_first userId now ps) = has_participant h ps.
Proof.
  unfold has_participant. induction ps as [|p ps IH]; simpl; [done|].
  destruct (eqs (p_id p) userId); simpl; [done | by rewrite IH].
Qed.

Lemma has_participant_disconnect_first (h userId : string) (now : Z)
  (ps : list Participant) :
  has_participant h (disconnect_first userId now ps) = has_participant h ps.
Proof.
  unfold has_participant. induction ps as [|p ps IH]; simpl; [done|].
  destruct (eqs (p_id p) userId); simpl; [done | by rewrite IH].
Qed.

Lemma has_participant_app (h : string) (ps qs : list Participant) :
  has_participant h ps = true -> has_participant h (ps ++ qs) = true.
Proof.
  unfold has_participant. rewrite existsb_app. intros ->. done.
Qed.

Lemma find_has_participant (h : string) (ps : list Participant)
  (p : Participant) :
  List.find (fun p => eqs (p_id p) h) ps = Some p ->
  has_participant h ps = true.
Proof.
  intros [Hin Hp]%find_some. apply existsb_exists. eauto.
Qed.

(** The common opening of the handlers that act for a registered socket:
    look the caller up, resolve its session. *)
Ltac open_handler Hok :=
  lazymatch goal with
  | |- context [clients_get ?ws ?c] =>
      destruct (clients_get ws c) as [clientInfo|]; [|exact Hok]
  end;
  lazymatch goal with
  | |- context [getSession ?k ?now ?st] =>
      let Hg := fresh "Hg" in
      destruct (getSession k now st) as [[session|] st1] eqn:Hg;
      [apply getSession_Some in Hg as (-> & Hs & Hlive); cbv beta iota zeta
      |exact (getSession_ok _ _ _ _ _ Hok Hg)]
  end.

Lemma handleIngredientsAdd_ok (ws : Ws) (ingredient : IngredientInput)
  (now : Z) (uuid : string) (st : Server) :
  server_ok st -> uuid_fresh uuid st ->
  server_ok (fst (handleIngredientsAdd ws ingredient now uuid st)).
Proof.
  intros Hok Hf. unfold handleIngredientsAdd. open_handler Hok.
  destruct (existsb _ _) eqn:E; [exact Hok|].
  apply commit_ok; [done|].
  destruct (Hok _ _ Hs) as (H0 & H1 & H2 & H3 & H4 & H5).
  destruct (uuid_fresh_session _ _ _ _ Hf Hs) as (Hid & _ & _).
  repeat split; simpl; try done.
  - rewrite map_app. by apply NoDup_snoc.
  - unfold lowered_names. rewrite map_app; simpl.
    rewrite toLowerCase_idempotent. apply NoDup_snoc; [done|].
    intros Hin%existsb_lowered. congruence.
Qed.

Lemma handleIngredientsRemove_ok (ws : Ws) (ingredientId : string) (now : Z)
  (st : Server) :
  server_ok st -> server_ok (fst (handleIngredientsRemove ws ingredientId now st)).
Proof.
  intros Hok. unfold handleIngredientsRemove. open_handler Hok.
  destruct (List.find _ _); [|exact Hok].
  apply commit_ok; [done|].
  destruct (Hok _ _ Hs) as (H0 & H1 & H2 & H3 & H4 & H5).
  repeat split; simpl; try done; by apply NoDup_map_remove_first.
Qed.

Lemma handleIngredientsBlacklist_ok (ws : Ws) (ingredientName : string)
  (fromIngredients : bool) (now : Z) (st : Server) :
  server_ok st ->
  server_ok
    (fst (handleIngredientsBlacklist ws ingredientName fromIngredients now st)).
Proof.
  intros Hok. unfold handleIngredientsBlacklist. open_handler Hok.
  apply commit_ok; [done|].
  destruct (Hok _ _ Hs) as (H0 & H1 & H2 & H3 & H4 & H5).
  repeat split; simpl; try done; destruct fromIngredients; try done;
    by apply NoDup_map_remove_first.
Qed.

Lemma handleRecipesAdd_ok (ws : Ws) (recipe : string) (now : Z) (uuid : string)
  (st : Server) :
  server_ok st -> uuid_fresh uuid st -> inherited uuid = false ->
  server_ok (fst (handleRecipesAdd ws recipe now uuid st)).
Proof.
  intros Hok Hf Hplain. unfold handleRecipesAdd. open_handler Hok.
  apply commit_ok; [done|].
  destruct (Hok _ _ Hs) as (H0 & H1 & H2 & H3 & H4 & H5).
  destruct (uuid_fresh_session _ _ _ _ Hf Hs) as (_ & _ & Hv).
  repeat split; simpl; try done.
  apply Forall_app. split; [done|]. apply Forall_singleton.
  by apply recount_unvoted.
Qed.

Lemma handleRecipesVote_ok (ws : Ws) (recipeId : string) (voteType : VoteType)
  (now : Z) (st : Server) :
  server_ok st ->
  server_ok (fst (handleRecipesVote ws recipeId voteType now st)).
Proof.
  intros Hok. unfold handleRecipesVote. open_handler Hok.
  destruct (get_property _ _); cbn [fst];
    (apply commit_ok; [done|];
     destruct (Hok _ _ Hs) as (H0 & H1 & H2 & H3 & H4 & H5);
     repeat split; simpl; try done;
     try (apply Forall_forall;
          intros r (r0 & <- & _)%list_elem_of_In%in_map_iff;
          apply recount_idemp);
     solve [by apply record_vote_keys | by apply record_vote_no_neutral]).
Qed.

Lemma handleRecipesRemove_ok (ws : Ws) (recipeId : string) (now : Z)
  (st : Server) :
  server_ok st -> server_ok (fst (handleRecipesRemove ws recipeId now st)).
Proof.
  intros Hok. unfold handleRecipesRemove. open_handler Hok.
  destruct (List.find _ _); [|exact Hok].
  apply commit_ok; [done|].
  destruct (Hok _ _ Hs) as (H0 & H1 & H2 & H3 & H4 & H5).
  repeat split; simpl; try done. by apply Forall_remove_first.
Qed.

Lemma handleContextUpdate_ok (ws : Ws) (ctx : string) (now : Z) (st : Server) :
  server_ok st -> server_ok (fst (handleContextUpdate ws ctx now st)).
Proof.
  intros Hok. unfold handleContextUpdate. open_handler Hok.
  destruct (negb _); [exact Hok|].
  apply commit_ok; [done|]. exact (Hok _ _ Hs).
Qed.

Lemma handleHostTransfer_ok (ws : Ws) (newHostId : string) (now : Z)
  (st : Server) :
  server_ok st -> server_ok (fst (handleHostTransfer ws newHostId now st)).
Proof.
  intros Hok. unfold handleHostTransfer. open_handler Hok.
  destruct (negb _); [exact Hok|].
  destruct (List.find _ _) as [newHost|] eqn:Hfind; [|exact Hok].
  apply commit_ok; [done|].
  destruct (Hok _ _ Hs) as (_ & Hrest).
  split; [|exact Hrest]. simpl. by apply (find_has_participant _ _ newHost).
Qed.

Lemma handleHostPermissions_ok (ws : Ws) (allow : bool) (now : Z)
  (st : Server) :
  server_ok st -> server_ok (fst (handleHostPermissions ws allow now st)).
Proof.
  intros Hok. unfold handleHostPermissions. open_handler Hok.
  destruct (negb _); [exact Hok|].
  apply commit_ok; [done|]. exact (Hok _ _ Hs).
Qed.

Lemma end_client_sessions (k : string) (l : list (Ws * ClientInfo))
  (acc : Server * list Event) :
  sessions (fst (foldl (end_client k) acc l)) = sessions (fst acc).
Proof.
  revert acc. induction l as [|e l IH]; intros [st evs]; cbn [foldl]; [done|].
  rewrite IH. unfold end_client.
  destruct (eqs _ _); [|done]. by destruct (is_open _ _).
Qed.

Lemma handleSessionEnd_ok (ws : Ws) (now : Z) (st : Server) :
  server_ok st -> server_ok (fst (handleSessionEnd ws now st)).
Proof.
  intros Hok. unfold handleSessionEnd. open_handler Hok.
  destruct (negb _); [exact Hok|].
  rewrite (broadcast_live _ _ _ _ _ _ Hs Hlive).
  unfold server_ok. rewrite end_client_sessions. simpl.
  by apply map_Forall_delete.
Qed.

Lemma addParticipant_ok (k userId username : string) (now : Z) (st : Server) :
  server_ok st -> server_ok (snd (addParticipant k userId username now st)).
Proof.
  intros Hok. unfold addParticipant.
  destruct (getSession k now st) as [[s|] st1] eqn:Hg;
    [|exact (getSession_ok _ _ _ _ _ Hok Hg)].
  apply getSession_Some in Hg as (-> & Hs & _). simpl.
  apply server_ok_put; [done|].
  destruct (Hok _ _ Hs) as (Hhost & Hrest).
  split; [|exact Hrest]. simpl.
  destruct (has_participant userId (participants s)).
  - by rewrite has_participant_reconnect_first.
  - by apply has_participant_app.
Qed.

Lemma removeParticipant_ok (k userId : string) (now : Z) (st : Server) :
  server_ok st -> server_ok (snd (removeParticipant k userId now st)).
Proof.
  intros Hok. unfold removeParticipant.
  destruct (getSession k now st) as [[s|] st1] eqn:Hg;
    [|exact (getSession_ok _ _ _ _ _ Hok Hg)].
  apply getSession_Some in Hg as (-> & Hs & _). simpl.
  apply server_ok_put; [done|].
  destruct (Hok _ _ Hs) as (Hhost & Hrest).
  split; [|exact Hrest]. simpl. by rewrite has_participant_disconnect_first.
Qed.

(** Registering a socket, or its tail in the two session commands, leaves
    the sessions to [addParticipant] and the broadcaster. *)
Lemma join_tail_ok (ws : Ws) (k userId username : string) (now : Z)
  (st : Server) (m : Message) (reply : option Session -> Message) :
  server_ok st ->
  server_ok
    (fst (let '(updated, st2) := addParticipant k userId username now st in
          let st3 := register ws userId k username st2 in
          let '(st4, evs) := broadcastToSession k m (Some userId) now st3 in
          (st4, Send ws (reply updated) :: evs))).
Proof.
  intros Hok. pose proof (addParticipant_ok k userId username now st Hok) as H.
  destruct (addParticipant k userId username now st) as [updated st2].
  simpl in H. cbv zeta.
  pose proof (broadcast_ok k m (Some userId) now
                (register ws userId k username st2) H) as H'.
  by destruct (broadcastToSession _ _ _ _ _).
Qed.

Lemma handleSessionCreate_ok (ws : Ws) (k userId username : string) (now : Z)
  (st : Server) :
  server_ok st -> server_ok (fst (handleSessionCreate ws k userId username now st)).
Proof.
  intros Hok. unfold handleSessionCreate.
  destruct (getSession k now st) as [[s|] st1] eqn:Hg.
  - apply getSession_Some in Hg as (-> & Hs & _).
    destruct (eqs _ _); [|exact Hok].
    pose proof (join_tail_ok ws k userId username now st
                  (ParticipantJoined userId username None (Some now))
                  (fun u => SessionCreated (default s u)) Hok) as H.
    destruct (addParticipant _ _ _ _ _) as [updated st2].
    cbv zeta in *. by destruct (broadcastToSession _ _ _ _ _).
  - simpl. apply server_ok_put;
      [exact (getSession_ok _ _ _ _ _ Hok Hg) | apply session_ok_new].
Qed.

Lemma handleSessionJoin_ok (ws : Ws) (k userId username : string) (now : Z)
  (st : Server) :
  server_ok st -> server_ok (fst (handleSessionJoin ws k userId username now st)).
Proof.
  intros Hok. unfold handleSessionJoin.
  destruct (getSession k now st) as [[s|] st1] eqn:Hg;
    [|exact (getSession_ok _ _ _ _ _ Hok Hg)].
  apply getSession_Some in Hg as (-> & Hs & _).
  pose proof (join_tail_ok ws k userId username now st
                (ParticipantJoined userId username (Some now) None)
                SessionJoined Hok) as H.
  destruct (userConnections st !! userId) as [c|]; [|exact H].
  destruct (negb _); [exact Hok | exact H].
Qed.

Lemma handleDisconnection_ok (ws : Ws) (now : Z) (st : Server) :
  server_ok st -> server_ok (fst (handleDisconnection ws now st)).
Proof.
  intros Hok. unfold handleDisconnection.
  destruct (clients_get ws (clients st)) as [ci|]; [|exact Hok].
  match goal with
  | |- context [removeParticipant ?k ?u ?n ?s] =>
      pose proof (removeParticipant_ok k u n s Hok) as H;
      destruct (removeParticipant k u n s) as [o st2]
  end.
  by apply broadcast_ok.
Qed.

Lemma cleanupExpiredSessions_ok (now : Z) (st : Server) :
  server_ok st -> server_ok (fst (cleanupExpiredSessions now st)).
Proof.
  intros Hok k s Hs. rewrite cleanupExpiredSessions_sessions in Hs.
  destruct (sessions st !! k) as [s0|] eqn:E; [|done].
  destruct (expired now s0); [done|]. injection Hs as <-. exact (Hok _ _ E).
Qed.

Create HintDb handlers.

#[local] Hint Resolve handleSessionCreate_ok handleSessionJoin_ok
  handleIngredientsAdd_ok handleIngredientsRemove_ok
  handleIngredientsBlacklist_ok handleRecipesAdd_ok handleRecipesVote_ok
  handleRecipesRemove_ok handleContextUpdate_ok handleHostTransfer_ok
  handleHostPermissions_ok handleSessionEnd_ok handleDisconnection_ok
  cleanupExpiredSessions_ok : handlers.

Lemma handleMessage_ok (ws : Ws) (message : Command) (now : Z) (uuid : string)
  (st : Server) :
  server_ok st ->
  (draws_uuid message = true -> uuid_fresh uuid st /\ inherited uuid = false) ->
  server_ok (fst (handleMessage ws message now uuid st)).
Proof.
  intros Hok Hf. destruct message; simpl in *; auto with handlers.
  - apply handleIngredientsAdd_ok; [done|]. by apply Hf.
  - destruct (Hf eq_refl). by apply handleRecipesAdd_ok.
Qed.

Lemma step_ok (st st' : Server) : step st st' -> server_ok st -> server_ok st'.
Proof.
  intros Hstep Hok. destruct Hstep; simpl;
    auto using handleMessage_ok with handlers.
Qed.

Lemma reachable_ok (st : Server) : reachable st -> server_ok st.
Proof.
  induction 1 as [|st st' _ IH Hstep].
  - intros k s Hs. unfold initial in Hs; simpl in Hs.
    by rewrite lookup_empty in Hs.
  - by apply (step_ok st).
Qed.

(** * The host comes back *)

(** C5, as the code has it.  In a reachable state, a [session:create] for a
    live session from its host sets the host's participant record connected and stamps
    [reconnectedAt], binds the user id to the caller's socket in
    [userConnections] and registers the caller in [clients], answers the
    caller with [session:created] carrying the updated session, and writes
    [session:participant:joined] on the open registered sockets of the session
    whose user is not the host.  The [clients] entry of any other socket stays:
    a socket the host used before, while it is open, is still written to by
    every broadcast of the session that does not exclude the host. *)
Theorem handleSessionCreate_host_rejoin (ws : Ws)
  (sessionId userId username : string) (now : Z) (st : Server) (s : Session)
  (Hreach : reachable st)
  (Hs : sessions st !! sessionId = Some s)
  (Hlive : expired now s = false)
  (Hhost : hostId s = userId) :
  let s' :=
    set_lastActivity now
      (set_participants (reconnect_first userId now (participants s)) s) in
  let st' := register ws userId sessionId username (put_session sessionId s' st) in
  let joined := ParticipantJoined userId username None (Some now) in
  handleSessionCreate ws sessionId userId username now st
  = (st',
     Send ws (SessionCreated s')
       :: List.map (fun e => Send (fst e) joined)
            (List.filter (receives sessionId (Some userId) st') (clients st')))
  /\ sessions st' !! sessionId = Some s'
  /\ (exists p,
        List.find (fun p => eqs (p_id p) userId) (participants s') = Some p
        /\ p_id p = userId
        /\ p_isConnected p = true
        /\ p_reconnectedAt p = Some now)
  /\ userConnections st' !! userId = Some ws
  /\ clients_get ws (clients st') = Some (mkClientInfo userId sessionId username)
  /\ (forall w,
        In (Send w joined)
          (List.map (fun e => Send (fst e) joined)
             (List.filter (receives sessionId (Some userId) st') (clients st')))
        <-> exists ci, In (w, ci) (clients st')
                       /\ c_sessionId ci = sessionId
                       /\ c_userId ci <> userId
                       /\ w ∈ openSockets st)
  /\ (forall old ci,
        old <> ws ->
        clients_get old (clients st) = Some ci ->
        clients_get old (clients st') = Some ci
        /\ (c_sessionId ci = sessionId ->
            old ∈ openSockets st ->
            forall m ex,
              excluded ex (c_userId ci) = false ->
              In (Send old m) (snd (broadcastToSession sessionId m ex now st')))).
Proof.
  intros s' st' joined.
  assert (Hpart : has_participant userId (participants s) = true).
  { destruct (reachable_ok st Hreach _ s Hs) as (Hh & _). by rewrite <- Hhost. }
  assert (Hs' : sessions st' !! sessionId = Some s')
    by (unfold st', register, put_session; simpl; apply lookup_insert_eq).
  assert (Hlive' : expired now s' = false) by apply expired_touch.
  split.
  { unfold handleSessionCreate.
    rewrite (getSession_live _ _ _ _ Hs Hlive); cbv beta iota.
    rewrite (proj2 (eqs_true _ _) Hhost).
    rewrite (addParticipant_live _ _ _ _ _ _ Hs Hlive), Hpart; cbv beta iota zeta.
    fold s'. fold st'. cbn [default].
    by rewrite (broadcast_live _ _ _ _ _ _ Hs' Hlive'). }
  split; [done|]. split; [by apply reconnect_first_find|].
  split; [unfold st', register; simpl; apply lookup_insert_eq|].
  split; [unfold st', register; simpl; apply clients_get_set_eq|].
  split.
  { intros w. rewrite broadcast_recipients.
    split; intros (ci & Hin & Hsid & Hex & Hopen); exists ci;
      (split; [done|]; split; [done|]; split; [|done]).
    - simpl in Hex. by apply eqs_false in Hex.
    - simpl. by apply eqs_false. }
  intros old ci Hne Hold.
  assert (Hold' : clients_get old (clients st') = Some ci).
  { unfold st', register; simpl. by rewrite clients_get_set_ne. }
  split; [done|]. intros Hsid Hopen m ex Hex.
  rewrite (broadcast_live _ _ _ _ _ _ Hs' Hlive'); simpl.
  apply broadcast_recipients. exists ci.
  split; [by apply clients_get_In|]. done.
Qed.

(** * Uniqueness of ingredients *)

(** C6.  In every reachable state the ingredient ids of a session are
    pairwise different and so are its ingredient names once lowercased.  An
    [ingredients:add] from a registered socket of a live session whose
    lowercased name is already there returns the state as it was and writes
    nothing; otherwise it appends the record with the drawn id, which no
    ingredient of the session has, the lowercased name, [addedBy] and the
    time.  An id in the client's payload has no effect. *)
Theorem ingredients_unique_and_add (st : Server) (Hreach : reachable st) :
  (forall k s,
     sessions st !! k = Some s ->
     NoDup (List.map i_id (ingredients s))
     /\ NoDup (lowered_names (ingredients s)))
  /\ (forall ws ingredient now uuid ci s,
        clients_get ws (clients st) = Some ci ->
        sessions st !! c_sessionId ci = Some s ->
        expired now s = false ->
        (In (toLowerCase (in_name ingredient)) (lowered_names (ingredients s)) ->
         handleIngredientsAdd ws ingredient now uuid st = (st, []))
        /\ (~ In (toLowerCase (in_name ingredient))
                (lowered_names (ingredients s)) ->
            uuid_fresh uuid st ->
            ~ In uuid (List.map i_id (ingredients s))
            /\ exists s',
                 sessions (fst (handleIngredientsAdd ws ingredient now uuid st))
                   !! c_sessionId ci = Some s'
                 /\ ingredients s'
                    = ingredients s
                        ++ [mkIngredient uuid (toLowerCase (in_name ingredient))
                              (in_addedBy ingredient) now])
        /\ (forall clientId,
              handleIngredientsAdd ws
                (mkIngredientInput clientId (in_name ingredient)
                   (in_addedBy ingredient)) now uuid st
              = handleIngredientsAdd ws ingredient now uuid st)).
Proof.
  split.
  - intros k s Hs.
    destruct (reachable_ok st Hreach k s Hs) as (_ & H1 & H2 & _). done.
  - intros ws ingredient now uuid ci s Hreg Hs Hlive.
    pose proof (handleIngredientsAdd_live ws ingredient now uuid st ci s
                  Hreg Hs Hlive) as Hadd.
    split; [|split].
    + intros Hin%existsb_lowered. by rewrite Hin in Hadd.
    + intros Hnew Hf.
      rewrite (not_true_is_false _
                 (fun H => Hnew (proj1 (existsb_lowered _ _) H))) in Hadd.
      destruct (uuid_fresh_session _ _ _ _ Hf Hs) as (Hid & _ & _).
      split; [done|]. rewrite Hadd. eexists. simpl.
      split; [apply lookup_insert_eq | done].
    + intros clientId. by destruct ingredient.
Qed.

(** * ingredients:blacklist *)

Lemma handleIngredientsBlacklist_live (ws : Ws) (ingredientName : string)
  (fromIngredients : bool) (now : Z) (st : Server) (ci : ClientInfo)
  (s : Session) :
  clients_get ws (clients st) = Some ci ->
  sessions st !! c_sessionId ci = Some s ->
  expired now s = false ->
  handleIngredientsBlacklist ws ingredientName fromIngredients now st
  = let name := toLowerCase ingredientName in
    let blacklist' :=
      if existsb (eqs name) (blacklist s)
      then blacklist s
      else blacklist s ++ [name] in
    let ingredients' :=
      if fromIngredients
      then remove_first (fun ing => eqs (toLowerCase (i_name ing)) name)
             (ingredients s)
      else ingredients s in
    (put_session (c_sessionId ci)
       (set_lastActivity now
          (set_ingredients ingredients' (set_blacklist blacklist' s))) st,
     List.map
       (fun e => Send (fst e)
                   (IngredientsBlacklisted name blacklist' ingredients'))
       (List.filter (receives (c_sessionId ci) None st) (clients st))).
Proof.
  intros Hreg Hs Hlive. unfold handleIngredientsBlacklist.
  rewrite Hreg, (getSession_live _ _ _ _ Hs Hlive); cbv beta iota zeta.
  by rewrite commit_broadcast.
Qed.

(** Where names do not repeat, removing the first ingredient of a name
    removes the name. *)
Lemma remove_first_name_gone (name : string) (l : list Ingredient) :
  NoDup (lowered_names l) ->
  ~ In name
      (lowered_names
         (remove_first (fun ing => eqs (toLowerCase (i_name ing)) name) l)).
Proof.
  unfold lowered_names. induction l as [|x l IH]; simpl; [tauto|].
  intros [Hnot Hnd]%NoDup_cons.
  destruct (eqs (toLowerCase (i_name x)) name) eqn:E.
  - apply eqs_true in E as <-. intros Hin. by apply Hnot, list_elem_of_In.
  - simpl. intros [Heq|Hin]; [by apply eqs_false in E | by apply IH].
Qed.

Lemma In_blacklist_added (name n : string) (bl : list string) :
  In n (if existsb (eqs name) bl then bl else bl ++ [name])
  <-> In n bl \/ n = name.
Proof.
  destruct (existsb (eqs name) bl) eqn:E.
  - split; [auto|]. intros [H| ->]; [done|].
    apply existsb_exists in E as (x & Hx & ->%eqs_true). done.
  - rewrite in_app_iff. simpl. intuition.
Qed.

(** C2, as the code has it.  In a reachable state whose session has a
    blacklist disjoint from its lowercased ingredient names, an
    [ingredients:blacklist] from a registered socket of the live session puts
    the lowercased name on the blacklist and, when [fromIngredients] is true
    (or the name is no ingredient), leaves the blacklist disjoint from the
    lowercased ingredient names.  When [fromIngredients] is false the
    ingredients are left as they are. *)
Theorem blacklist_disjoint_after_move (ws : Ws) (ingredientName : string)
  (fromIngredients : bool) (now : Z) (st : Server) (ci : ClientInfo)
  (s : Session)
  (Hreach : reachable st)
  (Hreg : clients_get ws (clients st) = Some ci)
  (Hs : sessions st !! c_sessionId ci = Some s)
  (Hlive : expired now s = false)
  (Hpre : blacklist_disjoint s) :
  exists s',
    sessions
      (fst (handleIngredientsBlacklist ws ingredientName fromIngredients now st))
      !! c_sessionId ci = Some s'
    /\ In (toLowerCase ingredientName) (blacklist s')
    /\ (fromIngredients = true
        \/ ~ In (toLowerCase ingredientName) (lowered_names (ingredients s)) ->
        blacklist_disjoint s')
    /\ (fromIngredients = false -> ingredients s' = ingredients s).
Proof.
  destruct (reachable_ok st Hreach _ s Hs) as (_ & _ & Hnames & _).
  rewrite (handleIngredientsBlacklist_live _ _ _ _ _ _ _ Hreg Hs Hlive).
  cbv zeta. cbn [fst]. eexists. split; [apply lookup_insert_eq|]. simpl.
  split; [apply In_blacklist_added; by right|].
  split; [|by intros ->].
  intros Hmove name [Hold| ->]%In_blacklist_added.
  - intros Hin. apply (Hpre name Hold).
    destruct fromIngredients; [|done].
    unfold lowered_names in *. apply in_map_iff in Hin as (x & Hx & Hin).
    apply in_map_iff. exists x. split; [done|]. by apply In_remove_first in Hin.
  - destruct fromIngredients.
    + by apply remove_first_name_gone.
    + by destruct Hmove.
Qed.

(** * Invariants of sessions, in general *)

(** A property of stored sessions that the new session has and that each
    change a handler makes to a session keeps, holds of every session of
    every reachable state. *)
Section Preservation.

Variable P : string -> Session -> Prop.

Hypothesis P_new : forall k h n now,
  P k (mkSession k h n now now true [mkParticipant h n now true None None]
         [] [] EmptyString [] []).
Hypothesis P_touch : forall k now s, P k s -> P k (set_lastActivity now s).
Hypothesis P_join : forall k u n now s,
  P k s ->
  P k (set_participants
         (if has_participant u (participants s)
          then reconnect_first u now (participants s)
          else participants s ++ [mkParticipant u n now true None None]) s).
Hypothesis P_leave : forall k u now s,
  P k s -> P k (set_participants (disconnect_first u now (participants s)) s).
Hypothesis P_add_ingredient : forall k name addedBy now uuid s,
  P k s ->
  existsb (fun ing => eqs (toLowerCase (i_name ing)) (toLowerCase name))
    (ingredients s) = false ->
  uuid_unused_in uuid s = true ->
  P k (set_ingredients
         (ingredients s ++ [mkIngredient uuid (toLowerCase name) addedBy now])
         s).
Hypothesis P_remove_ingredient : forall k id s,
  P k s ->
  P k (set_ingredients
         (remove_first (fun ing => eqs (i_id ing) id) (ingredients s)) s).
Hypothesis P_blacklist : forall k name (from : bool) s,
  P k s ->
  P k (set_ingredients
         (if from
          then remove_first
                 (fun ing => eqs (toLowerCase (i_name ing)) (toLowerCase name))
                 (ingredients s)
          else ingredients s)
         (set_blacklist
            (if existsb (eqs (toLowerCase name)) (blacklist s)
             then blacklist s
             else blacklist s ++ [toLowerCase name]) s)).
Hypothesis P_add_recipe : forall k body now uuid s,
  P k s ->
  uuid_unused_in uuid s = true ->
  inherited uuid = false ->
  P k (set_recipes (recipes s ++ [mkRecipe uuid body now 0 []]) s).
Hypothesis P_vote : forall k u recipeId t s,
  P k s ->
  get_property (votes_get u (votes s)) u <> Member ->
  P k (set_recipes
         (List.map (recount (record_vote u recipeId t (votes s))) (recipes s))
         (set_votes (record_vote u recipeId t (votes s)) s)).
Hypothesis P_recount : forall k s,
  P k s ->
  P k (set_recipes (List.map (recount (votes s)) (recipes s)) s).
Hypothesis P_remove_recipe : forall k id s,
  P k s ->
  P k (set_recipes (remove_first (fun r => eqs (r_id r) id) (recipes s)) s).
Hypothesis P_context : forall k ctx s, P k s -> P k (set_context ctx s).
Hypothesis P_transfer : forall k id p s,
  P k s ->
  List.find (fun p => eqs (p_id p) id) (participants s) = Some p ->
  P k (set_host id (p_name p) s).
Hypothesis P_permissions : forall k b s,
  P k s -> P k (set_allowRecipeGeneration b s).

Local Abbreviation all_sessions st := (map_Forall P (sessions st)).

Lemma all_delete (k : string) (st : Server) :
  all_sessions st -> all_sessions (set_sessions (delete k (sessions st)) st).
Proof. simpl. apply map_Forall_delete. Qed.

Lemma all_put (k : string) (s : Session) (st : Server) :
  all_sessions st -> P k s -> all_sessions (put_session k s st).
Proof.
  unfold put_session; simpl. intros H Hs.
  by apply map_Forall_insert_2.
Qed.

Lemma all_getSession (k : string) (now : Z) (st st' : Server)
  (o : option Session) :
  all_sessions st -> getSession k now st = (o, st') -> all_sessions st'.
Proof.
  intros Hok Hg. destruct o as [s|].
  - by apply getSession_Some in Hg as (-> & _ & _).
  - apply getSession_None in Hg as [->| ->]; [done|]. by apply all_delete.
Qed.

Lemma all_broadcast (k : string) (m : Message) (ex : option string)
  (now : Z) (st : Server) :
  all_sessions st -> all_sessions (fst (broadcastToSession k m ex now st)).
Proof.
  intros Hok. unfold broadcastToSession.
  destruct (getSession k now st) as [[s|] st1] eqn:Hg; simpl;
    by apply (all_getSession _ _ _ _ _ Hok Hg).
Qed.

Lemma all_commit (k : string) (m : Message) (ex : option string) (now : Z)
  (st : Server) (s : Session) :
  all_sessions st -> P k s ->
  all_sessions
    (fst (broadcastToSession k m ex now
            (updateSessionActivity k now (put_session k s st)))).
Proof.
  intros Hok Hs. rewrite commit_broadcast; simpl.
  apply all_put; [done|]. by apply P_touch.
Qed.

Ltac open_all Hok :=
  lazymatch goal with
  | |- context [clients_get ?ws ?c] =>
      destruct (clients_get ws c) as [clientInfo|]; [|exact Hok]
  end;
  lazymatch goal with
  | |- context [getSession ?k ?now ?st] =>
      let Hg := fresh "Hg" in
      destruct (getSession k now st) as [[session|] st1] eqn:Hg;
      [apply getSession_Some in Hg as (-> & Hs & Hlive); cbv beta iota zeta
      |exact (all_getSession _ _ _ _ _ Hok Hg)]
  end.

Lemma all_addParticipant (k u n : string) (now : Z) (st : Server) :
  all_sessions st -> all_sessions (snd (addParticipant k u n now st)).
Proof.
  intros Hok. unfold addParticipant.
  destruct (getSession k now st) as [[s|] st1] eqn:Hg;
    [|exact (all_getSession _ _ _ _ _ Hok Hg)].
  apply getSession_Some in Hg as (-> & Hs & _). simpl.
  apply all_put; [done|]. apply P_touch, P_join. exact (Hok _ _ Hs).
Qed.

Lemma all_removeParticipant (k u : string) (now : Z) (st : Server) :
  all_sessions st -> all_sessions (snd (removeParticipant k u now st)).
Proof.
  intros Hok. unfold removeParticipant.
  destruct (getSession k now st) as [[s|] st1] eqn:Hg;
    [|exact (all_getSession _ _ _ _ _ Hok Hg)].
  apply getSession_Some in Hg as (-> & Hs & _). simpl.
  apply all_put; [done|]. apply P_leave. exact (Hok _ _ Hs).
Qed.

Lemma all_join_tail (ws : Ws) (k u n : string) (now : Z) (st : Server)
  (m : Message) (reply : option Session -> Message) :
  all_sessions st ->
  all_sessions
    (fst (let '(updated, st2) := addParticipant k u n now st in
          let st3 := register ws u k n st2 in
          let '(st4, evs) := broadcastToSession k m (Some u) now st3 in
          (st4, Send ws (reply updated) :: evs))).
Proof.
  intros Hok. pose proof (all_addParticipant k u n now st Hok) as H.
  destruct (addParticipant k u n now st) as [updated st2].
  simpl in H. cbv zeta.
  pose proof (all_broadcast k m (Some u) now (register ws u k n st2) H) as H'.
  by destruct (broadcastToSession _ _ _ _ _).
Qed.

Lemma all_handleMessage (ws : Ws) (message : Command) (now : Z)
  (uuid : string) (st : Server) :
  all_sessions st ->
  (draws_uuid message = true -> uuid_fresh uuid st /\ inherited uuid = false) ->
  all_sessions (fst (handleMessage ws message now uuid st)).
Proof.
  intros Hok Hf.
  destruct message as [k u n|k u n|ing|id|name from|body|rid t|rid|ctx|nh|b| |ty];
    cbn [handleMessage].
  - unfold handleSessionCreate.
    destruct (getSession k now st) as [[s|] st1] eqn:Hg.
    + apply getSession_Some in Hg as (-> & Hs & _).
      destruct (eqs _ _); [|exact Hok].
      pose proof (all_join_tail ws k u n now st
                    (ParticipantJoined u n None (Some now))
                    (fun o => SessionCreated (default s o)) Hok) as H.
      destruct (addParticipant _ _ _ _ _) as [updated st2].
      cbv zeta in *. by destruct (broadcastToSession _ _ _ _ _).
    + simpl. apply all_put;
        [exact (all_getSession _ _ _ _ _ Hok Hg) | apply P_new].
  - unfold handleSessionJoin.
    destruct (getSession k now st) as [[s|] st1] eqn:Hg;
      [|exact (all_getSession _ _ _ _ _ Hok Hg)].
    apply getSession_Some in Hg as (-> & Hs & _).
    pose proof (all_join_tail ws k u n now st
                  (ParticipantJoined u n (Some now) None)
                  SessionJoined Hok) as H.
    destruct (userConnections st !! u) as [c|]; [|exact H].
    destruct (negb _); [exact Hok | exact H].
  - unfold handleIngredientsAdd. open_all Hok.
    destruct (existsb _ _) eqn:E; [exact Hok|].
    apply all_commit; [done|].
    apply P_add_ingredient; [exact (Hok _ _ Hs) | done |].
    exact (proj1 (Hf eq_refl) _ _ Hs).
  - unfold handleIngredientsRemove. open_all Hok.
    destruct (List.find _ _); [|exact Hok].
    apply all_commit; [done|]. apply P_remove_ingredient. exact (Hok _ _ Hs).
  - unfold handleIngredientsBlacklist. open_all Hok.
    apply all_commit; [done|]. apply P_blacklist. exact (Hok _ _ Hs).
  - unfold handleRecipesAdd. open_all Hok.
    apply all_commit; [done|].
    destruct (Hf eq_refl) as [Hfresh Hplain].
    apply P_add_recipe; [exact (Hok _ _ Hs) | exact (Hfresh _ _ Hs) | done].
  - unfold handleRecipesVote. open_all Hok.
    destruct (get_property _ _) eqn:Eg; cbn [fst];
      (apply all_commit; [done|]);
      [|apply P_recount; exact (Hok _ _ Hs)|];
      (apply P_vote; [exact (Hok _ _ Hs)|]; by rewrite Eg).
  - unfold handleRecipesRemove. open_all Hok.
    destruct (List.find _ _); [|exact Hok].
    apply all_commit; [done|]. apply P_remove_recipe. exact (Hok _ _ Hs).
  - unfold handleContextUpdate. open_all Hok.
    destruct (negb _); [exact Hok|].
    apply all_commit; [done|]. apply P_context. exact (Hok _ _ Hs).
  - unfold handleHostTransfer. open_all Hok.
    destruct (negb _); [exact Hok|].
    destruct (List.find _ _) as [newHost|] eqn:Hfind; [|exact Hok].
    apply all_commit; [done|]. apply P_transfer; [exact (Hok _ _ Hs) | done].
  - unfold handleHostPermissions. open_all Hok.
    destruct (negb _); [exact Hok|].
    apply all_commit; [done|]. apply P_permissions. exact (Hok _ _ Hs).
  - unfold handleSessionEnd. open_all Hok.
    destruct (negb _); [exact Hok|].
    rewrite (broadcast_live _ _ _ _ _ _ Hs Hlive).
    rewrite end_client_sessions. simpl.
    by apply map_Forall_delete.
  - exact Hok.
Qed.

Lemma all_handleDisconnection (ws : Ws) (now : Z) (st : Server) :
  all_sessions st -> all_sessions (fst (handleDisconnection ws now st)).
Proof.
  intros Hok. unfold handleDisconnection.
  destruct (clients_get ws (clients st)) as [ci|]; [|exact Hok].
  match goal with
  | |- context [removeParticipant ?k ?u ?n ?s] =>
      pose proof (all_removeParticipant k u n s Hok) as H;
      destruct (removeParticipant k u n s) as [o st2]
  end.
  by apply all_broadcast.
Qed.

Lemma all_cleanup (now : Z) (st : Server) :
  all_sessions st -> all_sessions (fst (cleanupExpiredSessions now st)).
Proof.
  intros Hok k s Hs. rewrite cleanupExpiredSessions_sessions in Hs.
  destruct (sessions st !! k) as [s0|] eqn:E; [|done].
  destruct (expired now s0); [done|]. injection Hs as <-. exact (Hok _ _ E).
Qed.

Lemma all_step (st st' : Server) :
  step st st' -> all_sessions st -> all_sessions st'.
Proof.
  intros Hstep Hok. destruct Hstep; simpl;
    auto using all_handleMessage, all_handleDisconnection, all_cleanup.
Qed.

Lemma all_reachable (st : Server) : reachable st -> all_sessions st.
Proof.
  induction 1 as [|st st' _ IH Hstep].
  - intros k s Hs. unfold initial in Hs; simpl in Hs.
    by rewrite lookup_empty in Hs.
  - by apply (all_step st).
Qed.

End Preservation.

(** * Well-formed sessions *)

Lemma map_p_id_reconnect_first (u : string) (now : Z) (ps : list Participant) :
  List.map p_id (reconnect_first u now ps) = List.map p_id ps.
Proof.
  induction ps as [|p ps IH]; simpl; [done|].
  destruct (eqs (p_id p) u); simpl; [done | by rewrite IH].
Qed.

Lemma map_p_id_disconnect_first (u : string) (now : Z) (ps : list Participant) :
  List.map p_id (disconnect_first u now ps) = List.map p_id ps.
Proof.
  induction ps as [|p ps IH]; simpl; [done|].
  destruct (eqs (p_id p) u); simpl; [done | by rewrite IH].
Qed.

Lemma find_reconnect_first (h u : string) (now : Z) (ps : list Participant)
  (p : Participant) :
  List.find (fun p => eqs (p_id p) h) ps = Some p ->
  exists p',
    List.find (fun p => eqs (p_id p) h) (reconnect_first u now ps) = Some p'
    /\ p_id p' = p_id p /\ p_name p' = p_name p /\ p_joinedAt p' = p_joinedAt p.
Proof.
  induction ps as [|q ps IH]; simpl; [done|].
  destruct (eqs (p_id q) u) eqn:Eu; simpl.
  - destruct (eqs (p_id q) h) eqn:Eh.
    + intros [= <-]. eauto.
    + intros H. eauto.
  - destruct (eqs (p_id q) h) eqn:Eh.
    + intros [= <-]. eauto.
    + auto.
Qed.

Lemma find_disconnect_first (h u : string) (now : Z) (ps : list Participant)
  (p : Participant) :
  List.find (fun p => eqs (p_id p) h) ps = Some p ->
  exists p',
    List.find (fun p => eqs (p_id p) h) (disconnect_first u now ps) = Some p'
    /\ p_id p' = p_id p /\ p_name p' = p_name p /\ p_joinedAt p' = p_joinedAt p.
Proof.
  induction ps as [|q ps IH]; simpl; [done|].
  destruct (eqs (p_id q) u) eqn:Eu; simpl.
  - destruct (eqs (p_id q) h) eqn:Eh.
    + intros [= <-]. eauto.
    + intros H. eauto.
  - destruct (eqs (p_id q) h) eqn:Eh.
    + intros [= <-]. eauto.
    + auto.
Qed.

Lemma find_app_found {A : Type} (f : A -> bool) (l l' : list A) (x : A) :
  List.find f l = Some x -> List.find f (l ++ l') = Some x.
Proof.
  induction l as [|y l IH]; simpl; [done|]. destruct (f y); auto.
Qed.

Lemma has_participant_ids (u : string) (ps : list Participant) :
  has_participant u ps = true <-> In u (List.map p_id ps).
Proof.
  unfold has_participant. rewrite existsb_exists, in_map_iff.
  split; intros (p & H1 & H2); exists p.
  - by apply eqs_true in H2.
  - split; [done | by apply eqs_true].
Qed.

Lemma session_wf_new (k h n : string) (now : Z) :
  session_wf k
    (mkSession k h n now now true [mkParticipant h n now true None None]
       [] [] EmptyString [] []).
Proof.
  split; [done|]. split; [simpl; apply NoDup_singleton|]. split.
  - eexists. simpl. rewrite eqs_refl. done.
  - repeat split; simpl; constructor.
Qed.

Lemma session_wf_join (k u n : string) (now : Z) (s : Session) :
  session_wf k s ->
  session_wf k
    (set_participants
       (if has_participant u (participants s)
        then reconnect_first u now (participants s)
        else participants s ++ [mkParticipant u n now true None None]) s).
Proof.
  intros (Hid & Hps & (p & Hfind & Hname) & Hrest).
  split; [done|]. simpl. split; [|split; [|exact Hrest]].
  - destruct (has_participant u (participants s)) eqn:E.
    + by rewrite map_p_id_reconnect_first.
    + rewrite map_app. simpl. apply NoDup_snoc; [done|].
      intros Hin%has_participant_ids. congruence.
  - unfold host_named. simpl.
    destruct (has_participant u (participants s)).
    + destruct (find_reconnect_first _ u now _ _ Hfind) as (p' & Hf' & _ & Hn & _).
      exists p'. split; [done | congruence].
    + exists p. split; [by apply find_app_found | done].
Qed.

Lemma session_wf_leave (k u : string) (now : Z) (s : Session) :
  session_wf k s ->
  session_wf k (set_participants (disconnect_first u now (participants s)) s).
Proof.
  intros (Hid & Hps & (p & Hfind & Hname) & Hrest).
  split; [done|]. simpl. split; [|split; [|exact Hrest]].
  - by rewrite map_p_id_disconnect_first.
  - unfold host_named. simpl.
    destruct (find_disconnect_first _ u now _ _ Hfind) as (p' & Hf' & _ & Hn & _).
    exists p'. split; [done | congruence].
Qed.

Lemma forallb_recipe_ids (uuid : string) (l : list Recipe) :
  forallb (fun r => negb (eqs (r_id r) uuid)) l = true ->
  ~ In uuid (List.map r_id l).
Proof.
  rewrite forallb_forall, in_map_iff. intros H (r & Hid & Hin).
  specialize (H r Hin). by rewrite (proj2 (eqs_true _ _) Hid) in H.
Qed.

Lemma map_r_id_recount (v : list (string * gmap string VoteType))
  (l : list Recipe) :
  List.map r_id (List.map (recount v) l) = List.map r_id l.
Proof.
  rewrite map_map. apply map_ext. intros r. by rewrite recount_spec.
Qed.

(** In every reachable state every session is stored under its own id, has
    participants of pairwise different ids, a host name that is the name of
    the host's participant record, recipes of pairwise different ids,
    lowercase ingredient names, and a blacklist of lowercase names without
    repetition. *)
Lemma reachable_wf (st : Server) :
  reachable st -> map_Forall session_wf (sessions st).
Proof.
  apply all_reachable.
  - apply session_wf_new.
  - by intros k now s H.
  - apply session_wf_join.
  - apply session_wf_leave.
  - intros k name addedBy now uuid s (H1 & H2 & H3 & H4 & H5 & H6) He Hu.
    split; [done|]. split; [done|]. split; [done|]. split; [done|].
    split; [|exact H6]. simpl.
    apply Forall_app. split; [done|]. apply Forall_singleton.
    apply toLowerCase_idempotent.
  - intros k id s (H1 & H2 & H3 & H4 & H5 & H6).
    split; [done|]. split; [done|]. split; [done|]. split; [done|].
    split; [|exact H6]. simpl. by apply Forall_remove_first.
  - intros k name from s (H1 & H2 & H3 & H4 & H5 & H6 & H7 & H8).
    split; [done|]. split; [done|]. split; [done|]. split; [done|]. simpl.
    split; [destruct from; [by apply Forall_remove_first | done]|].
    destruct (existsb (eqs (toLowerCase name)) (blacklist s)) eqn:E; [done|].
    split; [|split; [|exact H8]].
    + apply NoDup_snoc; [done|]. intros Hin.
      assert (existsb (eqs (toLowerCase name)) (blacklist s) = true);
        [|congruence].
      apply existsb_exists. exists (toLowerCase name). split; [done|].
      apply eqs_refl.
    + apply Forall_app. split; [done|]. apply Forall_singleton.
      apply toLowerCase_idempotent.
  - intros k body now uuid s (H1 & H2 & H3 & H4 & H5 & H6 & H7 & H8 & H9)
      Hu Hplain.
    split; [done|]. split; [done|]. split; [done|]. simpl.
    split; [|split; [done|split; [done|split; [done|split; [|done]]]]].
    + rewrite map_app. simpl. apply NoDup_snoc; [done|].
      apply forallb_recipe_ids. unfold uuid_unused_in in Hu.
      by apply andb_true_iff in Hu as [[_ Hu]%andb_true_iff _].
    + apply Forall_app. split; [done|]. by apply Forall_singleton.
  - intros k u recipeId t s (H1 & H2 & H3 & H4 & H5 & H6 & H7 & H8 & H9) Hu.
    split; [done|]. split; [done|]. split; [done|]. simpl.
    split; [|split; [done|split; [done|split; [done|split]]]].
    + by rewrite map_r_id_recount.
    + apply Forall_forall.
      intros r (r0 & <- & Hr0)%list_elem_of_In%in_map_iff.
      rewrite recount_spec. simpl.
      by apply (proj1 (Forall_forall _ _) H8), list_elem_of_In.
    + rewrite record_vote_cases.
      destruct (votes_get u (votes s)) as [old|] eqn:E.
      * apply Forall_forall. intros e He. apply list_elem_of_In in He.
        assert (Hk : In (fst e) (List.map fst (votes s))).
        { rewrite <- (votes_set_keys u (cast_vote recipeId t old) old _ E).
          apply in_map_iff. by exists e. }
        apply in_map_iff in Hk as (e0 & <- & He0).
        by apply (proj1 (Forall_forall _ _) H9), list_elem_of_In.
      * apply Forall_app. split; [done|]. apply Forall_singleton. simpl.
        simpl in Hu. by destruct (inherited u).
  - intros k s (H1 & H2 & H3 & H4 & H5 & H6 & H7 & H8 & H9).
    split; [done|]. split; [done|]. split; [done|]. simpl.
    split; [|split; [done|split; [done|split; [done|split; [|done]]]]].
    + by rewrite map_r_id_recount.
    + apply Forall_forall.
      intros r (r0 & <- & Hr0)%list_elem_of_In%in_map_iff.
      rewrite recount_spec. simpl.
      by apply (proj1 (Forall_forall _ _) H8), list_elem_of_In.
  - intros k id s (H1 & H2 & H3 & H4 & H5 & H6 & H7 & H8 & H9).
    split; [done|]. split; [done|]. split; [done|]. simpl.
    split; [|split; [done|split; [done|split; [done|split; [|done]]]]].
    + by apply NoDup_map_remove_first.
    + by apply Forall_remove_first.
  - by intros k ctx s H.
  - intros k id p s (H1 & H2 & H3 & H4) Hfind.
    split; [done|]. split; [done|]. split; [|exact H4].
    exists p. simpl. done.
  - by intros k b s H.
Qed.

(** * The tally invariant *)

(** The users with a stored vote on a recipe, as [vote_on] sees them. *)
Lemma In_voterIds (recipeId u : string)
  (v : list (string * gmap string VoteType)) :
  NoDup (List.map fst v) ->
  inherited recipeId = false ->
  In u (voters recipeId (own_entries v))
  <-> exists t, vote_on v u recipeId = Some t /\ t <> EmptyString.
Proof.
  intros Hnd Hplain. rewrite (In_voters _ _ _ Hnd). unfold vote_on. split.
  - intros (uv & -> & Ht). by apply truthy_stored.
  - destruct (votes_get u v) as [uv|]; [|by intros (? & ? & ?)].
    intros Ht. exists uv. split; [done|]. by apply truthy_stored.
Qed.

(** C3, as the code has it.  In every reachable state, every recipe [r] of
    every session has [votes] equal to the number of users whose stored vote
    on [r] is ["up"] minus the number of those whose stored vote is
    ["down"], and [voterIds] lists, without repetition, exactly the users
    with a stored vote on [r] other than the empty string, whatever that
    vote is.  When every stored vote on [r] is ["up"] or ["down"], they are
    exactly the users holding an up or a down vote on [r].  The states that
    [recipes:vote] and [recipes:add] lead to are reachable states
    ([step_message]). *)
Theorem recipe_tally_invariant (st : Server) (k : string) (s : Session)
  (r : Recipe)
  (Hreach : reachable st)
  (Hs : sessions st !! k = Some s)
  (Hr : In r (recipes s)) :
  let ups := voters_with Up (r_id r) (votes s) in
  let downs := voters_with Down (r_id r) (votes s) in
  NoDup ups
  /\ (forall u, In u ups <-> vote_on (votes s) u (r_id r) = Some Up)
  /\ NoDup downs
  /\ (forall u, In u downs <-> vote_on (votes s) u (r_id r) = Some Down)
  /\ r_votes r = Z.of_nat (length ups) - Z.of_nat (length downs)
  /\ NoDup (r_voterIds r)
  /\ (forall u,
        In u (r_voterIds r)
        <-> exists t,
              vote_on (votes s) u (r_id r) = Some t /\ t <> EmptyString)
  /\ ((forall u t,
         vote_on (votes s) u (r_id r) = Some t -> t = Up \/ t = Down) ->
      forall u,
        In u (r_voterIds r)
        <-> vote_on (votes s) u (r_id r) = Some Up
            \/ vote_on (votes s) u (r_id r) = Some Down).
Proof.
  intros ups downs.
  destruct (reachable_ok st Hreach k s Hs) as (_ & _ & _ & Hnd & _ & Hrec).
  destruct (reachable_wf st Hreach k s Hs)
    as (_ & _ & _ & _ & _ & _ & _ & Hplain & _).
  pose proof (proj1 (Forall_forall _ _) Hplain r
                (proj2 (list_elem_of_In _ _) Hr)) as Hid.
  apply list_elem_of_In in Hr. apply (proj1 (Forall_forall _ _) Hrec) in Hr.
  cbv beta in Hr, Hid. rewrite recount_spec in Hr. fold ups downs in Hr.
  pose proof (f_equal r_votes Hr) as Hv.
  pose proof (f_equal r_voterIds Hr) as Hi. simpl in Hv, Hi.
  assert (Hin : forall u,
            In u (r_voterIds r)
            <-> exists t,
                  vote_on (votes s) u (r_id r) = Some t /\ t <> EmptyString)
    by (intros u; rewrite <- Hi; by apply In_voterIds).
  split; [by apply NoDup_map_filter|]. split; [intros u; by apply In_voters_with|].
  split; [by apply NoDup_map_filter|]. split; [intros u; by apply In_voters_with|].
  split; [done|].
  split; [rewrite <- Hi; by apply NoDup_map_filter, own_entries_keys|].
  split; [done|].
  intros Hkinds u. rewrite Hin. split.
  - intros (t & Ht & _). destruct (Hkinds u t Ht) as [-> | ->]; auto.
  - intros [Ht|Ht]; eexists; (split; [exact Ht | done]).
Qed.

(** * recipes:vote *)

Lemma handleRecipesVote_live (ws : Ws) (recipeId : string)
  (voteType : VoteType) (now : Z) (st : Server) (ci : ClientInfo) (s : Session) :
  clients_get ws (clients st) = Some ci ->
  sessions st !! c_sessionId ci = Some s ->
  expired now s = false ->
  get_property (votes_get (c_userId ci) (votes s)) (c_userId ci) <> Member ->
  handleRecipesVote ws recipeId voteType now st
  = let votes' := record_vote (c_userId ci) recipeId voteType (votes s) in
    let recipes' := List.map (recount votes') (recipes s) in
    (put_session (c_sessionId ci)
       (set_lastActivity now (set_recipes recipes' (set_votes votes' s))) st,
     List.map
       (fun e => Send (fst e)
                   (RecipesVoted recipeId voteType (c_userId ci) recipes'))
       (List.filter (receives (c_sessionId ci) None st) (clients st))).
Proof.
  intros Hreg Hs Hlive Hown. unfold handleRecipesVote.
  rewrite Hreg, (getSession_live _ _ _ _ Hs Hlive); cbv beta iota zeta.
  destruct (get_property _ _); [|done|]; by rewrite commit_broadcast.
Qed.


Lemma own_or_plain (u : string) (v : list (string * gmap string VoteType)) :
  inherited u = false -> get_property (votes_get u v) u <> Member.
Proof.
  intros Hu. unfold get_property. rewrite Hu. by destruct (votes_get u v).
Qed.




(** An empty vote object at the end of [votes] counts for no recipe whose
    id is no property name of [Object.prototype]. *)
Lemma recount_app_empty (v : list (string * gmap string VoteType))
  (u : string) (r : Recipe) :
  inherited (r_id r) = false ->
  recount (v ++ [(u, ∅)]) r = recount v r.
Proof.
  intros Hplain. rewrite !recount_spec. unfold voters_with, voters.
  rewrite own_entries_snoc_out
    by (unfold vote_property, get_property; simpl;
        by rewrite lookup_empty, Hplain).
  rewrite !List.filter_app. simpl. rewrite lookup_empty.
  rewrite !bool_decide_eq_false_2 by congruence.
  by rewrite !app_nil_r.
Qed.

(** A vote on one recipe leaves the recount of every other recipe alone. *)
Lemma recount_record_other (u recipeId : string) (t : VoteType)
  (v : list (string * gmap string VoteType)) (r : Recipe) :
  r_id r <> recipeId ->
  inherited (r_id r) = false ->
  recount (record_vote u recipeId t v) r = recount v r.
Proof.
  intros Hne Hplain. rewrite record_vote_cases.
  destruct (votes_get u v) as [old|] eqn:E.
  - rewrite !recount_spec. unfold voters_with, voters.
    rewrite !(votes_set_filter _ u _ old v E),
      (votes_set_entries _ u _ old v E); [done|..];
      unfold vote_property; cbn [snd];
      by rewrite cast_vote_lookup, (bool_decide_eq_false_2 (r_id r = recipeId)).
  - rewrite <- (recount_app_empty v u r Hplain).
    rewrite !recount_spec. unfold voters_with, voters.
    rewrite !own_entries_snoc_out
      by (unfold vote_property, get_property; cbn [snd];
          rewrite ?cast_vote_lookup,
            ?(bool_decide_eq_false_2 (r_id r = recipeId)) by done;
          by rewrite lookup_empty, Hplain).
    rewrite !List.filter_app. cbn [List.filter snd].
    by rewrite cast_vote_lookup, (bool_decide_eq_false_2 (r_id r = recipeId)).
Qed.







(** * What a command leaves alone *)

Lemma same_registry_refl (st : Server) : same_registry st st.
Proof. by repeat split. Qed.

Lemma getSession_registry (k : string) (now : Z) (st : Server) :
  same_registry st (snd (getSession k now st)).
Proof.
  unfold getSession. destruct (sessions st !! k) as [s|]; [|by repeat split].
  destruct (expired now s); by repeat split.
Qed.

Lemma getSession_other (k k' : string) (now : Z) (st : Server) :
  k' <> k -> sessions (snd (getSession k now st)) !! k' = sessions st !! k'.
Proof.
  intros Hne. unfold getSession. destruct (sessions st !! k) as [s|]; [|done].
  destruct (expired now s); [|done]. simpl. by apply lookup_delete_ne.
Qed.

Lemma broadcast_registry (k : string) (m : Message) (ex : option string)
  (now : Z) (st : Server) :
  same_registry st (fst (broadcastToSession k m ex now st)).
Proof.
  unfold broadcastToSession.
  pose proof (getSession_registry k now st) as H.
  by destruct (getSession k now st) as [[s|] st1].
Qed.

Lemma broadcast_other (k k' : string) (m : Message) (ex : option string)
  (now : Z) (st : Server) :
  k' <> k ->
  sessions (fst (broadcastToSession k m ex now st)) !! k' = sessions st !! k'.
Proof.
  intros Hne. unfold broadcastToSession.
  pose proof (getSession_other k k' now st Hne) as H.
  by destruct (getSession k now st) as [[s|] st1].
Qed.

Lemma handleMessage_unregistered (ws : Ws) (message : Command) (now : Z)
  (uuid : string) (st : Server) :
  clients_get ws (clients st) = None ->
  session_bound message = true ->
  handleMessage ws message now uuid st = (st, []).
Proof.
  intros Hnone Hbound. destruct message; try discriminate; cbn [handleMessage];
    [unfold handleIngredientsAdd | unfold handleIngredientsRemove
    |unfold handleIngredientsBlacklist | unfold handleRecipesAdd
    |unfold handleRecipesVote | unfold handleRecipesRemove
    |unfold handleContextUpdate | unfold handleHostTransfer
    |unfold handleHostPermissions | unfold handleSessionEnd];
    by rewrite Hnone.
Qed.

(** A command from a socket that is registered nowhere, other than
    [session:create] and [session:join], is dropped: no state change, no
    answer. *)
Theorem unregistered_socket_ignored (ws : Ws) (message : Command) (now : Z)
  (uuid : string) (st : Server)
  (Hnone : clients_get ws (clients st) = None)
  (Hbound : session_bound message = true) :
  handleMessage ws message now uuid st = (st, []).
Proof. by apply handleMessage_unregistered. Qed.

(** A command of a registered socket whose session is gone from the store,
    or has been idle for longer than the timeout, is dropped without an
    answer; all it does is remove the idle session.  No [session:error] is
    sent on this path. *)
Theorem stale_session_command_dropped (ws : Ws) (message : Command) (now : Z)
  (uuid : string) (st : Server) (ci : ClientInfo)
  (Hreg : clients_get ws (clients st) = Some ci)
  (Hbound : session_bound message = true)
  (Hstale : match sessions st !! c_sessionId ci with
            | Some s => expired now s = true
            | None => True
            end) :
  snd (handleMessage ws message now uuid st) = []
  /\ sessions (fst (handleMessage ws message now uuid st))
     = delete (c_sessionId ci) (sessions st)
  /\ same_registry st (fst (handleMessage ws message now uuid st)).
Proof.
  assert (Hg : getSession (c_sessionId ci) now st
               = (None, set_sessions (delete (c_sessionId ci) (sessions st)) st)).
  { unfold getSession. destruct (sessions st !! c_sessionId ci) as [s|] eqn:E.
    - by rewrite Hstale.
    - f_equal. destruct st as [ss c u o]. unfold set_sessions; simpl in *.
      by rewrite delete_id. }
  destruct message; try discriminate; cbn [handleMessage];
    [unfold handleIngredientsAdd | unfold handleIngredientsRemove
    |unfold handleIngredientsBlacklist | unfold handleRecipesAdd
    |unfold handleRecipesVote | unfold handleRecipesRemove
    |unfold handleContextUpdate | unfold handleHostTransfer
    |unfold handleHostPermissions | unfold handleSessionEnd];
    rewrite Hreg, Hg; by repeat split.
Qed.

(** The state after a command that acts for the caller's session, other than
    [session:end]: the state before, or that state without the (idle)
    session, or that state with the session rewritten. *)
Lemma plain_command_shape (ws : Ws) (message : Command) (now : Z)
  (uuid : string) (st : Server) (ci : ClientInfo) :
  clients_get ws (clients st) = Some ci ->
  session_bound message = true ->
  message <> SessionEnd ->
  let st' := fst (handleMessage ws message now uuid st) in
  st' = st
  \/ st' = set_sessions (delete (c_sessionId ci) (sessions st)) st
  \/ exists s', st' = put_session (c_sessionId ci) s' st.
Proof.
  intros Hreg Hbound Hend.
  destruct message; try discriminate; try congruence; cbn [handleMessage];
    [unfold handleIngredientsAdd | unfold handleIngredientsRemove
    |unfold handleIngredientsBlacklist | unfold handleRecipesAdd
    |unfold handleRecipesVote | unfold handleRecipesRemove
    |unfold handleContextUpdate | unfold handleHostTransfer
    |unfold handleHostPermissions];
    rewrite Hreg;
    (destruct (getSession (c_sessionId ci) now st) as [[s|] st1] eqn:Hg;
     [apply getSession_Some in Hg as (-> & Hs & Hlive); cbv beta iota zeta
     |apply getSession_None in Hg as [-> | ->]; simpl; auto]);
    repeat match goal with
           | |- context [if ?b then _ else _] => destruct b
           | |- context [match List.find ?f ?l with _ => _ end] =>
               destruct (List.find f l)
           | |- context [match get_property ?o ?k with _ => _ end] =>
               destruct (get_property o k)
           end;
    rewrite ?commit_broadcast; simpl; eauto.
Qed.

(** The commands on ingredients, recipes, votes, context and host rights
    change neither the client registry nor the state of any socket. *)
Theorem session_commands_keep_registry (ws : Ws) (message : Command) (now : Z)
  (uuid : string) (st : Server)
  (Hbound : session_bound message = true)
  (Hend : message <> SessionEnd) :
  same_registry st (fst (handleMessage ws message now uuid st)).
Proof.
  destruct (clients_get ws (clients st)) as [ci|] eqn:Hreg.
  - destruct (plain_command_shape ws message now uuid st ci Hreg Hbound Hend)
      as [-> | [-> | [s' ->]]]; by repeat split.
  - rewrite (handleMessage_unregistered _ _ _ _ _ Hreg Hbound). by repeat split.
Qed.

Lemma addParticipant_other (k k' u n : string) (now : Z) (st : Server) :
  k' <> k ->
  sessions (snd (addParticipant k u n now st)) !! k' = sessions st !! k'.
Proof.
  intros Hne. unfold addParticipant.
  pose proof (getSession_other k k' now st Hne) as H.
  destruct (getSession k now st) as [[s|] st1]; simpl in *; [|done].
  by rewrite lookup_insert_ne.
Qed.

Lemma join_tail_other (ws : Ws) (k k' u n : string) (now : Z) (st : Server)
  (m : Message) (reply : option Session -> Message) :
  k' <> k ->
  sessions
    (fst (let '(updated, st2) := addParticipant k u n now st in
          let st3 := register ws u k n st2 in
          let '(st4, evs) := broadcastToSession k m (Some u) now st3 in
          (st4, Send ws (reply updated) :: evs))) !! k'
  = sessions st !! k'.
Proof.
  intros Hne. pose proof (addParticipant_other k k' u n now st Hne) as H.
  destruct (addParticipant k u n now st) as [updated st2].
  simpl in H. cbv zeta.
  pose proof (broadcast_other k k' m (Some u) now
                (register ws u k n st2) Hne) as H'.
  destruct (broadcastToSession _ _ _ _ _). simpl in *. by rewrite H'.
Qed.

Lemma handleSessionEnd_other (ws : Ws) (now : Z) (st : Server)
  (ci : ClientInfo) (k : string) :
  clients_get ws (clients st) = Some ci ->
  k <> c_sessionId ci ->
  sessions (fst (handleSessionEnd ws now st)) !! k = sessions st !! k.
Proof.
  intros Hreg Hne. unfold handleSessionEnd. rewrite Hreg.
  pose proof (getSession_other (c_sessionId ci) k now st Hne) as H.
  destruct (getSession (c_sessionId ci) now st) as [[s|] st1] eqn:Hg;
    [|done].
  apply getSession_Some in Hg as (-> & Hs & Hlive).
  destruct (negb _); [done|].
  rewrite (broadcast_live _ _ _ _ _ _ Hs Hlive).
  rewrite end_client_sessions. simpl. by apply lookup_delete_ne.
Qed.

(** A command changes no session but the one it addresses: the session
    named in the payload of [session:create] and [session:join], the session
    of the calling socket for the others. *)
Theorem command_touches_only_its_session (ws : Ws) (message : Command)
  (now : Z) (uuid : string) (st : Server) (k : string)
  (Hother : target ws message st <> Some k) :
  sessions (fst (handleMessage ws message now uuid st)) !! k
  = sessions st !! k.
Proof.
  destruct (session_bound message) eqn:Hbound.
  - destruct (clients_get ws (clients st)) as [ci|] eqn:Hreg;
      [|by rewrite (handleMessage_unregistered _ _ _ _ _ Hreg Hbound)].
    assert (Hne : k <> c_sessionId ci).
    { intros ->. apply Hother. destruct message; try discriminate;
        simpl; by rewrite Hreg. }
    assert (Hcase : message = SessionEnd \/ message <> SessionEnd)
      by (destruct message; (by left) || (right; discriminate)).
    destruct Hcase as [-> | Hend].
    + by apply (handleSessionEnd_other ws now st ci).
    + destruct (plain_command_shape ws message now uuid st ci Hreg Hbound Hend)
        as [-> | [-> | [s' ->]]]; simpl; [done| |].
      * by apply lookup_delete_ne.
      * by apply lookup_insert_ne.
  - destruct message as [sid u n|sid u n| | | | | | | | | | |ty];
      try discriminate; cbn [handleMessage]; [| |done].
    + assert (Hne : k <> sid) by (intros ->; by apply Hother).
      unfold handleSessionCreate.
      pose proof (getSession_other sid k now st Hne) as H.
      destruct (getSession sid now st) as [[s|] st1] eqn:Hg.
      * apply getSession_Some in Hg as (-> & Hs & _).
        destruct (eqs _ _); [|done].
        pose proof (join_tail_other ws sid k u n now st
                      (ParticipantJoined u n None (Some now))
                      (fun o => SessionCreated (default s o)) Hne) as H'.
        destruct (addParticipant _ _ _ _ _) as [updated st2].
        cbv zeta in *. by destruct (broadcastToSession _ _ _ _ _).
      * simpl in *. by rewrite lookup_insert_ne.
    + assert (Hne : k <> sid) by (intros ->; by apply Hother).
      unfold handleSessionJoin.
      pose proof (getSession_other sid k now st Hne) as H.
      destruct (getSession sid now st) as [[s|] st1] eqn:Hg; [|done].
      apply getSession_Some in Hg as (-> & Hs & _).
      pose proof (join_tail_other ws sid k u n now st
                    (ParticipantJoined u n (Some now) None)
                    SessionJoined Hne) as H'.
      destruct (userConnections st !! u) as [c|]; [|exact H'].
      destruct (negb _); [done | exact H'].
Qed.

(** * Invariants a user of the hub relies on *)

(** In every reachable state a session is stored under its own id, its
    participants have pairwise different ids, and its host is one of them,
    under the name the session gives as [hostName]. *)
Theorem participants_unique_host_present (st : Server) (k : string)
  (s : Session)
  (Hreach : reachable st)
  (Hs : sessions st !! k = Some s) :
  s_id s = k
  /\ NoDup (List.map p_id (participants s))
  /\ exists p,
       In p (participants s) /\ p_id p = hostId s /\ p_name p = hostName s.
Proof.
  destruct (reachable_wf st Hreach k s Hs) as (Hid & Hps & (p & Hfind & Hn) & _).
  split; [done|]. split; [done|].
  apply find_some in Hfind as [Hin Hp]. exists p.
  split; [done|]. split; [by apply eqs_true in Hp | done].
Qed.

(** In every reachable state the stored ingredient names are lowercase, and
    the blacklist holds lowercase names, each once. *)
Theorem names_lowercase_blacklist_unique (st : Server) (k : string)
  (s : Session)
  (Hreach : reachable st)
  (Hs : sessions st !! k = Some s) :
  (forall ing, In ing (ingredients s) -> toLowerCase (i_name ing) = i_name ing)
  /\ NoDup (blacklist s)
  /\ (forall name, In name (blacklist s) -> toLowerCase name = name).
Proof.
  destruct (reachable_wf st Hreach k s Hs)
    as (_ & _ & _ & _ & Hi & Hnd & Hb & _).
  split; [|split; [done|]].
  - intros ing Hin%list_elem_of_In. exact (proj1 (Forall_forall _ _) Hi _ Hin).
  - intros name Hin%list_elem_of_In. exact (proj1 (Forall_forall _ _) Hb _ Hin).
Qed.








(** * Host rights *)

Lemma handleHostTransfer_live (ws : Ws) (newHostId : string) (now : Z)
  (st : Server) (ci : ClientInfo) (s : Session) :
  clients_get ws (clients st) = Some ci ->
  sessions st !! c_sessionId ci = Some s ->
  expired now s = false ->
  handleHostTransfer ws newHostId now st
  = if negb (eqs (hostId s) (c_userId ci))
    then (st, [Send ws (ErrorMsg "Only host can transfer privileges")])
    else
      match List.find (fun p => eqs (p_id p) newHostId) (participants s) with
      | None => (st, [Send ws (ErrorMsg "New host not found in session")])
      | Some newHost =>
          let s' := set_lastActivity now (set_host newHostId (p_name newHost) s) in
          (put_session (c_sessionId ci) s' st,
           List.map
             (fun e => Send (fst e)
                         (HostTransferred newHostId (p_name newHost) s'))
             (List.filter (receives (c_sessionId ci) None st) (clients st)))
      end.
Proof.
  intros Hreg Hs Hlive. unfold handleHostTransfer.
  rewrite Hreg, (getSession_live _ _ _ _ Hs Hlive); cbv beta iota zeta.
  destruct (negb _); [done|]. destruct (List.find _ _); [|done].
  by rewrite commit_broadcast.
Qed.

Lemma handleHostPermissions_live (ws : Ws) (allow : bool) (now : Z)
  (st : Server) (ci : ClientInfo) (s : Session) :
  clients_get ws (clients st) = Some ci ->
  sessions st !! c_sessionId ci = Some s ->
  expired now s = false ->
  handleHostPermissions ws allow now st
  = if negb (eqs (hostId s) (c_userId ci))
    then (st, [Send ws (ErrorMsg "Only host can change permissions")])
    else
      let s' := set_lastActivity now (set_allowRecipeGeneration allow s) in
      (put_session (c_sessionId ci) s' st,
       List.map (fun e => Send (fst e) (HostPermissionsUpdated allow s'))
         (List.filter (receives (c_sessionId ci) None st) (clients st))).
Proof.
  intros Hreg Hs Hlive. unfold handleHostPermissions.
  rewrite Hreg, (getSession_live _ _ _ _ Hs Hlive); cbv beta iota zeta.
  destruct (negb _); [done|]. by rewrite commit_broadcast.
Qed.

Lemma handleSessionEnd_not_host (ws : Ws) (now : Z) (st : Server)
  (ci : ClientInfo) (s : Session) :
  clients_get ws (clients st) = Some ci ->
  sessions st !! c_sessionId ci = Some s ->
  expired now s = false ->
  hostId s <> c_userId ci ->
  handleSessionEnd ws now st
  = (st, [Send ws (ErrorMsg "Only host can end session")]).
Proof.
  intros Hreg Hs Hlive Hne. unfold handleSessionEnd.
  rewrite Hreg, (getSession_live _ _ _ _ Hs Hlive); cbv beta iota zeta.
  by rewrite (proj2 (eqs_false _ _) Hne).
Qed.

(** [host:transfer], [host:permissions] and [session:end] from a registered
    participant of a live session who is not its host are each answered to
    the caller alone with an [error] and change nothing; the session is not
    ended. *)
Theorem host_only_commands_rejected (ws : Ws) (newHostId : string)
  (allow : bool) (now : Z) (st : Server) (ci : ClientInfo) (s : Session)
  (Hreg : clients_get ws (clients st) = Some ci)
  (Hs : sessions st !! c_sessionId ci = Some s)
  (Hlive : expired now s = false)
  (Hne : hostId s <> c_userId ci) :
  handleHostTransfer ws newHostId now st
  = (st, [Send ws (ErrorMsg "Only host can transfer privileges")])
  /\ handleHostPermissions ws allow now st
     = (st, [Send ws (ErrorMsg "Only host can change permissions")])
  /\ handleSessionEnd ws now st
     = (st, [Send ws (ErrorMsg "Only host can end session")]).
Proof.
  rewrite (handleHostTransfer_live _ _ _ _ _ _ Hreg Hs Hlive),
    (handleHostPermissions_live _ _ _ _ _ _ Hreg Hs Hlive),
    (handleSessionEnd_not_host _ _ _ _ _ Hreg Hs Hlive Hne).
  by rewrite (proj2 (eqs_false _ _) Hne).
Qed.

(** [host:transfer] from the host of a live session: to a participant of
    the session it makes that participant the host, under the participant's
    name, stamps the session and tells every open registered socket of the
    session, the old host's included; nothing else of the session changes.
    To an id that no participant has it answers the caller with an [error]
    and changes nothing. *)
Theorem handleHostTransfer_by_host (ws : Ws) (newHostId : string) (now : Z)
  (st : Server) (ci : ClientInfo) (s : Session)
  (Hreg : clients_get ws (clients st) = Some ci)
  (Hs : sessions st !! c_sessionId ci = Some s)
  (Hlive : expired now s = false)
  (Hhost : hostId s = c_userId ci) :
  (forall p,
     List.find (fun p => eqs (p_id p) newHostId) (participants s) = Some p ->
     let s' := set_lastActivity now (set_host newHostId (p_name p) s) in
     sessions (fst (handleHostTransfer ws newHostId now st)) !! c_sessionId ci
     = Some s'
     /\ hostId s' = newHostId
     /\ hostName s' = p_name p
     /\ snd (handleHostTransfer ws newHostId now st)
        = List.map
            (fun e => Send (fst e) (HostTransferred newHostId (p_name p) s'))
            (List.filter (receives (c_sessionId ci) None st) (clients st))
     /\ (ws ∈ openSockets st ->
         In (Send ws (HostTransferred newHostId (p_name p) s'))
           (snd (handleHostTransfer ws newHostId now st))))
  /\ (~ In newHostId (List.map p_id (participants s)) ->
      handleHostTransfer ws newHostId now st
      = (st, [Send ws (ErrorMsg "New host not found in session")])).
Proof.
  rewrite (handleHostTransfer_live _ _ _ _ _ _ Hreg Hs Hlive).
  rewrite (proj2 (eqs_true _ _) Hhost). cbn [negb]. split.
  - intros p Hfind. rewrite Hfind. cbn [fst snd].
    split; [apply lookup_insert_eq|]. split; [done|]. split; [done|].
    split; [done|]. intros Hopen. apply broadcast_recipients.
    exists ci. split; [by apply clients_get_In | done].
  - intros Hnot.
    destruct (List.find _ _) as [p|] eqn:Hfind; [|done].
    exfalso. apply Hnot. apply find_some in Hfind as [Hin Hp].
    apply in_map_iff. exists p. split; [by apply eqs_true in Hp | done].
Qed.

(** In a reachable state a host's transfer to themselves is accepted and
    changes nothing of the session but its [lastActivity]. *)
Theorem host_self_transfer (ws : Ws) (now : Z) (st : Server)
  (ci : ClientInfo) (s : Session)
  (Hreach : reachable st)
  (Hreg : clients_get ws (clients st) = Some ci)
  (Hs : sessions st !! c_sessionId ci = Some s)
  (Hlive : expired now s = false)
  (Hhost : hostId s = c_userId ci) :
  sessions (fst (handleHostTransfer ws (c_userId ci) now st)) !! c_sessionId ci
  = Some (set_lastActivity now s)
  /\ same_registry st (fst (handleHostTransfer ws (c_userId ci) now st)).
Proof.
  destruct (reachable_wf st Hreach _ s Hs) as (_ & _ & (p & Hfind & Hn) & _).
  rewrite (handleHostTransfer_live _ _ _ _ _ _ Hreg Hs Hlive).
  rewrite (proj2 (eqs_true _ _) Hhost). cbn [negb].
  rewrite <- Hhost, Hfind. cbn [fst]. split; [|by repeat split].
  simpl. rewrite lookup_insert_eq, Hn. reflexivity.
Qed.

(** After the host has transferred the session to another participant, the
    host rights have moved: the old host's [session:end] is refused and the
    old host's [context:update] is ignored (both while the session is
    live). *)
Theorem host_transfer_hands_over (ws : Ws) (newHostId ctx : string)
  (now now2 : Z) (st : Server) (ci : ClientInfo) (s : Session)
  (p : Participant)
  (Hreg : clients_get ws (clients st) = Some ci)
  (Hs : sessions st !! c_sessionId ci = Some s)
  (Hlive : expired now s = false)
  (Hhost : hostId s = c_userId ci)
  (Hfind : List.find (fun p => eqs (p_id p) newHostId) (participants s) = Some p)
  (Hother : newHostId <> c_userId ci)
  (Hlive2 : now2 - now <= SESSION_TIMEOUT) :
  let st1 := fst (handleHostTransfer ws newHostId now st) in
  handleSessionEnd ws now2 st1
  = (st1, [Send ws (ErrorMsg "Only host can end session")])
  /\ handleContextUpdate ws ctx now2 st1 = (st1, []).
Proof.
  intros st1.
  set (s1 := set_lastActivity now (set_host newHostId (p_name p) s)).
  assert (Hst1 : st1 = put_session (c_sessionId ci) s1 st).
  { unfold st1. rewrite (handleHostTransfer_live _ _ _ _ _ _ Hreg Hs Hlive).
    rewrite (proj2 (eqs_true _ _) Hhost). cbn [negb]. by rewrite Hfind. }
  assert (Hreg1 : clients_get ws (clients st1) = Some ci) by by rewrite Hst1.
  assert (Hs1 : sessions st1 !! c_sessionId ci = Some s1).
  { rewrite Hst1. simpl. apply lookup_insert_eq. }
  assert (Hl1 : expired now2 s1 = false).
  { unfold expired, s1; simpl. apply Z.ltb_ge. lia. }
  split.
  - by apply (handleSessionEnd_not_host ws now2 st1 ci s1).
  - unfold handleContextUpdate.
    rewrite Hreg1, (getSession_live _ _ _ _ Hs1 Hl1); cbv beta iota.
    simpl. by rewrite (proj2 (eqs_false (c_userId ci) newHostId)).
Qed.

(** [host:permissions] from the host of a live session sets the flag,
    stamps the session, changes nothing else of it, and tells every open
    registered socket of the session, the host's included. *)
Theorem handleHostPermissions_by_host (ws : Ws) (allow : bool) (now : Z)
  (st : Server) (ci : ClientInfo) (s : Session)
  (Hreg : clients_get ws (clients st) = Some ci)
  (Hs : sessions st !! c_sessionId ci = Some s)
  (Hlive : expired now s = false)
  (Hhost : hostId s = c_userId ci) :
  let s' := set_lastActivity now (set_allowRecipeGeneration allow s) in
  sessions (fst (handleHostPermissions ws allow now st)) !! c_sessionId ci
  = Some s'
  /\ allowRecipeGeneration s' = allow
  /\ snd (handleHostPermissions ws allow now st)
     = List.map (fun e => Send (fst e) (HostPermissionsUpdated allow s'))
         (List.filter (receives (c_sessionId ci) None st) (clients st))
  /\ forall w,
       In (Send w (HostPermissionsUpdated allow s'))
         (snd (handleHostPermissions ws allow now st))
       <-> exists ci', In (w, ci') (clients st)
                       /\ c_sessionId ci' = c_sessionId ci
                       /\ w ∈ openSockets st.
Proof.
  intros s'.
  rewrite (handleHostPermissions_live _ _ _ _ _ _ Hreg Hs Hlive).
  rewrite (proj2 (eqs_true _ _) Hhost). cbn [negb fst snd]. fold s'.
  split; [apply lookup_insert_eq|]. split; [done|]. split; [done|].
  intros w. rewrite broadcast_recipients.
  split; intros (ci' & H); exists ci'; simpl in *; tauto.
Qed.

(** * The registry has one entry for a socket *)

Lemma clients_set_keys (ws : Ws) (ci : ClientInfo) (c : list (Ws * ClientInfo)) :
  NoDup (List.map fst c) -> NoDup (List.map fst (clients_set ws ci c)).
Proof.
  induction c as [|[w ci'] c IH]; simpl.
  - intros _. apply NoDup_singleton.
  - intros [Hnot Hnd]%NoDup_cons.
    destruct (Nat.eqb_spec w ws) as [->|Hne]; simpl.
    + by apply NoDup_cons.
    + apply NoDup_cons. split; [|auto].
      intros Hin%list_elem_of_In. apply Hnot, list_elem_of_In.
      clear -Hin Hne. induction c as [|[w' ci''] c IH]; simpl in *.
      * destruct Hin as [->|[]]. done.
      * destruct (Nat.eqb_spec w' ws) as [->|]; simpl in *; tauto.
Qed.

Lemma clients_delete_keys (ws : Ws) (c : list (Ws * ClientInfo)) :
  NoDup (List.map fst c) -> NoDup (List.map fst (clients_delete ws c)).
Proof. apply NoDup_map_filter. Qed.

Lemma addParticipant_registry (k u n : string) (now : Z) (st : Server) :
  same_registry st (snd (addParticipant k u n now st)).
Proof.
  unfold addParticipant. pose proof (getSession_registry k now st) as H.
  by destruct (getSession k now st) as [[s|] st1].
Qed.

Lemma removeParticipant_registry (k u : string) (now : Z) (st : Server) :
  same_registry st (snd (removeParticipant k u now st)).
Proof.
  unfold removeParticipant. pose proof (getSession_registry k now st) as H.
  by destruct (getSession k now st) as [[s|] st1].
Qed.

(** The registry after the registering tail of [session:create] and
    [session:join]. *)
Lemma join_tail_registry (ws : Ws) (k u n : string) (now : Z) (st : Server)
  (m : Message) (reply : option Session -> Message) :
  let st' :=
    fst (let '(updated, st2) := addParticipant k u n now st in
         let st3 := register ws u k n st2 in
         let '(st4, evs) := broadcastToSession k m (Some u) now st3 in
         (st4, Send ws (reply updated) :: evs)) in
  clients st' = clients_set ws (mkClientInfo u k n) (clients st)
  /\ userConnections st' = <[u := ws]> (userConnections st)
  /\ openSockets st' = openSockets st.
Proof.
  pose proof (addParticipant_registry k u n now st) as (H1 & H2 & H3).
  destruct (addParticipant k u n now st) as [updated st2]. simpl in *.
  pose proof (broadcast_registry k m (Some u) now (register ws u k n st2))
    as (H1' & H2' & H3').
  destruct (broadcastToSession _ _ _ _ _). simpl in *.
  rewrite H1', H2', H3', H1, H2, H3. done.
Qed.

Lemma end_client_keys (k : string) (l : list (Ws * ClientInfo))
  (acc : Server * list Event) :
  NoDup (List.map fst (clients (fst acc))) ->
  NoDup (List.map fst (clients (fst (foldl (end_client k) acc l)))).
Proof.
  revert acc. induction l as [|e l IH]; intros [st evs] Hnd; cbn [foldl]; [done|].
  apply IH. unfold end_client.
  destruct (eqs _ _); [|done].
  destruct (is_open _ _); simpl; by apply clients_delete_keys.
Qed.

Lemma handleMessage_keys (ws : Ws) (message : Command) (now : Z)
  (uuid : string) (st : Server) :
  NoDup (List.map fst (clients st)) ->
  NoDup (List.map fst (clients (fst (handleMessage ws message now uuid st)))).
Proof.
  intros Hnd. destruct (session_bound message) eqn:Hbound.
  - destruct (clients_get ws (clients st)) as [ci|] eqn:Hreg;
      [|by rewrite (handleMessage_unregistered _ _ _ _ _ Hreg Hbound)].
    assert (Hcase : message = SessionEnd \/ message <> SessionEnd)
      by (destruct message; (by left) || (right; discriminate)).
    destruct Hcase as [-> | Hend].
    + cbn [handleMessage]. unfold handleSessionEnd. rewrite Hreg.
      pose proof (getSession_registry (c_sessionId ci) now st) as (Hc & _).
      destruct (getSession (c_sessionId ci) now st) as [[s|] st1] eqn:Hg;
        simpl in Hc; [|simpl; by rewrite Hc].
      destruct (negb _); [simpl; by rewrite Hc|].
      pose proof (broadcast_registry (c_sessionId ci)
                    (SessionEnded "Session has been ended by the host")
                    None now st1) as (Hc' & _).
      destruct (broadcastToSession _ _ _ _ _) as [st2 evs]. simpl in Hc'.
      apply end_client_keys. simpl. by rewrite Hc', Hc.
    + destruct (plain_command_shape ws message now uuid st ci Hreg Hbound Hend)
        as [-> | [-> | [s' ->]]]; done.
  - destruct message as [sid u n|sid u n| | | | | | | | | | |ty];
      try discriminate; cbn [handleMessage]; [| |done].
    + unfold handleSessionCreate.
      pose proof (getSession_registry sid now st) as (Hc & _).
      destruct (getSession sid now st) as [[s|] st1] eqn:Hg; simpl in Hc.
      * apply getSession_Some in Hg as (-> & Hs & _).
        destruct (eqs _ _); [|done].
        pose proof (join_tail_registry ws sid u n now st
                      (ParticipantJoined u n None (Some now))
                      (fun o => SessionCreated (default s o))) as (H' & _).
        destruct (addParticipant _ _ _ _ _) as [updated st2].
        cbv zeta in *. destruct (broadcastToSession _ _ _ _ _).
        simpl in *. rewrite H'. by apply clients_set_keys.
      * simpl. rewrite Hc. by apply clients_set_keys.
    + unfold handleSessionJoin.
      destruct (getSession sid now st) as [[s|] st1] eqn:Hg.
      * apply getSession_Some in Hg as (-> & Hs & _).
        pose proof (join_tail_registry ws sid u n now st
                      (ParticipantJoined u n (Some now) None)
                      SessionJoined) as (H' & _).
        cbv zeta in H'.
        destruct (userConnections st !! u) as [c|];
          [destruct (negb _); [done|]|]; rewrite H'; by apply clients_set_keys.
      * pose proof (getSession_registry sid now st) as (Hc & _).
        rewrite Hg in Hc. simpl in *. by rewrite Hc.
Qed.

Lemma reachable_keys (st : Server) :
  reachable st -> NoDup (List.map fst (clients st)).
Proof.
  induction 1 as [|st st' _ IH Hstep]; [constructor|].
  destruct Hstep as [st ws c|st ws m now uuid _|st ws|st ws now|st now];
    try done.
  - by apply handleMessage_keys.
  - unfold handleDisconnection.
    destruct (clients_get ws (clients st)) as [ci|]; [|done].
    match goal with
    | |- context [removeParticipant ?k ?u ?n ?s] =>
        pose proof (removeParticipant_registry k u n s) as (Hc & _);
        destruct (removeParticipant k u n s) as [o st2]
    end.
    match goal with
    | |- context [broadcastToSession ?k ?m ?ex ?n ?s] =>
        pose proof (broadcast_registry k m ex n s) as (Hc' & _)
    end.
    simpl in *. rewrite Hc', Hc. by apply clients_delete_keys.
  - by rewrite (proj1 (cleanupExpiredSessions_registry now st)).
Qed.

(** * session:end by the host *)

Lemma filter_filter {A : Type} (f g : A -> bool) (l : list A) :
  List.filter f (List.filter g l) = List.filter (fun x => g x && f x) l.
Proof.
  induction l as [|x l IH]; simpl; [done|].
  destruct (g x); simpl; [|done]. destruct (f x); by rewrite IH.
Qed.

Lemma keys_inj (c : list (Ws * ClientInfo)) (a b : Ws * ClientInfo) :
  NoDup (List.map fst c) -> In a c -> In b c -> fst a = fst b -> a = b.
Proof.
  induction c as [|x c IH]; simpl; [done|].
  intros [Hnot Hnd]%NoDup_cons [->|Ha] [->|Hb] Heq; auto.
  - exfalso. apply Hnot, list_elem_of_In, in_map_iff. eauto.
  - exfalso. apply Hnot, list_elem_of_In, in_map_iff. eauto.
Qed.

Lemma In_members (k : string) (c : list (Ws * ClientInfo))
  (e : Ws * ClientInfo) :
  In e (members k c) <-> In e c /\ c_sessionId (snd e) = k.
Proof. unfold members. rewrite filter_In, eqs_true. tauto. Qed.

Lemma lookup_delete_users (l : list (Ws * ClientInfo)) (m : gmap string nat)
  (u : string) :
  foldl (fun m e => delete (c_userId (snd e)) m) m l !! u
  = if existsb (fun e => eqs (c_userId (snd e)) u) l then None else m !! u.
Proof.
  revert m. induction l as [|e l IH]; intros m; simpl; [done|].
  rewrite IH. destruct (existsb _ l); [by rewrite orb_true_r|].
  rewrite orb_false_r. destruct (eqs (c_userId e.2) u) eqn:E.
  - apply eqs_true in E as <-. apply lookup_delete_eq.
  - apply eqs_false in E. by apply lookup_delete_ne.
Qed.

(** The loop of [handleSessionEnd] in closed form, over a list of entries
    with pairwise different sockets. *)
Lemma end_client_fold (k : string) (l : list (Ws * ClientInfo)) (st : Server)
  (evs : list Event) :
  NoDup (List.map fst l) ->
  let r := foldl (end_client k) (st, evs) l in
  clients (fst r)
  = List.filter
      (fun x => negb (existsb (fun m => Nat.eqb (fst x) (fst m)) (members k l)))
      (clients st)
  /\ userConnections (fst r)
     = foldl (fun m e => delete (c_userId (snd e)) m) (userConnections st)
         (members k l)
  /\ (forall w,
        w ∈ openSockets (fst r)
        <-> w ∈ openSockets st /\ ~ In w (List.map fst (members k l)))
  /\ snd r
     = evs
       ++ List.map (fun e => Close (fst e) 1000 "Session ended by host")
            (List.filter (fun e => is_open (fst e) st) (members k l)).
Proof.
  revert st evs. induction l as [|e l IH]; intros st evs Hnd; cbn [foldl].
  - simpl. repeat apply conj.
    + induction (clients st) as [|x c IHc]; simpl; [done|]. by rewrite <- IHc.
    + done.
    + intros w. tauto.
    + symmetry. apply app_nil_r.
  - apply NoDup_cons in Hnd as [Hnot Hnd].
    unfold members. cbn [List.filter]. fold (members k l).
    destruct (eqs (c_sessionId e.2) k) eqn:Ek.
    2:{ replace (end_client k (st, evs) e) with (st, evs)
          by (unfold end_client; by rewrite Ek).
        by apply IH. }
    set (st1 := set_clients (clients_delete e.1 (clients st))
                  (set_userConnections
                     (delete (c_userId e.2) (userConnections st)) st)).
    assert (Hsame : forall st2 : Server,
              (forall w, w ∈ openSockets st2 <-> w ∈ openSockets st /\ w <> e.1) ->
              List.filter (fun x => is_open x.1 st2) (members k l)
              = List.filter (fun x => is_open x.1 st) (members k l)).
    { intros st2 Hopen. apply filter_ext_in. intros x [Hx _]%In_members.
      unfold is_open. apply bool_decide_ext. rewrite Hopen.
      split; [tauto|]. intros Hw. split; [done|]. intros Heq.
      apply Hnot, list_elem_of_In, in_map_iff. eauto. }
    destruct (is_open e.1 st) eqn:Eo.
    + replace (end_client k (st, evs) e)
        with (set_openSockets (openSockets st1 ∖ {[e.1]}) st1,
              evs ++ [Close e.1 1000 "Session ended by host"])
        by (unfold end_client; rewrite Ek; fold st1;
            change (is_open e.1 st1) with (is_open e.1 st); by rewrite Eo).
      destruct (IH (set_openSockets (openSockets st1 ∖ {[e.1]}) st1)
                  (evs ++ [Close e.1 1000 "Session ended by host"]) Hnd)
        as (Hc & Hu & Ho & He).
      cbv zeta. rewrite Hc, Hu, He.
      split; [|split; [done|split]].
      * simpl. unfold clients_delete. rewrite filter_filter. apply filter_ext.
        intros x. by rewrite negb_orb.
      * intros w. etransitivity; [apply Ho|]. simpl.
        rewrite elem_of_difference, elem_of_singleton. intuition.
      * rewrite <- app_assoc. cbn [List.filter]. cbn beta. cbn [fst].
        rewrite Eo. simpl. do 3 f_equal.
        apply Hsame. intros w. simpl.
        rewrite elem_of_difference, elem_of_singleton. done.
    + replace (end_client k (st, evs) e) with (st1, evs)
        by (unfold end_client; rewrite Ek; fold st1;
            change (is_open e.1 st1) with (is_open e.1 st); by rewrite Eo).
      destruct (IH st1 evs Hnd) as (Hc & Hu & Ho & He).
      cbv zeta. rewrite Hc, Hu, He.
      split; [|split; [done|split]].
      * simpl. unfold clients_delete. rewrite filter_filter. apply filter_ext.
        intros x. by rewrite negb_orb.
      * intros w. etransitivity; [apply Ho|]. simpl.
        apply bool_decide_eq_false in Eo. intuition congruence.
      * cbn [List.filter]. cbn beta. cbn [fst]. by rewrite Eo.
Qed.

Lemma handleSessionEnd_host_run (ws : Ws) (now : Z) (st : Server)
  (ci : ClientInfo) (s : Session) :
  clients_get ws (clients st) = Some ci ->
  sessions st !! c_sessionId ci = Some s ->
  expired now s = false ->
  hostId s = c_userId ci ->
  handleSessionEnd ws now st
  = foldl (end_client (c_sessionId ci))
      (set_sessions (delete (c_sessionId ci) (sessions st)) st,
       List.map
         (fun e => Send (fst e)
                     (SessionEnded "Session has been ended by the host"))
         (List.filter (receives (c_sessionId ci) None st) (clients st)))
      (clients st).
Proof.
  intros Hreg Hs Hlive Hhost. unfold handleSessionEnd.
  rewrite Hreg, (getSession_live _ _ _ _ Hs Hlive); cbv beta iota zeta.
  rewrite (proj2 (eqs_true _ _) Hhost). cbn [negb].
  by rewrite (broadcast_live _ _ _ _ _ _ Hs Hlive).
Qed.

Lemma member_key (k : string) (c : list (Ws * ClientInfo))
  (x : Ws * ClientInfo) :
  NoDup (List.map fst c) -> In x c ->
  existsb (fun m => Nat.eqb (fst x) (fst m)) (members k c)
  = eqs (c_sessionId (snd x)) k.
Proof.
  intros Hnd Hx. destruct (eqs (c_sessionId x.2) k) eqn:E.
  - apply existsb_exists. exists x.
    split; [apply In_members; split; [done | by apply eqs_true]|].
    apply Nat.eqb_refl.
  - apply not_true_is_false.
    intros (m & [Hm Hk]%In_members & Heq%Nat.eqb_eq)%existsb_exists.
    assert (x = m) by by apply (keys_inj c). subst m.
    apply eqs_false in E. done.
Qed.

(** [session:end] from the host of a live session, in a reachable state:
    the session leaves the store; every socket registered for it leaves the
    client registry, and its user leaves [userConnections]; each such socket
    that was open is first sent [session:ended] and then closed with code
    1000 and the reason ["Session ended by host"], and is open no more.
    The entries of the sockets of other sessions stay. *)
Theorem handleSessionEnd_by_host (ws : Ws) (now : Z) (st : Server)
  (ci : ClientInfo) (s : Session)
  (Hreach : reachable st)
  (Hreg : clients_get ws (clients st) = Some ci)
  (Hs : sessions st !! c_sessionId ci = Some s)
  (Hlive : expired now s = false)
  (Hhost : hostId s = c_userId ci) :
  let st' := fst (handleSessionEnd ws now st) in
  let told := List.filter (receives (c_sessionId ci) None st) (clients st) in
  sessions st' !! c_sessionId ci = None
  /\ clients st'
     = List.filter (fun e => negb (eqs (c_sessionId (snd e)) (c_sessionId ci)))
         (clients st)
  /\ (forall u,
        userConnections st' !! u
        = if existsb (fun e => eqs (c_userId (snd e)) u)
               (members (c_sessionId ci) (clients st))
          then None
          else userConnections st !! u)
  /\ (forall w,
        w ∈ openSockets st'
        <-> w ∈ openSockets st
            /\ ~ In w (List.map fst (members (c_sessionId ci) (clients st))))
  /\ snd (handleSessionEnd ws now st)
     = List.map
         (fun e => Send (fst e)
                     (SessionEnded "Session has been ended by the host")) told
       ++ List.map (fun e => Close (fst e) 1000 "Session ended by host") told.
Proof.
  intros st' told. pose proof (reachable_keys st Hreach) as Hnd.
  unfold st'. rewrite (handleSessionEnd_host_run _ _ _ _ _ Hreg Hs Hlive Hhost).
  destruct (end_client_fold (c_sessionId ci) (clients st)
              (set_sessions (delete (c_sessionId ci) (sessions st)) st)
              (List.map
                 (fun e => Send (fst e)
                             (SessionEnded "Session has been ended by the host"))
                 told) Hnd) as (Hc & Hu & Ho & He).
  cbv zeta in Hc, Hu, Ho, He. fold told.
  split; [rewrite end_client_sessions; simpl; apply lookup_delete_eq|].
  split; [|split; [|split]].
  - rewrite Hc. simpl. apply filter_ext_in. intros x Hx.
    by rewrite (member_key _ _ _ Hnd Hx).
  - intros u. rewrite Hu. simpl. apply lookup_delete_users.
  - intros w. etransitivity; [apply Ho|]. done.
  - rewrite He. f_equal. f_equal. unfold told, members.
    rewrite filter_filter. apply filter_ext. intros x.
    unfold receives. simpl. by rewrite andb_true_r.
Qed.

(** The sessions a frame does not address, once more, for the lemmas on
    runs below. *)
Lemma handleMessage_elsewhere (ws : Ws) (message : Command)
  (now : Z) (uuid : string) (st : Server) (k : string)
  (Hother : target ws message st <> Some k) :
  sessions (fst (handleMessage ws message now uuid st)) !! k
  = sessions st !! k.
Proof.
  destruct (session_bound message) eqn:Hbound.
  - destruct (clients_get ws (clients st)) as [ci|] eqn:Hreg;
      [|by rewrite (handleMessage_unregistered _ _ _ _ _ Hreg Hbound)].
    assert (Hne : k <> c_sessionId ci).
    { intros ->. apply Hother. destruct message; try discriminate;
        simpl; by rewrite Hreg. }
    assert (Hcase : message = SessionEnd \/ message <> SessionEnd)
      by (destruct message; (by left) || (right; discriminate)).
    destruct Hcase as [-> | Hend].
    + by apply (handleSessionEnd_other ws now st ci).
    + destruct (plain_command_shape ws message now uuid st ci Hreg Hbound Hend)
        as [-> | [-> | [s' ->]]]; simpl; [done| |].
      * by apply lookup_delete_ne.
      * by apply lookup_insert_ne.
  - destruct message as [sid u n|sid u n| | | | | | | | | | |ty];
      try discriminate; cbn [handleMessage]; [| |done].
    + assert (Hne : k <> sid) by (intros ->; by apply Hother).
      unfold handleSessionCreate.
      pose proof (getSession_other sid k now st Hne) as H.
      destruct (getSession sid now st) as [[s|] st1] eqn:Hg.
      * apply getSession_Some in Hg as (-> & Hs & _).
        destruct (eqs _ _); [|done].
        pose proof (join_tail_other ws sid k u n now st
                      (ParticipantJoined u n None (Some now))
                      (fun o => SessionCreated (default s o)) Hne) as H'.
        destruct (addParticipant _ _ _ _ _) as [updated st2].
        cbv zeta in *. by destruct (broadcastToSession _ _ _ _ _).
      * simpl in *. by rewrite lookup_insert_ne.
    + assert (Hne : k <> sid) by (intros ->; by apply Hother).
      unfold handleSessionJoin.
      pose proof (getSession_other sid k now st Hne) as H.
      destruct (getSession sid now st) as [[s|] st1] eqn:Hg; [|done].
      apply getSession_Some in Hg as (-> & Hs & _).
      pose proof (join_tail_other ws sid k u n now st
                    (ParticipantJoined u n (Some now) None)
                    SessionJoined Hne) as H'.
      destruct (userConnections st !! u) as [c|]; [|exact H'].
      destruct (negb _); [done | exact H'].
Qed.

Lemma getSession_absent (k : string) (now : Z) (st : Server) :
  sessions st !! k = None -> getSession k now st = (None, st).
Proof. intros H. unfold getSession. by rewrite H. Qed.

(** A frame other than [session:create] for the id does not bring a
    session into the store. *)
Lemma handleMessage_absent (ws : Ws) (message : Command) (now : Z)
  (uuid : string) (st : Server) (k : string) :
  sessions st !! k = None ->
  (forall u n, message <> SessionCreate k u n) ->
  sessions (fst (handleMessage ws message now uuid st)) !! k = None.
Proof.
  intros Hgone Hcreate.
  destruct (decide (target ws message st = Some k)) as [Ht|Ht];
    [|by rewrite handleMessage_elsewhere].
  pose proof (getSession_absent k now st Hgone) as Hg.
  destruct message as [sid u n|sid u n| | | | | | | | | | |ty];
    cbn [target] in Ht; try discriminate.
  1: { injection Ht as ->. by destruct (Hcreate u n). }
  1: { injection Ht as ->. cbn [handleMessage]. unfold handleSessionJoin.
       by rewrite Hg. }
  all: destruct (clients_get ws (clients st)) as [ci|] eqn:Hreg;
    simpl in Ht; [|discriminate]; injection Ht as Hk; cbn [handleMessage].
  all: [> unfold handleIngredientsAdd | unfold handleIngredientsRemove
       | unfold handleIngredientsBlacklist | unfold handleRecipesAdd
       | unfold handleRecipesVote | unfold handleRecipesRemove
       | unfold handleContextUpdate | unfold handleHostTransfer
       | unfold handleHostPermissions | unfold handleSessionEnd ].
  all: by rewrite Hreg, Hk, Hg.
Qed.

Lemma getSession_keeps_absent (k k1 : string) (now : Z) (st : Server) :
  sessions st !! k = None ->
  sessions (snd (getSession k1 now st)) !! k = None.
Proof.
  intros Hgone. unfold getSession.
  destruct (sessions st !! k1) as [s1|]; [|done].
  destruct (expired now s1); [|done]. simpl.
  destruct (decide (k1 = k)) as [->|Hne];
    [apply lookup_delete_eq | by rewrite lookup_delete_ne].
Qed.

Lemma handleDisconnection_absent (ws : Ws) (now : Z) (st : Server)
  (k : string) :
  sessions st !! k = None ->
  sessions (fst (handleDisconnection ws now st)) !! k = None.
Proof.
  intros Hgone. unfold handleDisconnection.
  destruct (clients_get ws (clients st)) as [ci|]; [|done].
  set (st1 := set_userConnections _ _).
  assert (H1 : sessions st1 !! k = None) by done.
  assert (H2 : sessions
                 (snd (removeParticipant (c_sessionId ci) (c_userId ci) now st1))
                 !! k = None).
  { unfold removeParticipant.
    pose proof (getSession_keeps_absent k (c_sessionId ci) now st1 H1) as Hk.
    destruct (getSession (c_sessionId ci) now st1) as [[s1|] st2] eqn:Hg;
      [|done].
    apply getSession_Some in Hg as (-> & Hs1 & _). simpl.
    rewrite lookup_insert_ne; [done|]. intros Heq. congruence. }
  destruct (removeParticipant _ _ _ st1) as [o st2]. simpl in H2.
  unfold broadcastToSession.
  pose proof (getSession_keeps_absent k (c_sessionId ci) now st2 H2) as Hk.
  by destruct (getSession (c_sessionId ci) now st2) as [[s2|] st3].
Qed.

(** No input other than a [session:create] for the id brings a session
    into the store. *)
Lemma absent_along (k : string) (l : list Input) (st : Server) :
  sessions st !! k = None ->
  creates k l = false ->
  sessions (foldl next st l) !! k = None.
Proof.
  revert st. induction l as [|i l IH]; intros st Hgone Hl; [done|].
  cbn [creates existsb] in Hl. apply orb_false_iff in Hl as [Hi Hl].
  cbn [foldl]. apply IH; [|exact Hl].
  destruct i as [w c|w message now uuid|w|w now|now]; cbn [next].
  - done.
  - apply handleMessage_absent; [done|]. intros u n ->.
    by rewrite eqs_refl in Hi.
  - done.
  - by apply handleDisconnection_absent.
  - rewrite cleanupExpiredSessions_sessions. by rewrite Hgone.
Qed.

(** After the host has ended a session, a [session:join] for its id, from
    any socket and at any time, is answered ["Session not found or expired"]
    and changes nothing, for as long as no [session:create] for that id has
    come in: right after the end, and after any further run of the server
    in which there is no such [session:create].  The sockets that were registered for the
    session are registered no more, so in the state the end leaves whatever
    command they send for the session is dropped. *)
Theorem session_end_is_final (ws : Ws) (now : Z) (st : Server)
  (ci : ClientInfo) (s : Session)
  (Hreach : reachable st)
  (Hreg : clients_get ws (clients st) = Some ci)
  (Hs : sessions st !! c_sessionId ci = Some s)
  (Hlive : expired now s = false)
  (Hhost : hostId s = c_userId ci) :
  let st' := fst (handleSessionEnd ws now st) in
  (forall w u n now2,
     handleSessionJoin w (c_sessionId ci) u n now2 st'
     = (st', [Send w (SessionError "Session not found or expired")]))
  /\ (forall w ci' message now2 uuid,
        In (w, ci') (clients st) ->
        c_sessionId ci' = c_sessionId ci ->
        session_bound message = true ->
        handleMessage w message now2 uuid st' = (st', []))
  /\ (forall l w u n now2,
        fresh_along st' l = true ->
        creates (c_sessionId ci) l = false ->
        sessions (foldl next st' l) !! c_sessionId ci = None
        /\ handleSessionJoin w (c_sessionId ci) u n now2 (foldl next st' l)
           = (foldl next st' l,
              [Send w (SessionError "Session not found or expired")])).
Proof.
  intros st'. pose proof (reachable_keys st Hreach) as Hnd.
  assert (Hgone : sessions st' !! c_sessionId ci = None).
  { unfold st'.
    rewrite (handleSessionEnd_host_run _ _ _ _ _ Hreg Hs Hlive Hhost).
    rewrite end_client_sessions. simpl. apply lookup_delete_eq. }
  assert (Hc : clients st'
               = List.filter
                   (fun x =>
                      negb (existsb (fun m => Nat.eqb (fst x) (fst m))
                              (members (c_sessionId ci) (clients st))))
                   (clients st)).
  { unfold st'.
    rewrite (handleSessionEnd_host_run _ _ _ _ _ Hreg Hs Hlive Hhost).
    by destruct (end_client_fold (c_sessionId ci) (clients st)
                   (set_sessions (delete (c_sessionId ci) (sessions st)) st)
                   (List.map
                      (fun e => Send (fst e)
                                  (SessionEnded
                                     "Session has been ended by the host"))
                      (List.filter (receives (c_sessionId ci) None st)
                         (clients st))) Hnd) as (Hc & _). }
  split; [|split].
  - intros w u n now2. unfold handleSessionJoin, getSession. by rewrite Hgone.
  - intros w ci' message now2 uuid Hin Hsid Hbound.
    apply handleMessage_unregistered; [|done].
    destruct (clients_get w (clients st')) as [ci''|] eqn:E; [|done].
    exfalso. apply clients_get_In in E. rewrite Hc in E.
    apply filter_In in E as [_ E]. apply negb_true_iff in E.
    assert (existsb (fun m => Nat.eqb (fst (w, ci'')) (fst m))
              (members (c_sessionId ci) (clients st)) = true); [|congruence].
    apply existsb_exists. exists (w, ci').
    split; [by apply In_members | apply Nat.eqb_refl].
  - intros l w u n now2 _ Hl.
    pose proof (absent_along _ l st' Hgone Hl) as Habs.
    split; [done|]. unfold handleSessionJoin, getSession. by rewrite Habs.
Qed.

(** * Joining, leaving, coming back *)

(** [session:join] on a live session by a user id that is bound to no other
    socket. *)
Lemma handleSessionJoin_live (ws : Ws) (k u n : string) (now : Z)
  (st : Server) (s : Session) :
  sessions st !! k = Some s ->
  expired now s = false ->
  match userConnections st !! u with
  | Some c => c = ws
  | None => True
  end ->
  let s' :=
    set_lastActivity now
      (set_participants
         (if has_participant u (participants s)
          then reconnect_first u now (participants s)
          else participants s ++ [mkParticipant u n now true None None]) s) in
  let st' := register ws u k n (put_session k s' st) in
  handleSessionJoin ws k u n now st
  = (st',
     Send ws (SessionJoined (Some s'))
       :: List.map (fun e => Send (fst e) (ParticipantJoined u n (Some now) None))
            (List.filter (receives k (Some u) st') (clients st'))).
Proof.
  intros Hs Hlive Hfree s' st'.
  assert (Hs' : sessions st' !! k = Some s')
    by (unfold st', register, put_session; simpl; apply lookup_insert_eq).
  assert (Hlive' : expired now s' = false) by apply expired_touch.
  assert (Htail :
            (let '(updated, st2) := addParticipant k u n now st in
             let st3 := register ws u k n st2 in
             let '(st4, evs) :=
               broadcastToSession k (ParticipantJoined u n (Some now) None)
                 (Some u) now st3 in
             (st4, Send ws (SessionJoined updated) :: evs))
            = (st',
               Send ws (SessionJoined (Some s'))
                 :: List.map
                      (fun e => Send (fst e)
                                  (ParticipantJoined u n (Some now) None))
                      (List.filter (receives k (Some u) st') (clients st')))).
  { rewrite (addParticipant_live _ _ _ _ _ _ Hs Hlive). cbv beta iota zeta.
    fold s'. fold st'. by rewrite (broadcast_live _ _ _ _ _ _ Hs' Hlive'). }
  unfold handleSessionJoin.
  rewrite (getSession_live _ _ _ _ Hs Hlive); cbv beta iota.
  destruct (userConnections st !! u) as [c|]; [|exact Htail].
  subst c. rewrite Nat.eqb_refl. exact Htail.
Qed.

(** A successful [session:join] by a user who is not yet a participant: the
    participant is appended, connected; the socket is registered for the
    user; the joiner is answered [session:joined] with the session as it now
    is, and [session:participant:joined] goes to the open registered sockets
    of the session that belong to other users. *)
Theorem handleSessionJoin_new_participant (ws : Ws) (k u n : string) (now : Z)
  (st : Server) (s : Session)
  (Hs : sessions st !! k = Some s)
  (Hlive : expired now s = false)
  (Hfree : userConnections st !! u = None)
  (Hnew : ~ In u (List.map p_id (participants s))) :
  exists s',
    sessions (fst (handleSessionJoin ws k u n now st)) !! k = Some s'
    /\ participants s'
       = participants s ++ [mkParticipant u n now true None None]
    /\ lastActivity s' = now
    /\ clients_get ws (clients (fst (handleSessionJoin ws k u n now st)))
       = Some (mkClientInfo u k n)
    /\ userConnections (fst (handleSessionJoin ws k u n now st)) !! u = Some ws
    /\ (exists others,
          snd (handleSessionJoin ws k u n now st)
          = Send ws (SessionJoined (Some s')) :: others
          /\ forall w,
               In (Send w (ParticipantJoined u n (Some now) None)) others
               <-> exists ci,
                     In (w, ci)
                       (clients (fst (handleSessionJoin ws k u n now st)))
                     /\ c_sessionId ci = k
                     /\ c_userId ci <> u
                     /\ w ∈ openSockets st).
Proof.
  pose proof (handleSessionJoin_live ws k u n now st s Hs Hlive) as H.
  rewrite Hfree in H. specialize (H I). cbv zeta in H.
  assert (Hp : has_participant u (participants s) = false)
    by (apply not_true_is_false; by intros ?%has_participant_ids).
  rewrite Hp in H. rewrite H. cbn [fst snd].
  eexists. split; [simpl; apply lookup_insert_eq|].
  split; [done|]. split; [done|].
  split; [simpl; apply clients_get_set_eq|].
  split; [simpl; apply lookup_insert_eq|].
  eexists. split; [done|]. intros w. rewrite broadcast_recipients.
  split; intros (ci & Hin & Hsid & Hex & Hopen); exists ci;
    (split; [done|]; split; [done|]; split; [|done]).
  - simpl in Hex. by apply eqs_false in Hex.
  - simpl. by apply eqs_false.
Qed.

Lemma clients_get_delete (w ws : Ws) (c : list (Ws * ClientInfo)) :
  clients_get w (clients_delete ws c)
  = if Nat.eqb w ws then None else clients_get w c.
Proof.
  unfold clients_delete. induction c as [|[w' ci'] c IH]; simpl.
  - by destruct (Nat.eqb w ws).
  - destruct (Nat.eqb_spec w' ws) as [->|Hne]; simpl.
    + rewrite IH. destruct (Nat.eqb_spec w ws) as [->|Hne'].
      * done.
      * by destruct (Nat.eqb_spec ws w); [congruence|].
    + rewrite IH. destruct (Nat.eqb_spec w' w) as [->|Hne'].
      * by destruct (Nat.eqb_spec w ws); [congruence|].
      * done.
Qed.

Lemma find_disconnect_first_hit (u : string) (now : Z) (ps : list Participant)
  (p : Participant) :
  List.find (fun p => eqs (p_id p) u) ps = Some p ->
  List.find (fun p => eqs (p_id p) u) (disconnect_first u now ps)
  = Some (mkParticipant (p_id p) (p_name p) (p_joinedAt p) false
            (p_reconnectedAt p) (Some now)).
Proof.
  induction ps as [|q ps IH]; simpl; [done|].
  destruct (eqs (p_id q) u) eqn:E; simpl.
  - intros [= <-]. by rewrite E.
  - rewrite E. auto.
Qed.

Lemma find_reconnect_first_hit (u : string) (now : Z) (ps : list Participant)
  (p : Participant) :
  List.find (fun p => eqs (p_id p) u) ps = Some p ->
  List.find (fun p => eqs (p_id p) u) (reconnect_first u now ps)
  = Some (mkParticipant (p_id p) (p_name p) (p_joinedAt p) true (Some now)
            (p_disconnectedAt p)).
Proof.
  induction ps as [|q ps IH]; simpl; [done|].
  destruct (eqs (p_id q) u) eqn:E; simpl.
  - intros [= <-]. by rewrite E.
  - rewrite E. auto.
Qed.

(** What the close of a registered socket does when its session is live. *)
Lemma handleDisconnection_live (ws : Ws) (now : Z) (st : Server)
  (ci : ClientInfo) (s : Session) :
  clients_get ws (clients st) = Some ci ->
  sessions st !! c_sessionId ci = Some s ->
  expired now s = false ->
  let s' :=
    set_participants (disconnect_first (c_userId ci) now (participants s)) s in
  let st' :=
    put_session (c_sessionId ci) s'
      (set_userConnections (delete (c_userId ci) (userConnections st))
         (set_clients (clients_delete ws (clients st)) st)) in
  handleDisconnection ws now st
  = (st',
     List.map
       (fun e => Send (fst e)
                   (ParticipantDisconnected (c_userId ci) (c_username ci)))
       (List.filter (receives (c_sessionId ci) (Some (c_userId ci)) st)
          (clients_delete ws (clients st)))).
Proof.
  intros Hreg Hs Hlive s' st'. unfold handleDisconnection. rewrite Hreg.
  unfold removeParticipant.
  erewrite getSession_live; [|exact Hs|exact Hlive]. cbv beta iota zeta.
  fold s'. fold st'.
  assert (Hs' : sessions st' !! c_sessionId ci = Some s')
    by (unfold st', put_session; simpl; apply lookup_insert_eq).
  assert (Hlive' : expired now s' = false) by exact Hlive.
  by rewrite (broadcast_live _ _ _ _ _ _ Hs' Hlive').
Qed.

(** The close of a socket registered for a live session: the socket leaves
    the client registry, its user leaves [userConnections] (whichever socket
    that entry named), the user's participant record stays in the session,
    marked disconnected with [disconnectedAt] stamped, the session's
    [lastActivity] is not refreshed, and [session:participant:disconnected]
    goes to the open registered sockets of the session that belong to other
    users.  Other sockets keep their registry entries. *)
Theorem handleDisconnection_registered (ws : Ws) (now : Z) (st : Server)
  (ci : ClientInfo) (s : Session)
  (Hreg : clients_get ws (clients st) = Some ci)
  (Hs : sessions st !! c_sessionId ci = Some s)
  (Hlive : expired now s = false) :
  let st' := fst (handleDisconnection ws now st) in
  clients_get ws (clients st') = None
  /\ (forall w, w <> ws -> clients_get w (clients st') = clients_get w (clients st))
  /\ userConnections st' !! c_userId ci = None
  /\ openSockets st' = openSockets st
  /\ (exists s',
        sessions st' !! c_sessionId ci = Some s'
        /\ s' = set_participants
                  (disconnect_first (c_userId ci) now (participants s)) s
        /\ lastActivity s' = lastActivity s
        /\ List.map p_id (participants s') = List.map p_id (participants s)
        /\ forall p,
             List.find (fun p => eqs (p_id p) (c_userId ci)) (participants s)
             = Some p ->
             List.find (fun p => eqs (p_id p) (c_userId ci)) (participants s')
             = Some (mkParticipant (p_id p) (p_name p) (p_joinedAt p) false
                       (p_reconnectedAt p) (Some now)))
  /\ forall w,
       In (Send w (ParticipantDisconnected (c_userId ci) (c_username ci)))
         (snd (handleDisconnection ws now st))
       <-> exists ci', In (w, ci') (clients_delete ws (clients st))
                       /\ c_sessionId ci' = c_sessionId ci
                       /\ c_userId ci' <> c_userId ci
                       /\ w ∈ openSockets st.
Proof.
  intros st'. unfold st'.
  rewrite (handleDisconnection_live _ _ _ _ _ Hreg Hs Hlive). cbn [fst snd].
  split; [simpl; rewrite clients_get_delete; by rewrite Nat.eqb_refl|].
  split.
  { intros w Hne. simpl. rewrite clients_get_delete.
    by apply Nat.eqb_neq in Hne as ->. }
  split; [simpl; apply lookup_delete_eq|]. split; [done|]. split.
  { eexists. split; [simpl; apply lookup_insert_eq|]. split; [done|].
    split; [done|]. split; [simpl; apply map_p_id_disconnect_first|].
    intros p Hfind. simpl. by apply find_disconnect_first_hit. }
  intros w. rewrite broadcast_recipients.
  split; intros (ci' & Hin & Hsid & Hex & Hopen); exists ci';
    (split; [done|]; split; [done|]; split; [|done]).
  - simpl in Hex. by apply eqs_false in Hex.
  - simpl. by apply eqs_false.
Qed.

(** Leaving and coming back.  When the socket of a participant of a live
    session closes and the same user then joins again on any socket (while
    the session is live), the session has the same participants in the same
    order, and the user's record is the old one, with its id, name and
    [joinedAt], connected again, with the time of the return in
    [reconnectedAt] and the time of the close in [disconnectedAt].  The
    name sent with the second join is not taken over into the record. *)
Theorem disconnect_then_rejoin (ws ws2 : Ws) (n2 : string) (now now2 : Z)
  (st : Server) (ci : ClientInfo) (s : Session) (p : Participant)
  (Hreg : clients_get ws (clients st) = Some ci)
  (Hs : sessions st !! c_sessionId ci = Some s)
  (Hlive : expired now s = false)
  (Hlive2 : expired now2 s = false)
  (Hp : List.find (fun p => eqs (p_id p) (c_userId ci)) (participants s)
        = Some p) :
  let st1 := fst (handleDisconnection ws now st) in
  let st2 :=
    fst (handleSessionJoin ws2 (c_sessionId ci) (c_userId ci) n2 now2 st1) in
  exists s2,
    sessions st2 !! c_sessionId ci = Some s2
    /\ List.map p_id (participants s2) = List.map p_id (participants s)
    /\ List.find (fun p => eqs (p_id p) (c_userId ci)) (participants s2)
       = Some (mkParticipant (p_id p) (p_name p) (p_joinedAt p) true
                 (Some now2) (Some now))
    /\ userConnections st2 !! c_userId ci = Some ws2
    /\ clients_get ws2 (clients st2)
       = Some (mkClientInfo (c_userId ci) (c_sessionId ci) n2).
Proof.
  intros st1 st2.
  set (s1 := set_participants
               (disconnect_first (c_userId ci) now (participants s)) s).
  assert (Hst1 : st1 = put_session (c_sessionId ci) s1
                         (set_userConnections
                            (delete (c_userId ci) (userConnections st))
                            (set_clients (clients_delete ws (clients st)) st))).
  { unfold st1. by rewrite (handleDisconnection_live _ _ _ _ _ Hreg Hs Hlive). }
  assert (Hs1 : sessions st1 !! c_sessionId ci = Some s1).
  { rewrite Hst1. simpl. apply lookup_insert_eq. }
  assert (Hl1 : expired now2 s1 = false) by exact Hlive2.
  assert (Hfree : userConnections st1 !! c_userId ci = None).
  { rewrite Hst1. simpl. apply lookup_delete_eq. }
  pose proof (handleSessionJoin_live ws2 (c_sessionId ci) (c_userId ci) n2 now2
                st1 s1 Hs1 Hl1) as H.
  rewrite Hfree in H. specialize (H I). cbv zeta in H.
  assert (Hhas : has_participant (c_userId ci) (participants s1) = true).
  { unfold s1. simpl. rewrite has_participant_disconnect_first.
    apply (find_has_participant _ _ p Hp). }
  rewrite Hhas in H. unfold st2. rewrite H. cbn [fst].
  eexists. split; [simpl; apply lookup_insert_eq|]. simpl.
  split; [by rewrite map_p_id_reconnect_first, map_p_id_disconnect_first|].
  split.
  - rewrite (find_reconnect_first_hit _ _ _ _
               (find_disconnect_first_hit _ now _ _ Hp)). done.
  - split; [apply lookup_insert_eq | apply clients_get_set_eq].
Qed.

(** * The sweep and the sessions it leaves *)

Lemma expiredSessions_none (now : Z) (st : Server) :
  (forall k s, sessions st !! k = Some s -> expired now s = false) ->
  expiredSessions now st = [].
Proof.
  intros H. destruct (expiredSessions now st) as [|k l] eqn:E; [done|].
  assert (Hin : k ∈ expiredSessions now st) by (rewrite E; by left).
  apply elem_of_expiredSessions in Hin as (s & Hs & He).
  by rewrite (H _ _ Hs) in He.
Qed.

(** A sweep keeps exactly the sessions that are not idle for longer than
    the timeout, as they are; it leaves the client registry alone, so the
    sockets of a reaped session stay registered; and a second sweep at the
    same time does nothing. *)
Theorem sweep_keeps_live_sessions (now : Z) (st : Server) :
  (forall k s,
     sessions (fst (cleanupExpiredSessions now st)) !! k = Some s
     <-> sessions st !! k = Some s
         /\ now - lastActivity s <= SESSION_TIMEOUT)
  /\ same_registry st (fst (cleanupExpiredSessions now st))
  /\ cleanupExpiredSessions now (fst (cleanupExpiredSessions now st))
     = (fst (cleanupExpiredSessions now st), []).
Proof.
  assert (Hiff : forall k s,
            sessions (fst (cleanupExpiredSessions now st)) !! k = Some s
            <-> sessions st !! k = Some s /\ expired now s = false).
  { intros k s. rewrite cleanupExpiredSessions_sessions.
    destruct (sessions st !! k) as [s0|]; [|by intuition].
    destruct (expired now s0) eqn:E; split.
    - done.
    - intros [[= ->] H]. congruence.
    - intros [= ->]. done.
    - by intros [H _]. }
  split; [|split].
  - intros k s. rewrite Hiff. unfold expired. rewrite Z.ltb_ge. done.
  - apply cleanupExpiredSessions_registry.
  - unfold cleanupExpiredSessions at 1.
    rewrite expiredSessions_none; [done|].
    intros k s Hs. by apply Hiff in Hs as [_ H].
Qed.

(** * Removing recipes and ingredients *)

Lemma not_elem_of_In {A : Type} (x : A) (l : list A) : x ∉ l -> ~ In x l.
Proof. intros H Hin. by apply H, list_elem_of_In. Qed.

Lemma remove_first_is_filter {A : Type} (g : A -> string) (id : string)
  (l : list A) :
  NoDup (List.map g l) ->
  remove_first (fun x => eqs (g x) id) l
  = List.filter (fun x => negb (eqs (g x) id)) l.
Proof.
  induction l as [|x l IH]; simpl; [done|].
  intros [Hnot Hnd]%NoDup_cons.
  destruct (eqs (g x) id) eqn:E; simpl; [|by rewrite IH].
  apply eqs_true in E. subst id. clear IH Hnd.
  apply not_elem_of_In in Hnot.
  induction l as [|y l IH]; simpl; [done|].
  destruct (eqs (g y) (g x)) eqn:Ey; simpl.
  - exfalso. apply Hnot. apply eqs_true in Ey. simpl. by left.
  - f_equal. apply IH. intros Hin. apply Hnot. by right.
Qed.

Lemma find_unique {A : Type} (g : A -> string) (id : string) (l : list A)
  (r : A) :
  NoDup (List.map g l) -> In r l -> g r = id ->
  List.find (fun x => eqs (g x) id) l = Some r.
Proof.
  induction l as [|x l IH]; simpl; [done|].
  intros [Hnot Hnd]%NoDup_cons [->|Hin] Hid.
  - by rewrite (proj2 (eqs_true _ _) Hid).
  - destruct (eqs (g x) id) eqn:E; [|auto].
    exfalso. apply eqs_true in E. apply Hnot, list_elem_of_In, in_map_iff.
    exists r. split; [congruence | done].
Qed.

Lemma find_absent {A : Type} (g : A -> string) (id : string) (l : list A) :
  ~ In id (List.map g l) -> List.find (fun x => eqs (g x) id) l = None.
Proof.
  intros Hnot. destruct (List.find _ l) as [x|] eqn:E; [|done].
  exfalso. apply find_some in E as [Hin Hx]. apply Hnot, in_map_iff.
  exists x. split; [by apply eqs_true in Hx | done].
Qed.

Lemma filter_out_id {A : Type} (g : A -> string) (id : string) (l : list A) :
  ~ In id (List.map g (List.filter (fun x => negb (eqs (g x) id)) l)).
Proof.
  intros (x & Hx & [_ Hf]%filter_In)%in_map_iff.
  apply negb_true_iff, eqs_false in Hf. done.
Qed.

Lemma handleRecipesRemove_live (ws : Ws) (recipeId : string) (now : Z)
  (st : Server) (ci : ClientInfo) (s : Session) :
  clients_get ws (clients st) = Some ci ->
  sessions st !! c_sessionId ci = Some s ->
  expired now s = false ->
  handleRecipesRemove ws recipeId now st
  = match List.find (fun r => eqs (r_id r) recipeId) (recipes s) with
    | Some removed =>
        (put_session (c_sessionId ci)
           (set_lastActivity now
              (set_recipes
                 (remove_first (fun r => eqs (r_id r) recipeId) (recipes s))
                 s)) st,
         List.map (fun e => Send (fst e) (RecipesRemoved recipeId removed))
           (List.filter (receives (c_sessionId ci) None st) (clients st)))
    | None => (st, [])
    end.
Proof.
  intros Hreg Hs Hlive. unfold handleRecipesRemove.
  rewrite Hreg, (getSession_live _ _ _ _ Hs Hlive); cbv beta iota zeta.
  destruct (List.find _ _); [|done]. by rewrite commit_broadcast.
Qed.

(** [recipes:remove] in a reachable state, from a registered socket of a
    live session.  For the id of a recipe of the session: that recipe, and
    no other, leaves the list, no recipe with that id remains, the votes
    cast on it stay in [votes], and [recipes:removed] with the id and the
    removed recipe goes to every open registered socket of the session.
    For an id that no recipe has: nothing changes and nothing is sent. *)
Theorem handleRecipesRemove_removes (ws : Ws) (recipeId : string) (now : Z)
  (st : Server) (ci : ClientInfo) (s : Session)
  (Hreach : reachable st)
  (Hreg : clients_get ws (clients st) = Some ci)
  (Hs : sessions st !! c_sessionId ci = Some s)
  (Hlive : expired now s = false) :
  (forall r,
     In r (recipes s) -> r_id r = recipeId ->
     exists s',
       sessions (fst (handleRecipesRemove ws recipeId now st)) !! c_sessionId ci
       = Some s'
       /\ recipes s'
          = List.filter (fun x => negb (eqs (r_id x) recipeId)) (recipes s)
       /\ ~ In recipeId (List.map r_id (recipes s'))
       /\ votes s' = votes s
       /\ snd (handleRecipesRemove ws recipeId now st)
          = List.map (fun e => Send (fst e) (RecipesRemoved recipeId r))
              (List.filter (receives (c_sessionId ci) None st) (clients st)))
  /\ (~ In recipeId (List.map r_id (recipes s)) ->
      handleRecipesRemove ws recipeId now st = (st, [])).
Proof.
  destruct (reachable_wf st Hreach _ s Hs) as (_ & _ & _ & Hnd & _).
  rewrite (handleRecipesRemove_live _ _ _ _ _ _ Hreg Hs Hlive). split.
  - intros r Hin Hid. rewrite (find_unique r_id _ _ r Hnd Hin Hid).
    cbn [fst snd]. eexists. split; [simpl; apply lookup_insert_eq|]. simpl.
    rewrite (remove_first_is_filter r_id _ _ Hnd).
    split; [done|]. split; [apply filter_out_id | done].
  - intros Hnot. by rewrite (find_absent r_id _ _ Hnot).
Qed.

(** [ingredients:remove] in a reachable state, from a registered socket of
    a live session.  For the id of an ingredient of the session: that
    ingredient, and no other, leaves the list, the blacklist is not touched,
    and [ingredients:removed] with the id and the removed record goes to
    every open registered socket of the session.  For an id that no
    ingredient has: nothing changes and nothing is sent. *)
Theorem handleIngredientsRemove_removes (ws : Ws) (ingredientId : string)
  (now : Z) (st : Server) (ci : ClientInfo) (s : Session)
  (Hreach : reachable st)
  (Hreg : clients_get ws (clients st) = Some ci)
  (Hs : sessions st !! c_sessionId ci = Some s)
  (Hlive : expired now s = false) :
  (forall ing,
     In ing (ingredients s) -> i_id ing = ingredientId ->
     exists s',
       sessions (fst (handleIngredientsRemove ws ingredientId now st))
         !! c_sessionId ci = Some s'
       /\ ingredients s'
          = List.filter (fun x => negb (eqs (i_id x) ingredientId))
              (ingredients s)
       /\ ~ In ingredientId (List.map i_id (ingredients s'))
       /\ blacklist s' = blacklist s
       /\ snd (handleIngredientsRemove ws ingredientId now st)
          = List.map (fun e => Send (fst e) (IngredientsRemoved ingredientId ing))
              (List.filter (receives (c_sessionId ci) None st) (clients st)))
  /\ (~ In ingredientId (List.map i_id (ingredients s)) ->
      handleIngredientsRemove ws ingredientId now st = (st, [])).
Proof.
  destruct (reachable_ok st Hreach _ s Hs) as (_ & Hnd & _).
  rewrite (handleIngredientsRemove_live _ _ _ _ _ _ Hreg Hs Hlive). split.
  - intros ing Hin Hid. rewrite (find_unique i_id _ _ ing Hnd Hin Hid).
    cbn [fst snd]. eexists. split; [simpl; apply lookup_insert_eq|]. simpl.
    rewrite (remove_first_is_filter i_id _ _ Hnd).
    split; [done|]. split; [apply filter_out_id | done].
  - intros Hnot. by rewrite (find_absent i_id _ _ Hnot).
Qed.

(** * Adding recipes and counting votes *)

Lemma handleRecipesAdd_live (ws : Ws) (body : string) (now : Z)
  (uuid : string) (st : Server) (ci : ClientInfo) (s : Session) :
  clients_get ws (clients st) = Some ci ->
  sessions st !! c_sessionId ci = Some s ->
  expired now s = false ->
  handleRecipesAdd ws body now uuid st
  = (put_session (c_sessionId ci)
       (set_lastActivity now
          (set_recipes (recipes s ++ [mkRecipe uuid body now 0 []]) s)) st,
     List.map
       (fun e => Send (fst e) (RecipesAdded (mkRecipe uuid body now 0 [])))
       (List.filter (receives (c_sessionId ci) None st) (clients st))).
Proof.
  intros Hreg Hs Hlive. unfold handleRecipesAdd.
  rewrite Hreg, (getSession_live _ _ _ _ Hs Hlive); cbv beta iota zeta.
  by rewrite commit_broadcast.
Qed.

(** [recipes:add] from a registered socket of a live session, with a drawn
    id that occurs nowhere in the state: the recipe is appended after the
    ones there, under an id no recipe of the session has, with a tally of 0
    and no voters; no vote is touched and none is stored under the new id;
    and [recipes:added] with the new recipe goes to every open registered
    socket of the session, the caller's included. *)
Theorem handleRecipesAdd_appends (ws : Ws) (body : string) (now : Z)
  (uuid : string) (st : Server) (ci : ClientInfo) (s : Session)
  (Hreg : clients_get ws (clients st) = Some ci)
  (Hs : sessions st !! c_sessionId ci = Some s)
  (Hlive : expired now s = false)
  (Hfresh : uuid_fresh uuid st) :
  exists s',
    sessions (fst (handleRecipesAdd ws body now uuid st)) !! c_sessionId ci
    = Some s'
    /\ recipes s' = recipes s ++ [mkRecipe uuid body now 0 []]
    /\ ~ In uuid (List.map r_id (recipes s))
    /\ (forall u, vote_on (votes s') u uuid = None)
    /\ votes s' = votes s
    /\ ingredients s' = ingredients s
    /\ snd (handleRecipesAdd ws body now uuid st)
       = List.map
           (fun e => Send (fst e) (RecipesAdded (mkRecipe uuid body now 0 [])))
           (List.filter (receives (c_sessionId ci) None st) (clients st))
    /\ (ws ∈ openSockets st ->
        In (Send ws (RecipesAdded (mkRecipe uuid body now 0 [])))
          (snd (handleRecipesAdd ws body now uuid st))).
Proof.
  rewrite (handleRecipesAdd_live _ _ _ _ _ _ _ Hreg Hs Hlive). cbn [fst snd].
  pose proof (Hfresh _ _ Hs) as Hu. unfold uuid_unused_in in Hu.
  apply andb_prop in Hu as [[Hi Hr]%andb_prop Hv].
  eexists. split; [simpl; apply lookup_insert_eq|]. simpl.
  split; [done|]. split; [|split; [|split; [done|split; [done|split; [done|]]]]].
  - intros (r & Hid & Hin)%in_map_iff.
    apply (proj1 (forallb_forall _ _) Hr) in Hin.
    apply negb_true_iff, eqs_false in Hin. done.
  - intros u. unfold vote_on.
    destruct (votes_get u (votes s)) as [uv|] eqn:E; [|done].
    apply votes_get_In in E.
    apply (proj1 (forallb_forall _ _) Hv) in E.
    by apply bool_decide_eq_true_1 in E.
  - intros Hopen. apply in_map_iff. exists (ws, ci). split; [done|].
    apply filter_In. split; [by apply clients_get_In|].
    unfold receives, is_open. cbn [fst snd].
    rewrite (proj2 (eqs_true _ _) eq_refl), bool_decide_eq_true_2 by done.
    done.
Qed.

Lemma votes_set_count (f : string * gmap string VoteType -> bool)
  (u : string) (x old : gmap string VoteType)
  (v : list (string * gmap string VoteType)) :
  votes_get u v = Some old ->
  (length (List.filter f (votes_set u x v)) + Nat.b2n (f (u, old))
   = length (List.filter f v) + Nat.b2n (f (u, x)))%nat.
Proof.
  induction v as [|[u' uv'] v IH]; simpl; [done|].
  destruct (eqs u' u) eqn:E; simpl.
  - apply eqs_true in E as ->. intros [= ->].
    destruct (f (u, old)), (f (u, x)); simpl; lia.
  - intros Hget. specialize (IH Hget).
    destruct (f (u', uv')); simpl; lia.
Qed.

(** The number of users holding the vote [t0] on the recipe, before and
    after a vote: the voter's old vote leaves the count and the new one
    enters it. *)
Lemma record_vote_count (u recipeId : string) (t t0 : VoteType)
  (v : list (string * gmap string VoteType)) :
  (length (voters_with t0 recipeId (record_vote u recipeId t v))
   + Nat.b2n (bool_decide (vote_on v u recipeId = Some t0))
   = length (voters_with t0 recipeId v)
     + Nat.b2n (bool_decide (kept_vote recipeId t = Some t0)))%nat.
Proof.
  unfold voters_with, vote_on. rewrite !length_map, record_vote_cases.
  destruct (votes_get u v) as [old|] eqn:E.
  - pose proof (votes_set_count
                  (fun e => bool_decide (snd e !! recipeId = Some t0))
                  u (cast_vote recipeId t old) old v E) as H.
    cbn [snd] in H. rewrite cast_vote_lookup in H.
    by rewrite (bool_decide_eq_true_2 (recipeId = recipeId)) in H.
  - rewrite List.filter_app, length_app. cbn [List.filter snd].
    rewrite cast_vote_lookup, (bool_decide_eq_true_2 (recipeId = recipeId)) by done.
    rewrite (bool_decide_eq_false_2 (None = Some t0)) by done.
    destruct (bool_decide _); simpl; lia.
Qed.

Lemma vote_value_spec (o : option VoteType) :
  vote_value o
  = Z.of_nat (Nat.b2n (bool_decide (o = Some Up)))
    - Z.of_nat (Nat.b2n (bool_decide (o = Some Down))).
Proof.
  destruct o as [t|]; simpl; [|done].
  destruct (eqs t Up) eqn:Eu; [|destruct (eqs t Down) eqn:Ed];
    rewrite ?eqs_true, ?eqs_false in *; subst;
    repeat (first [rewrite bool_decide_eq_true_2 by done
                  |rewrite bool_decide_eq_false_2
                     by (unfold Up, Down in *; congruence)]);
    done.
Qed.

Lemma vote_value_kept (recipeId : string) (t : VoteType) :
  recipeId <> "__proto__" ->
  vote_value (kept_vote recipeId t) = vote_value (Some t).
Proof.
  intros Hr. unfold kept_vote. rewrite (proj2 (eqs_false _ _) Hr).
  destruct (eqs t Neutral) eqn:E; [|done].
  apply eqs_true in E as ->. done.
Qed.

Lemma plain_not_proto (key : string) :
  inherited key = false -> key <> "__proto__".
Proof. by intros H ->. Qed.

(** [recipes:vote] on a recipe of the session, in a reachable state, from a
    registered socket of a live session, by a user whose id is no property
    name of [Object.prototype]: the voter's stored vote on the recipe
    becomes the new one (none for neutral), the recipe's tally moves by the
    value of the new vote minus the value of the vote the same user held
    before (up 1, down -1, anything else or none 0), so that voting twice
    the same way counts once, and every other recipe of the session is left
    as it was. *)
Theorem vote_replaces_prior_vote (ws : Ws) (recipeId : string)
  (voteType : VoteType) (now : Z) (st : Server) (ci : ClientInfo)
  (s : Session) (r : Recipe)
  (Hreach : reachable st)
  (Hreg : clients_get ws (clients st) = Some ci)
  (Hplain : inherited (c_userId ci) = false)
  (Hs : sessions st !! c_sessionId ci = Some s)
  (Hlive : expired now s = false)
  (Hin : In r (recipes s))
  (Hid : r_id r = recipeId) :
  exists s' r',
    sessions (fst (handleRecipesVote ws recipeId voteType now st))
      !! c_sessionId ci = Some s'
    /\ vote_on (votes s') (c_userId ci) recipeId
       = (if eqs voteType Neutral then None else Some voteType)
    /\ In r' (recipes s')
    /\ r_id r' = recipeId
    /\ r_body r' = r_body r
    /\ r_votes r'
       = r_votes r - vote_value (vote_on (votes s) (c_userId ci) recipeId)
         + vote_value (Some voteType)
    /\ (forall r2, In r2 (recipes s) -> r_id r2 <> recipeId ->
        In r2 (recipes s')).
Proof.
  destruct (reachable_ok st Hreach _ s Hs) as (_ & _ & _ & _ & _ & Hrec).
  destruct (reachable_wf st Hreach _ s Hs)
    as (_ & _ & _ & _ & _ & _ & _ & Hids & _).
  assert (Hrid : recipeId <> "__proto__").
  { apply plain_not_proto. rewrite <- Hid.
    by apply (proj1 (Forall_forall _ _) Hids), list_elem_of_In. }
  rewrite (handleRecipesVote_live _ _ _ _ _ _ _ Hreg Hs Hlive
             (own_or_plain _ _ Hplain)).
  cbv zeta. cbn [fst].
  set (v' := record_vote (c_userId ci) recipeId voteType (votes s)).
  exists (set_lastActivity now
            (set_recipes (List.map (recount v') (recipes s))
               (set_votes v' s))), (recount v' r).
  split; [simpl; apply lookup_insert_eq|].
  cbn [votes recipes set_lastActivity set_recipes set_votes].
  split; [|split; [|split; [|split; [|split]]]].
  - unfold v'. rewrite vote_on_record, bool_decide_eq_true_2 by done.
    unfold kept_vote. rewrite (proj2 (eqs_false _ _) Hrid).
    by destruct (eqs voteType Neutral).
  - apply in_map_iff. by exists r.
  - by rewrite recount_spec.
  - by rewrite recount_spec.
  - pose proof (proj1 (Forall_forall _ _) Hrec r
                  (proj2 (list_elem_of_In _ _) Hin)) as Hr.
    cbv beta in Hr. rewrite recount_spec in Hr.
    pose proof (f_equal r_votes Hr) as Hv.
    cbn [r_votes] in Hv. rewrite <- Hv, recount_spec. cbn [r_votes r_id].
    rewrite Hid.
    pose proof (record_vote_count (c_userId ci) recipeId voteType Up (votes s))
      as Hup.
    pose proof (record_vote_count (c_userId ci) recipeId voteType Down (votes s))
      as Hdown.
    fold v' in Hup, Hdown.
    rewrite <- (vote_value_kept recipeId voteType Hrid), !vote_value_spec.
    lia.
  - intros r2 Hin2 Hne. apply in_map_iff. exists r2. split; [|done].
    unfold v'. rewrite recount_record_other;
      [|done|by apply (proj1 (Forall_forall _ _) Hids), list_elem_of_In].
    apply (proj1 (Forall_forall _ _) Hrec). by apply list_elem_of_In.
Qed.

(** * No event leaves the session *)

Lemma broadcast_list_addressed (ws : Ws) (k : string) (ex : option string)
  (st : Server) (m : Message) :
  Forall (addressed ws (Some k) st)
    (List.map (fun e => Send (fst e) m)
       (List.filter (receives k ex st) (clients st))).
Proof.
  apply Forall_forall. intros e He. apply list_elem_of_In in He.
  apply in_map_iff in He as ([w ci] & <- & [Hin Hr]%filter_In).
  apply receives_spec in Hr as (Hk & _ & Hopen). simpl. right.
  split; [done|]. exists ci. split; [done | by rewrite Hk].
Qed.

Lemma broadcast_addressed (ws : Ws) (k : string) (m : Message)
  (ex : option string) (now : Z) (st : Server) :
  Forall (addressed ws (Some k) st) (snd (broadcastToSession k m ex now st)).
Proof.
  unfold broadcastToSession.
  destruct (getSession k now st) as [[s|] st1] eqn:Hg; simpl; [|done].
  apply getSession_Some in Hg as (-> & _ & _).
  apply broadcast_list_addressed.
Qed.

Lemma clients_set_In (ws w : Ws) (ci ci' : ClientInfo)
  (c : list (Ws * ClientInfo)) :
  In (w, ci') (clients_set ws ci c) -> w = ws \/ In (w, ci') c.
Proof.
  induction c as [|[w0 ci0] c IH]; simpl.
  - intros [[= <- <-]|[]]. by left.
  - destruct (Nat.eqb w0 ws) eqn:E; simpl.
    + apply Nat.eqb_eq in E as ->. intros [[= <- <-]|Hin]; auto.
    + intros [[= <- <-]|Hin]; [auto|]. destruct (IH Hin); auto.
Qed.

Lemma clients_delete_In (ws w : Ws) (ci : ClientInfo)
  (c : list (Ws * ClientInfo)) :
  In (w, ci) (clients_delete ws c) -> In (w, ci) c.
Proof. unfold clients_delete. by intros [H _]%filter_In. Qed.

Lemma addressed_weaken (ws : Ws) (o : option string) (st st' : Server)
  (e : Event) :
  openSockets st' = openSockets st ->
  (forall w ci, In (w, ci) (clients st') -> w = ws \/ In (w, ci) (clients st)) ->
  addressed ws o st' e ->
  match e with Send _ _ => True | _ => False end ->
  addressed ws o st e.
Proof.
  intros Ho Hc. destruct e as [w m|w code reason|member key t]; simpl;
    [|done..].
  intros [->|[Hopen (ci & Hin & Hk)]] _; [by left|].
  destruct (Hc _ _ Hin) as [->|Hin']; [by left|].
  right. rewrite <- Ho. split; [done|]. by exists ci.
Qed.

Lemma broadcast_sends (k : string) (m : Message) (ex : option string)
  (now : Z) (st : Server) :
  Forall (fun e => match e with Send _ _ => True | _ => False end)
    (snd (broadcastToSession k m ex now st)).
Proof.
  unfold broadcastToSession.
  destruct (getSession k now st) as [[s|] st1]; simpl; [|done].
  apply Forall_forall. intros e He. apply list_elem_of_In in He.
  by apply in_map_iff in He as (x & <- & _).
Qed.

(** The events of the registering tail of [session:create] and
    [session:join]. *)
Lemma join_tail_addressed (ws : Ws) (k u n : string) (now : Z) (st : Server)
  (m : Message) (reply : option Session -> Message) :
  Forall (addressed ws (Some k) st)
    (snd (let '(updated, st2) := addParticipant k u n now st in
          let st3 := register ws u k n st2 in
          let '(st4, evs) := broadcastToSession k m (Some u) now st3 in
          (st4, Send ws (reply updated) :: evs))).
Proof.
  pose proof (addParticipant_registry k u n now st) as (Hc & _ & Ho).
  destruct (addParticipant k u n now st) as [updated st2].
  simpl in Hc, Ho. cbv zeta.
  pose proof (broadcast_addressed ws k m (Some u) now (register ws u k n st2))
    as Hb.
  pose proof (broadcast_sends k m (Some u) now (register ws u k n st2)) as Hs.
  destruct (broadcastToSession _ _ _ _ _) as [st4 evs]. simpl in *.
  apply Forall_cons. split; [by left|].
  rewrite Forall_forall in Hb, Hs. apply Forall_forall. intros e He.
  apply (addressed_weaken ws _ st (register ws u k n st2)).
  - by rewrite <- Ho.
  - intros w ci. simpl. rewrite Hc. apply clients_set_In.
  - by apply Hb.
  - by apply Hs.
Qed.

Lemma end_client_addressed (ws : Ws) (k : string) (st0 : Server)
  (l : list (Ws * ClientInfo)) (acc : Server * list Event) :
  (forall e, In e l -> In e (clients st0)) ->
  Forall (addressed ws (Some k) st0) (snd acc) ->
  Forall (addressed ws (Some k) st0) (snd (foldl (end_client k) acc l)).
Proof.
  revert acc. induction l as [|[w ci] l IH]; intros [st evs] Hl Hacc;
    simpl; [done|].
  apply IH; [intros e He; apply Hl; by right|].
  destruct (eqs (c_sessionId ci) k) eqn:E; [|done].
  apply eqs_true in E.
  match goal with |- context [if ?b then _ else _] => destruct b end;
    [|done].
  simpl in *. apply Forall_app. split; [done|].
  apply Forall_cons. split; [|done]. simpl. exists ci.
  split; [apply Hl; by left | by rewrite E].
Qed.

Lemma plain_command_addressed (ws : Ws) (message : Command) (now : Z)
  (uuid : string) (st : Server) (ci : ClientInfo) :
  clients_get ws (clients st) = Some ci ->
  session_bound message = true ->
  message <> SessionEnd ->
  Forall (addressed ws (Some (c_sessionId ci)) st)
    (snd (handleMessage ws message now uuid st)).
Proof.
  intros Hreg Hbound Hend.
  destruct message; try discriminate; try congruence; cbn [handleMessage];
    [unfold handleIngredientsAdd | unfold handleIngredientsRemove
    |unfold handleIngredientsBlacklist | unfold handleRecipesAdd
    |unfold handleRecipesVote | unfold handleRecipesRemove
    |unfold handleContextUpdate | unfold handleHostTransfer
    |unfold handleHostPermissions];
    rewrite Hreg;
    (destruct (getSession (c_sessionId ci) now st) as [[s|] st1] eqn:Hg;
     [apply getSession_Some in Hg as (-> & Hs & Hlive); cbv beta iota zeta
     |by apply Forall_nil]);
    repeat match goal with
           | |- context [if ?b then _ else _] => destruct b
           | |- context [match List.find ?f ?l with _ => _ end] =>
               destruct (List.find f l)
           | |- context [match get_property ?o ?k with _ => _ end] =>
               destruct (get_property o k)
           end;
    rewrite ?commit_broadcast; cbn [snd];
    repeat (apply Forall_cons; split; [by left || exact I|]);
    (by apply Forall_nil) || apply broadcast_list_addressed.
Qed.

(** No frame makes the server write outside the session the frame
    addresses: every message it sends goes to the calling socket or to an
    open socket registered in that session, and every socket it closes is
    registered in that session.  A frame that addresses no session (an
    unknown type, or a session command from an unregistered socket) is
    answered on the calling socket at most. *)
Theorem events_stay_in_session (ws : Ws) (message : Command) (now : Z)
  (uuid : string) (st : Server) :
  Forall (addressed ws (target ws message st) st)
    (snd (handleMessage ws message now uuid st)).
Proof.
  destruct (session_bound message) eqn:Hbound.
  - destruct (clients_get ws (clients st)) as [ci|] eqn:Hreg;
      [|rewrite (handleMessage_unregistered _ _ _ _ _ Hreg Hbound);
        by apply Forall_nil].
    assert (Ht : target ws message st = Some (c_sessionId ci))
      by (destruct message; try discriminate; simpl; by rewrite Hreg).
    rewrite Ht.
    assert (Hcase : message = SessionEnd \/ message <> SessionEnd)
      by (destruct message; (by left) || (right; discriminate)).
    destruct Hcase as [-> | Hend];
      [|by apply plain_command_addressed].
    cbn [handleMessage]. unfold handleSessionEnd. rewrite Hreg.
    destruct (getSession (c_sessionId ci) now st) as [[s|] st1] eqn:Hg;
      [|by apply Forall_nil].
    apply getSession_Some in Hg as (-> & Hs & Hlive).
    destruct (negb _).
    + apply Forall_cons. split; [by left | by apply Forall_nil].
    + rewrite (broadcast_live _ _ _ _ _ _ Hs Hlive).
      apply end_client_addressed; [done|]. apply broadcast_list_addressed.
  - destruct message as [sid u n|sid u n| | | | | | | | | | |ty];
      try discriminate; cbn [handleMessage target].
    + unfold handleSessionCreate.
      destruct (getSession sid now st) as [[s|] st1] eqn:Hg.
      * apply getSession_Some in Hg as (-> & Hs & _).
        destruct (eqs _ _);
          [|apply Forall_cons; split; [by left | by apply Forall_nil]].
        apply (join_tail_addressed ws sid u n now st
                 (ParticipantJoined u n None (Some now))
                 (fun o => SessionCreated (default s o))).
      * apply Forall_cons. split; [by left | by apply Forall_nil].
    + unfold handleSessionJoin.
      destruct (getSession sid now st) as [[s|] st1] eqn:Hg;
        [|apply Forall_cons; split; [by left | by apply Forall_nil]].
      apply getSession_Some in Hg as (-> & Hs & _).
      pose proof (join_tail_addressed ws sid u n now st
                    (ParticipantJoined u n (Some now) None)
                    SessionJoined) as H'.
      destruct (userConnections st !! u) as [c|]; [|exact H'].
      destruct (negb _); [|exact H'].
      apply Forall_cons. split; [by left | by apply Forall_nil].
    + apply Forall_cons. split; [by left | by apply Forall_nil].
Qed.

(** A socket that closes is announced within its session only: every
    message is [session:participant:disconnected] with the user and name
    the socket was registered under, and goes to an open socket, other than
    the closing one, that is registered in the same session under another
    user. *)
Theorem handleDisconnection_stays_in_session (ws : Ws) (now : Z)
  (st : Server) (ci : ClientInfo) (e : Event)
  (Hreg : clients_get ws (clients st) = Some ci)
  (He : In e (snd (handleDisconnection ws now st))) :
  exists w ci',
    e = Send w (ParticipantDisconnected (c_userId ci) (c_username ci))
    /\ w <> ws
    /\ w ∈ openSockets st
    /\ In (w, ci') (clients st)
    /\ c_sessionId ci' = c_sessionId ci
    /\ c_userId ci' <> c_userId ci.
Proof.
  unfold handleDisconnection in He. rewrite Hreg in He.
  set (st1 := set_userConnections _ _) in He.
  pose proof (removeParticipant_registry (c_sessionId ci) (c_userId ci) now st1)
    as (Hc & _ & Ho).
  destruct (removeParticipant _ _ _ st1) as [o st2]. simpl in Hc, Ho.
  unfold broadcastToSession in He.
  destruct (getSession (c_sessionId ci) now st2) as [[s|] st3] eqn:Hg;
    simpl in He; [|done].
  apply getSession_Some in Hg as (-> & _ & _).
  apply in_map_iff in He as ([w ci'] & <- & [Hin Hr]%filter_In).
  apply receives_spec in Hr as (Hk & Hex & Hopen).
  rewrite Hc in Hin. rewrite Ho in Hopen. simpl in Hin, Hopen.
  unfold clients_delete in Hin. apply filter_In in Hin as [Hin Hw].
  simpl in Hw. apply negb_true_iff, Nat.eqb_neq in Hw.
  exists w, ci'. repeat (split; [done|]).
  simpl in Hex. intros Hu. rewrite Hu in Hex.
  by rewrite (proj2 (eqs_true _ _) eq_refl) in Hex.
Qed.

(** * Creating a session under a free or an expired id *)

(** [session:create] under an id that is not stored, or whose stored session
    has been idle for longer than the timeout: a new session is stored under
    the id, with the caller as host and only participant, no ingredients,
    recipes, votes or blacklisted names, created and last active now; what
    the expired session held is dropped.  The caller is registered for it
    and is the only one written to, with [session:created].  Sockets that
    were registered before, those of the expired session included, stay
    registered as they were. *)
Theorem handleSessionCreate_new_or_expired (ws : Ws)
  (sessionId userId username : string) (now : Z) (st : Server)
  (Hgone : match sessions st !! sessionId with
           | Some s => SESSION_TIMEOUT < now - lastActivity s
           | None => True
           end) :
  let fresh :=
    mkSession sessionId userId username now now true
      [mkParticipant userId username now true None None]
      [] [] EmptyString [] [] in
  let st' := fst (handleSessionCreate ws sessionId userId username now st) in
  sessions st' !! sessionId = Some fresh
  /\ clients_get ws (clients st')
     = Some (mkClientInfo userId sessionId username)
  /\ userConnections st' = <[userId := ws]> (userConnections st)
  /\ openSockets st' = openSockets st
  /\ snd (handleSessionCreate ws sessionId userId username now st)
     = [Send ws (SessionCreated fresh)]
  /\ (forall w ci, w <> ws ->
      clients_get w (clients st) = Some ci ->
      clients_get w (clients st') = Some ci).
Proof.
  intros fresh st'. subst st'. unfold handleSessionCreate.
  assert (Hg : exists st1,
            getSession sessionId now st = (None, st1)
            /\ same_registry st st1).
  { unfold getSession. destruct (sessions st !! sessionId) as [s|].
    - apply Z.ltb_lt in Hgone. unfold expired. rewrite Hgone.
      eexists. split; [done | by repeat split].
    - eexists. split; [done | by repeat split]. }
  destruct Hg as (st1 & -> & Hc & Hu & Ho). simpl.
  split; [apply lookup_insert_eq|].
  split; [apply clients_get_set_eq|].
  split; [by rewrite Hu|]. split; [done|]. split; [done|].
  intros w ci Hne Hget. rewrite Hc. by rewrite clients_get_set_ne.
Qed.

End Hub.

(** * Examples

    The statements above are put to work on runs of the server, with the
    built-in lowercasing taken on ASCII names. *)

#[local] Existing Instance ascii_builtins.

Lemma evening_reachable : reachable (run evening).
Proof. apply reachable_run. vm_compute. reflexivity. Defined.

Lemma evening_session : sessions (run evening) !! "S" = Some supper.
Proof. vm_compute. reflexivity. Defined.

(** C1, a defect of the code.  The specification has the sweep remove every
    session idle for longer than the timeout and publish [session:expired] to
    every live connection still bound to it, and the comment in the source
    says as much.  The code: in the reachable state [idle_server] socket 1 is
    open and bound to ["S"]; the sweep one millisecond after the timeout
    removes ["S"], and nothing is written on socket 1, because
    [broadcastToSession] runs after [sessions.delete] and returns as soon as
    its own lookup of the session fails. *)
Theorem cleanupExpiredSessions_expired_not_published :
  reachable idle_server
  /\ clients idle_server = [(1%nat, mkClientInfo "U1" "S" "Alice")]
  /\ is_open 1%nat idle_server = true
  /\ (exists s, sessions idle_server !! "S" = Some s
                /\ expired (SESSION_TIMEOUT + 1) s = true)
  /\ sessions (fst (cleanupExpiredSessions (SESSION_TIMEOUT + 1) idle_server))
       !! "S" = None
  /\ snd (cleanupExpiredSessions (SESSION_TIMEOUT + 1) idle_server) = [].
Proof.
  split; [apply reachable_run; vm_compute; reflexivity|].
  split; [reflexivity|]. split; [reflexivity|]. split.
  - eexists. split; [vm_compute; reflexivity | reflexivity].
  - split; [|apply cleanupExpiredSessions_silent].
    rewrite cleanupExpiredSessions_sessions. vm_compute. reflexivity.
Qed.

Lemma handleContextUpdate_host_only_witness :
  handleContextUpdate 2%nat "dessert" 5 two_users = (two_users, [])
  /\ snd (handleContextUpdate 1%nat "dessert" 5 two_users)
     = [Send 2%nat (ContextUpdated "dessert")].
Proof.
  split.
  - refine (proj1 (handleContextUpdate_host_only 2%nat "dessert" 5 two_users
                     (mkClientInfo "U2" "S" "Bob") _ _ _ _) _);
      [reflexivity | vm_compute; reflexivity | reflexivity | vm_compute; discriminate].
  - destruct (proj2 (handleContextUpdate_host_only 1%nat "dessert" 5 two_users
                       (mkClientInfo "U1" "S" "Alice") _
                       ltac:(reflexivity) ltac:(vm_compute; reflexivity)
                       ltac:(reflexivity)) ltac:(vm_compute; reflexivity))
      as (s' & _ & _ & _ & Hev & _).
    rewrite Hev. vm_compute. reflexivity.
Defined.

Lemma handleSessionJoin_already_connected_witness :
  handleSessionJoin 3%nat "S" "U2" "Bob" 5 two_users
  = (two_users,
     [Send 3%nat (SessionError "User already connected from another client")])
  /\ handleSessionCreate 3%nat "S" "U2" "Bob" 5 two_users
     = (two_users, [Send 3%nat (SessionError "Session already exists")]).
Proof.
  destruct (handleSessionJoin_already_connected 3%nat 2%nat "S" "U2" "Bob" 5
              two_users
              breakfast
              ltac:(vm_compute; reflexivity) ltac:(reflexivity)
              ltac:(vm_compute; reflexivity) ltac:(discriminate))
    as (Hjoin & Hcreate & _).
  split; [exact Hjoin | apply Hcreate; discriminate].
Defined.

(** C4 in the specification's wording fails for [session:create]: user ["U2"] is bound to socket 2,
    yet a [session:create] for a new session ["T"] under that user id from
    socket 3 is answered with [session:created], stores the session and
    rebinds the user to socket 3. *)
Lemma handleSessionCreate_ignores_binding :
  userConnections two_users !! "U2" = Some 2%nat
  /\ is_open 2%nat two_users = true
  /\ sessions two_users !! "T" = None
  /\ snd (handleSessionCreate 3%nat "T" "U2" "Bob" 5 two_users)
     = [Send 3%nat
          (SessionCreated
             (mkSession "T" "U2" "Bob" 5 5 true
                [mkParticipant "U2" "Bob" 5 true None None] [] [] EmptyString [] []))]
  /\ userConnections (fst (handleSessionCreate 3%nat "T" "U2" "Bob" 5 two_users))
       !! "U2" = Some 3%nat
  /\ fst (handleSessionCreate 3%nat "T" "U2" "Bob" 5 two_users) <> two_users.
Proof.
  repeat split; try (vm_compute; reflexivity).
  intros H. apply (f_equal (fun st => userConnections st !! "U2")) in H.
  vm_compute in H. discriminate.
Qed.

Lemma add_then_remove_ingredient_witness :
  ingredients
    <$> (sessions
           (fst (handleIngredientsRemove 2%nat "I1" 7
                   (fst (handleIngredientsAdd 1%nat
                           (mkIngredientInput None "Flour" "U1") 6 "I1"
                           two_users)))) !! "S")
  = Some [].
Proof.
  destruct (add_then_remove_ingredient 1%nat 2%nat
              (mkIngredientInput None "Flour" "U1") 6 7 "I1" two_users
              (mkClientInfo "U1" "S" "Alice") (mkClientInfo "U2" "S" "Bob")
              breakfast
              ltac:(reflexivity) ltac:(reflexivity) ltac:(reflexivity)
              ltac:(vm_compute; reflexivity) ltac:(reflexivity)
              ltac:(simpl; tauto)
              (bool_decide_unpack (uuid_fresh "I1" two_users)
                 ltac:(vm_compute; exact I))
              ltac:(vm_compute; discriminate))
    as (_ & s2 & Hs2 & Hing).
  simpl in Hs2. rewrite Hs2. simpl. by rewrite Hing.
Defined.

Lemma handleSessionCreate_host_rejoin_witness :
  snd (handleSessionCreate 3%nat "S" "U1" "Alice" 5
         doorstep)
  = [Send 3%nat
       (SessionCreated
          (mkSession "S" "U1" "Alice" 0 5 true
             [mkParticipant "U1" "Alice" 0 true (Some 5) None;
              mkParticipant "U2" "Bob" 1 true None None] [] [] EmptyString [] []));
     Send 2%nat (ParticipantJoined "U1" "Alice" None (Some 5))]
  /\ userConnections rejoined !! "U1" = Some 3%nat.
Proof.
  destruct (handleSessionCreate_host_rejoin 3%nat "S" "U1" "Alice" 5
              doorstep
              breakfast
              ltac:(apply reachable_run; vm_compute; reflexivity)
              ltac:(vm_compute; reflexivity) ltac:(reflexivity)
              ltac:(reflexivity))
    as (Hrun & _ & _ & Hconn & _).
  split.
  - rewrite Hrun. vm_compute. reflexivity.
  - unfold rejoined. rewrite Hrun. exact Hconn.
Defined.

(** C5 in the specification's wording fails in its parenthesis: after the host's return on socket
    3 the user id is bound to socket 3, and socket 1 still receives the
    session's broadcasts, here the [ingredients:added] that follows Bob's
    [ingredients:add]. *)
Lemma old_socket_still_receives :
  userConnections two_users !! "U1" = Some 1%nat
  /\ userConnections rejoined !! "U1" = Some 3%nat
  /\ snd (handleIngredientsAdd 2%nat (mkIngredientInput None "Flour" "U2") 6
            "I1" rejoined)
     = [Send 1%nat (IngredientsAdded (mkIngredient "I1" "flour" "U2" 6));
        Send 2%nat (IngredientsAdded (mkIngredient "I1" "flour" "U2" 6));
        Send 3%nat (IngredientsAdded (mkIngredient "I1" "flour" "U2" 6))].
Proof. repeat split; vm_compute; reflexivity. Qed.

Lemma ingredients_unique_and_add_witness :
  NoDup (List.map i_id (ingredients supper))
  /\ handleIngredientsAdd 2%nat (mkIngredientInput (Some "mine") "FLOUR" "U2")
       6 "I2" (run evening)
     = (run evening, [])
  /\ exists s',
       sessions
         (fst (handleIngredientsAdd 2%nat
                 (mkIngredientInput (Some "mine") "Salt" "U2") 6 "I2"
                 (run evening)))
         !! "S" = Some s'
       /\ ingredients s'
          = ingredients supper ++ [mkIngredient "I2" "salt" "U2" 6].
Proof.
  destruct (ingredients_unique_and_add (run evening) evening_reachable)
    as [Hinv Hadd].
  split; [|split].
  - exact (proj1 (Hinv "S" supper evening_session)).
  - refine (proj1 (Hadd 2%nat (mkIngredientInput (Some "mine") "FLOUR" "U2")
                     6 "I2" (mkClientInfo "U2" "S" "Bob") supper
                     _ evening_session _) _);
      [vm_compute; reflexivity | reflexivity | simpl; by left].
  - destruct (proj1 (proj2 (Hadd 2%nat
                              (mkIngredientInput (Some "mine") "Salt" "U2")
                              6 "I2" (mkClientInfo "U2" "S" "Bob") supper
                              ltac:(vm_compute; reflexivity) evening_session
                              ltac:(reflexivity)))
                ltac:(vm_compute; intros [H|[]]; discriminate H)
                (bool_decide_unpack (uuid_fresh "I2" (run evening))
                   ltac:(vm_compute; exact I)))
      as (_ & s' & Hs' & Hing).
    exists s'. split; [exact Hs' | exact Hing].
Defined.

Lemma blacklist_disjoint_after_move_witness :
  exists s',
    sessions (fst (handleIngredientsBlacklist 2%nat "Flour" true 6 (run evening)))
      !! "S" = Some s'
    /\ In "flour" (blacklist s')
    /\ blacklist_disjoint s'.
Proof.
  destruct (blacklist_disjoint_after_move 2%nat "Flour" true 6 (run evening)
              (mkClientInfo "U2" "S" "Bob") supper
              evening_reachable ltac:(vm_compute; reflexivity)
              evening_session ltac:(reflexivity)
              ltac:(intros name []))
    as (s' & Hs' & Hin & Hdis & _).
  exists s'. split; [exact Hs'|]. split; [exact Hin|].
  apply Hdis. by left.
Defined.

(** C2 in the specification's wording fails.  With [fromIngredients] false the flour of the
    evening is blacklisted and stays an ingredient; and a later
    [ingredients:blacklist] of sugar with [fromIngredients] true leaves the
    flour on both lists. *)
Lemma blacklist_keeps_ingredient :
  (exists s1,
     sessions
       (fst (handleIngredientsBlacklist 1%nat "Flour" false 6 (run evening)))
       !! "S" = Some s1
     /\ In "flour" (blacklist s1)
     /\ In "flour" (lowered_names (ingredients s1)))
  /\ (exists s2,
        sessions
          (fst (handleIngredientsBlacklist 1%nat "Sugar" true 7
                  (fst (handleIngredientsBlacklist 1%nat "Flour" false 6
                          (run evening)))))
          !! "S" = Some s2
        /\ In "flour" (blacklist s2)
        /\ In "flour" (lowered_names (ingredients s2))).
Proof.
  split; eexists; (split; [vm_compute; reflexivity|]); simpl; auto.
Qed.

Lemma recipe_tally_invariant_witness :
  r_votes soup = Z.of_nat (length ["U1"]) - Z.of_nat (length ["U2"])
  /\ (forall u,
        In u (r_voterIds soup)
        <-> exists t, vote_on (votes supper) u "R1" = Some t /\ t <> EmptyString).
Proof.
  destruct (recipe_tally_invariant (run evening) "S" supper soup
              evening_reachable evening_session ltac:(by left))
    as (_ & _ & _ & _ & Hv & _ & Hids & _).
  split; [exact Hv | exact Hids].
Defined.

(** C3 in the specification's wording fails: the handler stores whatever
    vote type the frame carries, unless it is ["neutral"], and the recount
    lists every user with a stored vote.  Alice votes the soup up and Bob
    votes it ["sideways"]: the recipe has votes 1 and the voters U1 and U2,
    and Bob holds neither an up nor a down vote.  And where the runs of
    [reachable] end: Mallory, registered under the user id ["__proto__"],
    votes the soup up; [session.votes["__proto__"]] is [Object.prototype],
    so the vote becomes its property ["R1"], which the vote object of every
    user inherits. *)
Lemma voter_without_up_or_down :
  reachable (run potluck)
  /\ (exists s r,
        sessions (run potluck) !! "S" = Some s
        /\ In r (recipes s)
        /\ r_votes r = 1
        /\ In "U2" (r_voterIds r)
        /\ vote_on (votes s) "U2" (r_id r) <> Some Up
        /\ vote_on (votes s) "U2" (r_id r) <> Some Down)
  /\ reachable (run intruder)
  /\ clients_get 4%nat (clients (run intruder))
     = Some (mkClientInfo "__proto__" "S" "Mallory")
  /\ In (BuiltinWrite "__proto__" "R1" Up)
       (snd (handleRecipesVote 4%nat "R1" Up 6 (run intruder))).
Proof.
  split; [apply reachable_run; vm_compute; reflexivity|].
  split.
  { exists (mkSession "S" "U1" "Alice" 0 4 true
              [mkParticipant "U1" "Alice" 0 true None None;
               mkParticipant "U2" "Bob" 1 true None None]
              [] [] EmptyString [mkRecipe "R1" "soup" 2 1 ["U1"; "U2"]]
              [("U1", {["R1" := Up]}); ("U2", {["R1" := "sideways"]})]),
           (mkRecipe "R1" "soup" 2 1 ["U1"; "U2"]).
    split; [vm_compute; reflexivity|]. split; [by left|]. split; [done|].
    split; [simpl; auto|]. split; vm_compute; discriminate. }
  split; [apply reachable_run; vm_compute; reflexivity|].
  split; [vm_compute; reflexivity|].
  vm_compute. by left.
Qed.





Lemma unregistered_socket_ignored_witness :
  handleMessage 9%nat (RecipesVote "R1" Up) 6 "x" (run evening)
  = (run evening, []).
Proof.
  apply (unregistered_socket_ignored 9%nat (RecipesVote "R1" Up) 6 "x"
           (run evening));
    [vm_compute; reflexivity | reflexivity].
Defined.

Lemma stale_session_command_dropped_witness :
  snd (handleMessage 2%nat (IngredientsAdd (mkIngredientInput None "Salt" "U2"))
         (SESSION_TIMEOUT + 6) "I9" (run evening)) = []
  /\ sessions
       (fst (handleMessage 2%nat
               (IngredientsAdd (mkIngredientInput None "Salt" "U2"))
               (SESSION_TIMEOUT + 6) "I9" (run evening))) !! "S" = None.
Proof.
  destruct (stale_session_command_dropped 2%nat
              (IngredientsAdd (mkIngredientInput None "Salt" "U2"))
              (SESSION_TIMEOUT + 6) "I9" (run evening)
              (mkClientInfo "U2" "S" "Bob")
              ltac:(vm_compute; reflexivity) ltac:(reflexivity)
              ltac:(vm_compute; reflexivity))
    as (Hev & Hss & _).
  split; [exact Hev|]. rewrite Hss. apply lookup_delete_eq.
Defined.

Lemma session_commands_keep_registry_witness :
  clients (fst (handleMessage 2%nat (RecipesRemove "R1") 6 "x" (run evening)))
  = clients (run evening).
Proof.
  exact (proj1 (session_commands_keep_registry 2%nat (RecipesRemove "R1") 6 "x"
                  (run evening) ltac:(reflexivity) ltac:(discriminate))).
Defined.

(** Two sessions side by side: the evening's ["S"], and ["T"] that Dan
    creates on socket 4. *)
Lemma command_touches_only_its_session_witness :
  sessions
    (fst (handleMessage 4%nat (RecipesAdd "stew") 8 "R2"
            (run (evening
                  ++ [Accept 4%nat "c4";
                      Frame 4%nat (SessionCreate "T" "U4" "Dan") 7 "x7"]))))
    !! "S"
  = Some supper.
Proof.
  rewrite (command_touches_only_its_session 4%nat (RecipesAdd "stew") 8 "R2"
             (run (evening
                   ++ [Accept 4%nat "c4";
                       Frame 4%nat (SessionCreate "T" "U4" "Dan") 7 "x7"]))
             "S" ltac:(vm_compute; discriminate)).
  vm_compute. reflexivity.
Defined.

Lemma participants_unique_host_present_witness :
  NoDup (List.map p_id (participants supper))
  /\ exists p,
       In p (participants supper) /\ p_id p = "U1" /\ p_name p = "Alice".
Proof.
  exact (proj2 (participants_unique_host_present (run evening) "S" supper
                  evening_reachable evening_session)).
Defined.

Lemma names_lowercase_blacklist_unique_witness :
  toLowerCase (i_name (mkIngredient "I1" "flour" "U1" 3))
  = i_name (mkIngredient "I1" "flour" "U1" 3)
  /\ NoDup (blacklist supper).
Proof.
  destruct (names_lowercase_blacklist_unique (run evening) "S" supper
              evening_reachable evening_session) as (Hlow & Hnd & _).
  split; [|exact Hnd]. apply Hlow. by left.
Defined.


Lemma host_only_commands_rejected_witness :
  handleSessionEnd 2%nat 6 (run evening)
  = (run evening, [Send 2%nat (ErrorMsg "Only host can end session")]).
Proof.
  exact (proj2 (proj2 (host_only_commands_rejected 2%nat "U2" false 6
                         (run evening) (mkClientInfo "U2" "S" "Bob") supper
                         ltac:(vm_compute; reflexivity) evening_session
                         ltac:(reflexivity) ltac:(discriminate)))).
Defined.

Lemma handleHostTransfer_by_host_witness :
  (exists s',
     sessions (fst (handleHostTransfer 1%nat "U2" 6 (run evening))) !! "S"
     = Some s'
     /\ hostId s' = "U2" /\ hostName s' = "Bob")
  /\ handleHostTransfer 1%nat "U7" 6 (run evening)
     = (run evening, [Send 1%nat (ErrorMsg "New host not found in session")]).
Proof.
  destruct (handleHostTransfer_by_host 1%nat "U2" 6 (run evening)
              (mkClientInfo "U1" "S" "Alice") supper
              ltac:(vm_compute; reflexivity) evening_session
              ltac:(reflexivity) ltac:(reflexivity)) as [Hok _].
  destruct (Hok (mkParticipant "U2" "Bob" 1 true None None) ltac:(reflexivity))
    as (Hs' & Hh & Hn & _).
  split; [eexists; split; [exact Hs'|]; split; [exact Hh | exact Hn]|].
  apply (handleHostTransfer_by_host 1%nat "U7" 6 (run evening)
           (mkClientInfo "U1" "S" "Alice") supper
           ltac:(vm_compute; reflexivity) evening_session
           ltac:(reflexivity) ltac:(reflexivity)).
  simpl. intros [H|[H|[]]]; discriminate.
Defined.

Lemma host_self_transfer_witness :
  sessions (fst (handleHostTransfer 1%nat "U1" 6 (run evening))) !! "S"
  = Some (set_lastActivity 6 supper).
Proof.
  exact (proj1 (host_self_transfer 1%nat 6 (run evening)
                  (mkClientInfo "U1" "S" "Alice") supper
                  evening_reachable ltac:(vm_compute; reflexivity)
                  evening_session ltac:(reflexivity) ltac:(reflexivity))).
Defined.

Lemma host_transfer_hands_over_witness :
  handleSessionEnd 1%nat 7 (fst (handleHostTransfer 1%nat "U2" 6 (run evening)))
  = (fst (handleHostTransfer 1%nat "U2" 6 (run evening)),
     [Send 1%nat (ErrorMsg "Only host can end session")]).
Proof.
  exact (proj1 (host_transfer_hands_over 1%nat "U2" "x" 6 7 (run evening)
                  (mkClientInfo "U1" "S" "Alice") supper
                  (mkParticipant "U2" "Bob" 1 true None None)
                  ltac:(vm_compute; reflexivity) evening_session
                  ltac:(reflexivity) ltac:(reflexivity) ltac:(reflexivity)
                  ltac:(discriminate) ltac:(vm_compute; discriminate))).
Defined.

Lemma handleHostPermissions_by_host_witness :
  snd (handleHostPermissions 1%nat false 6 (run evening))
  = [Send 1%nat (HostPermissionsUpdated false
                   (set_lastActivity 6 (set_allowRecipeGeneration false supper)));
     Send 2%nat (HostPermissionsUpdated false
                   (set_lastActivity 6 (set_allowRecipeGeneration false supper)))].
Proof.
  destruct (handleHostPermissions_by_host 1%nat false 6 (run evening)
              (mkClientInfo "U1" "S" "Alice") supper
              ltac:(vm_compute; reflexivity) evening_session
              ltac:(reflexivity) ltac:(reflexivity)) as (_ & _ & Hev & _).
  rewrite Hev. vm_compute. reflexivity.
Defined.

Lemma handleSessionEnd_by_host_witness :
  sessions (fst (handleSessionEnd 1%nat 6 (run evening))) !! "S" = None
  /\ clients (fst (handleSessionEnd 1%nat 6 (run evening))) = []
  /\ snd (handleSessionEnd 1%nat 6 (run evening))
     = [Send 1%nat (SessionEnded "Session has been ended by the host");
        Send 2%nat (SessionEnded "Session has been ended by the host");
        Close 1%nat 1000 "Session ended by host";
        Close 2%nat 1000 "Session ended by host"].
Proof.
  destruct (handleSessionEnd_by_host 1%nat 6 (run evening)
              (mkClientInfo "U1" "S" "Alice") supper
              evening_reachable ltac:(vm_compute; reflexivity)
              evening_session ltac:(reflexivity) ltac:(reflexivity))
    as (Hs & Hc & _ & _ & Hev).
  split; [exact Hs|]. split.
  - rewrite Hc. vm_compute. reflexivity.
  - rewrite Hev. vm_compute. reflexivity.
Defined.

(** After the end of the evening's session Bob's socket closes, the reaper
    runs and Dan opens a session of his own: a join of ["S"] is still
    refused. *)
Lemma session_end_is_final_witness :
  handleSessionJoin 5%nat "S" "U5" "Eve" 7
    (fst (handleSessionEnd 1%nat 6 (run evening)))
  = (fst (handleSessionEnd 1%nat 6 (run evening)),
     [Send 5%nat (SessionError "Session not found or expired")])
  /\ snd (handleSessionJoin 5%nat "S" "U5" "Eve" 11
            (foldl next (fst (handleSessionEnd 1%nat 6 (run evening)))
               [Closed 2%nat 7; Tick 8; Accept 4%nat "c4";
                Frame 4%nat (SessionCreate "T" "U4" "Dan") 9 "x9"]))
     = [Send 5%nat (SessionError "Session not found or expired")].
Proof.
  destruct (session_end_is_final 1%nat 6 (run evening)
              (mkClientInfo "U1" "S" "Alice") supper
              evening_reachable ltac:(vm_compute; reflexivity)
              evening_session ltac:(reflexivity) ltac:(reflexivity))
    as (Hnow & _ & Hlater).
  split; [exact (Hnow 5%nat "U5" "Eve" 7)|].
  destruct (Hlater [Closed 2%nat 7; Tick 8; Accept 4%nat "c4";
                    Frame 4%nat (SessionCreate "T" "U4" "Dan") 9 "x9"]
              5%nat "U5" "Eve" 11 ltac:(vm_compute; reflexivity)
              ltac:(vm_compute; reflexivity))
    as [_ Hjoin].
  exact (f_equal snd Hjoin).
Defined.

Lemma handleSessionJoin_new_participant_witness :
  exists s',
    sessions (fst (handleSessionJoin 3%nat "S" "U3" "Carol" 6 doorstep)) !! "S"
    = Some s'
    /\ participants s'
       = participants breakfast ++ [mkParticipant "U3" "Carol" 6 true None None].
Proof.
  destruct (handleSessionJoin_new_participant 3%nat "S" "U3" "Carol" 6 doorstep
              breakfast ltac:(vm_compute; reflexivity) ltac:(reflexivity)
              ltac:(vm_compute; reflexivity)
              ltac:(simpl; intros [H|[H|[]]]; discriminate))
    as (s' & Hs' & Hps & _).
  exists s'. split; [exact Hs' | exact Hps].
Defined.

Lemma handleDisconnection_registered_witness :
  snd (handleDisconnection 2%nat 6 (run evening))
  = [Send 1%nat (ParticipantDisconnected "U2" "Bob")]
  /\ userConnections (fst (handleDisconnection 2%nat 6 (run evening))) !! "U2"
     = None.
Proof.
  destruct (handleDisconnection_registered 2%nat 6 (run evening)
              (mkClientInfo "U2" "S" "Bob") supper
              ltac:(vm_compute; reflexivity) evening_session
              ltac:(reflexivity)) as (_ & _ & Hu & _).
  split; [vm_compute; reflexivity | exact Hu].
Defined.

Lemma disconnect_then_rejoin_witness :
  exists s2,
    sessions
      (fst (handleSessionJoin 5%nat "S" "U2" "Robert" 8
              (fst (handleDisconnection 2%nat 7 (run late_evening))))) !! "S"
    = Some s2
    /\ List.find (fun p => eqs (p_id p) "U2") (participants s2)
       = Some (mkParticipant "U2" "Bob" 1 true (Some 8) (Some 7)).
Proof.
  destruct (disconnect_then_rejoin 2%nat 5%nat "Robert" 7 8 (run late_evening)
              (mkClientInfo "U2" "S" "Bob") late_supper
              (mkParticipant "U2" "Bob" 1 true None None)
              ltac:(vm_compute; reflexivity) ltac:(vm_compute; reflexivity)
              ltac:(reflexivity) ltac:(reflexivity) ltac:(reflexivity))
    as (s2 & Hs2 & _ & Hfind & _).
  exists s2. split; [exact Hs2 | exact Hfind].
Defined.

Lemma handleRecipesRemove_removes_witness :
  (exists s',
     sessions (fst (handleRecipesRemove 2%nat "R1" 6 (run evening))) !! "S"
     = Some s'
     /\ recipes s' = [] /\ votes s' = votes supper)
  /\ handleRecipesRemove 2%nat "R9" 6 (run evening) = (run evening, []).
Proof.
  destruct (handleRecipesRemove_removes 2%nat "R1" 6 (run evening)
              (mkClientInfo "U2" "S" "Bob") supper
              evening_reachable ltac:(vm_compute; reflexivity)
              evening_session ltac:(reflexivity)) as [Hrm _].
  destruct (Hrm soup ltac:(by left) ltac:(reflexivity))
    as (s' & Hs' & Hrec & _ & Hv & _).
  split; [exists s'; split; [exact Hs'|]; split; [exact Hrec | exact Hv]|].
  apply (handleRecipesRemove_removes 2%nat "R9" 6 (run evening)
           (mkClientInfo "U2" "S" "Bob") supper
           evening_reachable ltac:(vm_compute; reflexivity)
           evening_session ltac:(reflexivity)).
  simpl. intros [H|[]]. discriminate.
Defined.

Lemma handleIngredientsRemove_removes_witness :
  (exists s',
     sessions (fst (handleIngredientsRemove 2%nat "I1" 6 (run evening))) !! "S"
     = Some s'
     /\ ingredients s' = [])
  /\ handleIngredientsRemove 2%nat "I9" 6 (run evening) = (run evening, []).
Proof.
  destruct (handleIngredientsRemove_removes 2%nat "I1" 6 (run evening)
              (mkClientInfo "U2" "S" "Bob") supper
              evening_reachable ltac:(vm_compute; reflexivity)
              evening_session ltac:(reflexivity)) as [Hrm _].
  destruct (Hrm (mkIngredient "I1" "flour" "U1" 3) ltac:(by left)
              ltac:(reflexivity)) as (s' & Hs' & Hing & _).
  split; [exists s'; split; [exact Hs' | exact Hing]|].
  apply (handleIngredientsRemove_removes 2%nat "I9" 6 (run evening)
           (mkClientInfo "U2" "S" "Bob") supper
           evening_reachable ltac:(vm_compute; reflexivity)
           evening_session ltac:(reflexivity)).
  simpl. intros [H|[]]. discriminate.
Defined.

Lemma handleRecipesAdd_appends_witness :
  exists s',
    sessions (fst (handleRecipesAdd 2%nat "stew" 6 "R2" (run evening))) !! "S"
    = Some s'
    /\ recipes s' = recipes supper ++ [mkRecipe "R2" "stew" 6 0 []]
    /\ votes s' = votes supper.
Proof.
  destruct (handleRecipesAdd_appends 2%nat "stew" 6 "R2" (run evening)
              (mkClientInfo "U2" "S" "Bob") supper
              ltac:(vm_compute; reflexivity) evening_session
              ltac:(reflexivity)
              (bool_decide_unpack (uuid_fresh "R2" (run evening))
                 ltac:(vm_compute; exact I)))
    as (s' & Hs' & Hrec & _ & _ & Hv & _).
  exists s'. split; [exact Hs'|]. split; [exact Hrec | exact Hv].
Defined.

Lemma vote_replaces_prior_vote_witness :
  exists s' r',
    sessions (fst (handleRecipesVote 2%nat "R1" Down 6 (run evening))) !! "S"
    = Some s'
    /\ In r' (recipes s')
    /\ r_votes r'
       = r_votes soup - vote_value (vote_on (votes supper) "U2" "R1")
         + vote_value (Some Down).
Proof.
  destruct (vote_replaces_prior_vote 2%nat "R1" Down 6 (run evening)
              (mkClientInfo "U2" "S" "Bob") supper soup
              evening_reachable ltac:(vm_compute; reflexivity)
              ltac:(reflexivity)
              evening_session ltac:(reflexivity) ltac:(by left)
              ltac:(reflexivity))
    as (s' & r' & Hs' & _ & Hin & _ & _ & Hv & _).
  exists s', r'. split; [exact Hs'|]. split; [exact Hin | exact Hv].
Defined.

Lemma handleDisconnection_stays_in_session_witness :
  exists w ci',
    Send 1%nat (ParticipantDisconnected "U2" "Bob")
    = Send w (ParticipantDisconnected "U2" "Bob")
    /\ w <> 2%nat
    /\ w ∈ openSockets (run late_evening)
    /\ In (w, ci') (clients (run late_evening))
    /\ c_sessionId ci' = "S"
    /\ c_userId ci' <> "U2".
Proof.
  exact (handleDisconnection_stays_in_session 2%nat 7 (run late_evening)
           (mkClientInfo "U2" "S" "Bob")
           (Send 1%nat (ParticipantDisconnected "U2" "Bob"))
           ltac:(vm_compute; reflexivity)
           ltac:(vm_compute; left; reflexivity)).
Defined.

(** Long after the evening, Dan takes the id ["S"] on a new socket; Bob's
    socket is still registered under it. *)
Lemma handleSessionCreate_new_or_expired_witness :
  sessions
    (fst (handleSessionCreate 4%nat "S" "U4" "Dan" (SESSION_TIMEOUT + 6)
            (run evening))) !! "S"
  = Some (mkSession "S" "U4" "Dan" (SESSION_TIMEOUT + 6) (SESSION_TIMEOUT + 6)
            true
            [mkParticipant "U4" "Dan" (SESSION_TIMEOUT + 6) true None None]
            [] [] EmptyString [] [])
  /\ clients_get 2%nat
       (clients
          (fst (handleSessionCreate 4%nat "S" "U4" "Dan" (SESSION_TIMEOUT + 6)
                  (run evening))))
     = Some (mkClientInfo "U2" "S" "Bob").
Proof.
  destruct (handleSessionCreate_new_or_expired 4%nat "S" "U4" "Dan"
              (SESSION_TIMEOUT + 6) (run evening)
              ltac:(vm_compute; reflexivity))
    as (Hs & _ & _ & _ & _ & Hold).
  split; [exact Hs|].
  apply Hold; [discriminate | vm_compute; reflexivity].
Defined.
